(** * A shallow embedding of [server.py]

    The multi-threaded HTTP server of [src/server.py] is embedded function by
    function: Python [str] values are sequences of Unicode code points,
    [bytes] values are sequences of octets, the socket, the file system, the
    clock and the random generator are reached through an environment record,
    and Python exceptions are an explicit outcome of every computation. *)

From Stdlib Require Import List NArith Bool Ascii String Lia Arith PeanoNat DecimalString.
Import ListNotations.

(** ** Python [str] and [bytes] *)

Module PyStr.

(** A [str] is a list of code points; a [bytes] object is a list of octets. *)
Definition codepoint := N.
Definition pystr := list codepoint.
Definition bytes := list ascii.

(** An ASCII literal of the source, as a [str] and as [bytes]. *)
Definition lit (s : string) : pystr := map N_of_ascii (list_ascii_of_string s).
Definition blit (s : string) : bytes := list_ascii_of_string s.

Definition CR : codepoint := 13%N.
Definition LF : codepoint := 10%N.
Definition CRLF : pystr := [CR; LF].
Definition DQUOTE : pystr := [34%N].
Definition bCRLF : bytes := map ascii_of_N CRLF.

(** [a == b] on [str]. *)
Fixpoint str_eqb (a b : pystr) : bool :=
  match a, b with
  | [], [] => true
  | x :: a', y :: b' => N.eqb x y && str_eqb a' b'
  | _, _ => false
  end.

(** [s.startswith(p)]. *)
Fixpoint startswith (s p : pystr) {struct p} : bool :=
  match p with
  | [] => true
  | y :: p' =>
      match s with
      | [] => false
      | x :: s' => N.eqb x y && startswith s' p'
      end
  end.

(** [s.endswith(p)]. *)
Definition endswith (s p : pystr) : bool := startswith (rev s) (rev p).

(** [sub in s]. *)
Fixpoint py_in (sub s : pystr) : bool :=
  startswith s sub ||
  match s with
  | [] => false
  | _ :: s' => py_in sub s'
  end.

(** [maxsplit] of [str.split]: [None] stands for the default (no limit). *)
Definition may_split (maxsplit : option nat) : bool :=
  match maxsplit with
  | None => true
  | Some 0 => false
  | Some (S _) => true
  end.

Definition one_less (maxsplit : option nat) : option nat :=
  match maxsplit with
  | None => None
  | Some n => Some (pred n)
  end.

(** Adds a character in front of the first piece. *)
Definition cons_first (c : codepoint) (pieces : list pystr) : list pystr :=
  match pieces with
  | piece :: rest => (c :: piece) :: rest
  | [] => [[c]]
  end.

(** [s.split(sep, maxsplit)] for a non-empty [sep]: the text is scanned from
    the left, every occurrence of [sep] found while splits remain closes the
    current piece, and [skip] counts the characters of the separator still to
    be passed over.  The first piece of the result is the one being read. *)
Fixpoint split_from (sep : pystr) (maxsplit : option nat) (skip : nat)
         (s : pystr) : list pystr :=
  match s with
  | [] => [[]]
  | c :: rest =>
      match skip with
      | S k => split_from sep maxsplit k rest
      | O =>
          if may_split maxsplit && startswith s sep
          then [] :: split_from sep (one_less maxsplit) (List.length sep - 1) rest
          else cons_first c (split_from sep maxsplit 0 rest)
      end
  end.

Definition py_split (sep : pystr) (maxsplit : option nat) (s : pystr) : list pystr :=
  split_from sep maxsplit 0 s.

(** [str(n)] for a non-negative [int]. *)
Definition str_of_nat (n : nat) : pystr :=
  lit (NilZero.string_of_uint (Nat.to_uint n)).

Definition str_of_N (n : N) : pystr :=
  lit (NilZero.string_of_uint (N.to_uint n)).

(** *** UTF-8, as the strict codec of [bytes.decode('utf-8')] *)

Definition in_range (lo hi b : N) : bool := (lo <=? b)%N && (b <=? hi)%N.
Definition is_cont (b : N) : bool := in_range 0x80 0xBF b.

(** Bounds of the second octet of a three- and four-octet sequence. *)
Definition second_lo3 (b0 : N) : N := if (b0 =? 0xE0)%N then 0xA0%N else 0x80%N.
Definition second_hi3 (b0 : N) : N := if (b0 =? 0xED)%N then 0x9F%N else 0xBF%N.
Definition second_lo4 (b0 : N) : N := if (b0 =? 0xF0)%N then 0x90%N else 0x80%N.
Definition second_hi4 (b0 : N) : N := if (b0 =? 0xF4)%N then 0x8F%N else 0xBF%N.

(** [None] stands for [UnicodeDecodeError]. *)
Fixpoint utf8_decode_octets (bs : list N) : option pystr :=
  match bs with
  | [] => Some []
  | b0 :: r0 =>
      if (b0 <? 0x80)%N then
        option_map (cons b0) (utf8_decode_octets r0)
      else if in_range 0xC2 0xDF b0 then
        match r0 with
        | b1 :: r1 =>
            if is_cont b1
            then option_map (cons ((b0 - 0xC0) * 64 + (b1 - 0x80))%N)
                            (utf8_decode_octets r1)
            else None
        | _ => None
        end
      else if in_range 0xE0 0xEF b0 then
        match r0 with
        | b1 :: b2 :: r2 =>
            if in_range (second_lo3 b0) (second_hi3 b0) b1 && is_cont b2
            then option_map
                   (cons ((b0 - 0xE0) * 4096 + (b1 - 0x80) * 64 + (b2 - 0x80))%N)
                   (utf8_decode_octets r2)
            else None
        | _ => None
        end
      else if in_range 0xF0 0xF4 b0 then
        match r0 with
        | b1 :: b2 :: b3 :: r3 =>
            if in_range (second_lo4 b0) (second_hi4 b0) b1 && is_cont b2 && is_cont b3
            then option_map
                   (cons ((b0 - 0xF0) * 262144 + (b1 - 0x80) * 4096
                          + (b2 - 0x80) * 64 + (b3 - 0x80))%N)
                   (utf8_decode_octets r3)
            else None
        | _ => None
        end
      else None
  end.

Definition utf8_decode (data : bytes) : option pystr :=
  utf8_decode_octets (map N_of_ascii data).

(** The octets of one code point; [None] stands for [UnicodeEncodeError]
    (a lone surrogate). *)
Definition utf8_encode_cp (c : codepoint) : option (list N) :=
  if (c <? 0x80)%N then Some [c]
  else if (c <? 0x800)%N then Some [0xC0 + c / 64; 0x80 + c mod 64]%N
  else if (c <? 0x10000)%N then
    if in_range 0xD800 0xDFFF c then None
    else Some [0xE0 + c / 4096; 0x80 + (c / 64) mod 64; 0x80 + c mod 64]%N
  else if (c <? 0x110000)%N then
    Some [0xF0 + c / 262144; 0x80 + (c / 4096) mod 64;
          0x80 + (c / 64) mod 64; 0x80 + c mod 64]%N
  else None.

Fixpoint utf8_encode (s : pystr) : option bytes :=
  match s with
  | [] => Some []
  | c :: s' =>
      match utf8_encode_cp c, utf8_encode s' with
      | Some o, Some b => Some (map ascii_of_N o ++ b)
      | _, _ => None
      end
  end.

End PyStr.

(** ** Exceptions, effects and the environment *)

Module Runtime.
Import PyStr.

(** The exception classes this program can meet.  All of them derive from
    [Exception]; [OtherError] stands for any further one (an [OSError] of a
    socket or of the file system, a [RecursionError] ...). *)
Inductive exn : Type :=
| SocketTimeout
| FileNotFoundError
| JSONDecodeError
| UnicodeDecodeError
| UnicodeEncodeError
| ValueError
| IndexError
| KeyError
| QueueFull
| OtherError.

Inductive res (A : Type) : Type :=
| Val (a : A)
| Raise (e : exn).
Arguments Val {A} a.
Arguments Raise {A} e.

Definition sock := nat.

(** What a socket operation can raise: [socket.timeout], or another error of
    the connection (reset, broken pipe ...). *)
Inductive sock_exn : Type :=
| TimedOut
| ConnectionError.

Inductive sock_result (A : Type) : Type :=
| Done (a : A)
| Failed (e : sock_exn).
Arguments Done {A} a.
Arguments Failed {A} e.

Definition of_sock {A} (r : sock_result A) : res A :=
  match r with
  | Done a => Val a
  | Failed TimedOut => Raise SocketTimeout
  | Failed ConnectionError => Raise OtherError
  end.

Inductive file_mode : Type := ModeRB | ModeW.

(** What the program does to the outside world, in order. *)
Inductive event : Type :=
| EvSetTimeout (s : sock) (seconds : nat)
| EvRecv (s : sock) (bufsize : N)
| EvSendAll (s : sock) (data : bytes)
| EvClose (s : sock)
| EvOpen (path : pystr) (mode : file_mode).

(** The collaborators of the server: [W] is the state of the outside world,
    [J] the type of decoded JSON documents.  A socket operation may raise a
    socket error, the JSON decoder and the file operations any exception;
    [settimeout] and [close] on the open client socket, the clock and the
    random generator do not raise. *)
Record Env (W J : Type) : Type := {
  str_lower : pystr -> pystr;                       (* str.lower *)
  json_loads : pystr -> res J;                      (* json.loads *)
  sock_recv : sock -> N -> W -> sock_result bytes * W;    (* socket.recv *)
  sock_sendall : sock -> bytes -> W -> sock_result unit * W; (* socket.sendall *)
  read_file : pystr -> W -> res bytes * W;          (* open(p, 'rb') ... f.read() *)
  write_json_file : pystr -> J -> W -> res unit * W;(* open(p, 'w') ... json.dump *)
  strftime : pystr -> bool -> W -> pystr * W;       (* time.strftime; [true]: of gmtime() *)
  random_index : nat -> W -> nat * W                (* floor(random() * n) *)
}.

Arguments str_lower {W J} e _.
Arguments json_loads {W J} e _.
Arguments sock_recv {W J} e _ _ _.
Arguments sock_sendall {W J} e _ _ _.
Arguments read_file {W J} e _ _.
Arguments write_json_file {W J} e _ _ _.
Arguments strftime {W J} e _ _ _.
Arguments random_index {W J} e _ _.

Section Monad.
Variables W J : Type.
Variable E : Env W J.

(** A computation: from a world to an outcome, the next world and the events
    it produced. *)
Definition M (A : Type) : Type := W -> res A * W * list event.

Definition ret {A} (a : A) : M A := fun w => (Val a, w, []).

Definition raise {A} (e : exn) : M A := fun w => (Raise e, w, []).

Definition bind {A B} (m : M A) (k : A -> M B) : M B :=
  fun w =>
    match m w with
    | (Val a, w1, t1) =>
        match k a w1 with
        | (r, w2, t2) => (r, w2, t1 ++ t2)
        end
    | (Raise e, w1, t1) => (Raise e, w1, t1)
    end.

(** [try: m  except ...: h e]; the handler re-raises what it does not catch. *)
Definition try_except {A} (m : M A) (h : exn -> M A) : M A :=
  fun w =>
    match m w with
    | (Val a, w1, t1) => (Val a, w1, t1)
    | (Raise e, w1, t1) =>
        match h e w1 with
        | (r, w2, t2) => (r, w2, t1 ++ t2)
        end
    end.

(** [try: m  finally: f]. *)
Definition try_finally {A} (m : M A) (f : M unit) : M A :=
  fun w =>
    match m w with
    | (r, w1, t1) =>
        match f w1 with
        | (Val _, w2, t2) => (r, w2, t1 ++ t2)
        | (Raise e, w2, t2) => (Raise e, w2, t1 ++ t2)
        end
    end.

Definition lift {A} (r : res A) : M A := fun w => (r, w, []).

Definition settimeout (s : sock) (seconds : nat) : M unit :=
  fun w => (Val tt, w, [EvSetTimeout s seconds]).

Definition recv (s : sock) (bufsize : N) : M bytes :=
  fun w => let (r, w1) := sock_recv E s bufsize w in
           (of_sock r, w1, [EvRecv s bufsize]).

Definition sendall (s : sock) (data : bytes) : M unit :=
  fun w => let (r, w1) := sock_sendall E s data w in
           (of_sock r, w1, [EvSendAll s data]).

Definition close (s : sock) : M unit :=
  fun w => (Val tt, w, [EvClose s]).

Definition open_read (path : pystr) : M bytes :=
  fun w => let (r, w1) := read_file E path w in (r, w1, [EvOpen path ModeRB]).

Definition open_write_json (path : pystr) (doc : J) : M unit :=
  fun w => let (r, w1) := write_json_file E path doc w in (r, w1, [EvOpen path ModeW]).

Definition time_strftime (format : pystr) (gmt : bool) : M pystr :=
  fun w => let (s, w1) := strftime E format gmt w in (Val s, w1, []).

Definition random_below (n : nat) : M nat :=
  fun w => let (i, w1) := random_index E n w in (Val i, w1, []).

(** [bytes.decode('utf-8')] and [str.encode('utf-8')]. *)
Definition decode (data : bytes) : M pystr :=
  match utf8_decode data with
  | Some s => ret s
  | None => raise UnicodeDecodeError
  end.

Definition encode (s : pystr) : M bytes :=
  match utf8_encode s with
  | Some b => ret b
  | None => raise UnicodeEncodeError
  end.

End Monad.

Arguments M W A : clear implicits.
Arguments recv {W J} E s bufsize _.
Arguments sendall {W J} E s data _.
Arguments open_read {W J} E path _.
Arguments open_write_json {W J} E path doc _.
Arguments time_strftime {W J} E format gmt _.
Arguments random_below {W J} E n _.
Arguments ret {W A} a.
Arguments raise {W A} e.
Arguments bind {W A B} m k.
Arguments try_except {W A} m h.
Arguments try_finally {W A} m f.
Arguments lift {W A} r.
Arguments settimeout {W} s seconds.
Arguments close {W} s.
Arguments decode {W} data.
Arguments encode {W} s.

Definition outcome {W A} (x : res A * W * list event) : res A := fst (fst x).
Definition world_after {W A} (x : res A * W * list event) : W := snd (fst x).
Definition trace {W A} (x : res A * W * list event) : list event := snd x.

(** Every event of every run of [m] satisfies [Q]; every normal return of
    [m] satisfies [P]. *)
Definition emits {W A} (Q : event -> Prop) (m : M W A) : Prop :=
  forall w, Forall Q (trace (m w)).

Definition returns {W A} (P : A -> Prop) (m : M W A) : Prop :=
  forall w, match outcome (m w) with Val a => P a | Raise _ => True end.

End Runtime.

Declare Scope py_scope.
Delimit Scope py_scope with py.
Notation "x <- m ;; k" := (Runtime.bind m (fun x => k))
  (at level 61, m at next level, right associativity) : py_scope.
Notation "m ;; k" := (Runtime.bind m (fun _ => k))
  (at level 61, right associativity) : py_scope.

(** ** The server *)

Module Server.
Import PyStr Runtime.
Local Open Scope py_scope.

(** *** Server configuration (module globals of [server.py]) *)

Record Config : Type := {
  HOST : pystr;
  PORT : N;
  MAX_THREADS : nat
}.

Definition default_config : Config :=
  {| HOST := lit "127.0.0.1"; PORT := 8080%N; MAX_THREADS := 10 |}.

Definition MAX_QUEUE_SIZE : nat := 50.

(** *** [dict] with [str] keys and values, in insertion order *)

Definition dict := list (pystr * pystr).

Fixpoint dict_set (k v : pystr) (d : dict) : dict :=
  match d with
  | [] => [(k, v)]
  | (k', v') :: d' =>
      if str_eqb k' k then (k', v) :: d' else (k', v') :: dict_set k v d'
  end.

Fixpoint dict_find (k : pystr) (d : dict) : option pystr :=
  match d with
  | [] => None
  | (k', v') :: d' => if str_eqb k' k then Some v' else dict_find k d'
  end.

(** [d.get(k, default)], [k in d] and [d[k]]. *)
Definition dict_get (k default : pystr) (d : dict) : pystr :=
  match dict_find k d with
  | Some v => v
  | None => default
  end.

Definition dict_mem (k : pystr) (d : dict) : bool :=
  match dict_find k d with
  | Some _ => true
  | None => false
  end.

Definition dict_index (k : pystr) (d : dict) : res pystr :=
  match dict_find k d with
  | Some v => Val v
  | None => Raise KeyError
  end.

(** *** [json.dumps] of a flat object of strings (default separators,
    [ensure_ascii=True]) *)

Definition hex_digit (d : N) : codepoint :=
  if (d <? 10)%N then (48 + d)%N else (87 + d)%N.

Definition hex4 (n : N) : pystr :=
  [hex_digit ((n / 4096) mod 16); hex_digit ((n / 256) mod 16);
   hex_digit ((n / 16) mod 16); hex_digit (n mod 16)].

Definition BACKSLASH : codepoint := 92%N.

Definition json_escape_char (c : codepoint) : pystr :=
  if (c =? 34)%N then [BACKSLASH; 34%N]
  else if (c =? 92)%N then [BACKSLASH; BACKSLASH]
  else if (c =? 10)%N then BACKSLASH :: lit "n"
  else if (c =? 13)%N then BACKSLASH :: lit "r"
  else if (c =? 9)%N then BACKSLASH :: lit "t"
  else if (c =? 8)%N then BACKSLASH :: lit "b"
  else if (c =? 12)%N then BACKSLASH :: lit "f"
  else if in_range 0x20 0x7E c then [c]
  else if (c <? 0x10000)%N then BACKSLASH :: lit "u" ++ hex4 c
  else
    let n := (c - 0x10000)%N in
    BACKSLASH :: lit "u" ++ hex4 (0xD800 + (n / 1024) mod 1024)%N
      ++ BACKSLASH :: lit "u" ++ hex4 (0xDC00 + n mod 1024)%N.

Definition json_string (s : pystr) : pystr :=
  DQUOTE ++ flat_map json_escape_char s ++ DQUOTE.

Fixpoint json_members (items : dict) : pystr :=
  match items with
  | [] => []
  | [(k, v)] => json_string k ++ lit ": " ++ json_string v
  | (k, v) :: rest =>
      json_string k ++ lit ": " ++ json_string v ++ lit ", " ++ json_members rest
  end.

Definition json_dumps (items : dict) : pystr :=
  lit "{" ++ json_members items ++ lit "}".

(** *** Response texts *)

(** The "Conditional Connection Headers" lines, which close the head of every
    response. *)
Definition connection_headers (keep_alive : bool) : pystr :=
  if keep_alive
  then lit "Connection: keep-alive" ++ CRLF
       ++ lit "Keep-Alive: timeout=30, max=100" ++ CRLF ++ CRLF
  else lit "Connection: close" ++ CRLF ++ CRLF.

(** [send_error]: body and head. *)
Definition error_body (status_code : nat) (status_message : pystr) : pystr :=
  lit "<html><body><h1>" ++ str_of_nat status_code ++ lit " " ++ status_message
  ++ lit "</h1></body></html>".

Definition extra_header_lines (extra_headers : dict) : pystr :=
  flat_map (fun kv => fst kv ++ lit ": " ++ snd kv ++ CRLF) extra_headers.

Definition error_head (status_code : nat) (status_message : pystr)
           (keep_alive : bool) (extra_headers : dict) : pystr :=
  let response_body := error_body status_code status_message in
  lit "HTTP/1.1 " ++ str_of_nat status_code ++ lit " " ++ status_message ++ CRLF
  ++ lit "Content-Type: text/html; charset=utf-8" ++ CRLF
  ++ lit "Content-Length: " ++ str_of_nat (List.length response_body) ++ CRLF
  ++ extra_header_lines extra_headers
  ++ connection_headers keep_alive.

(** [serve_get_request]: the default resource, the content type chosen from
    the extension ([None]: unsupported), and the head of the 200 response. *)
Definition default_path (path : pystr) : pystr :=
  if str_eqb path (lit "/") then lit "/index.html" else path.

Definition content_type_of (filepath : pystr) : option pystr :=
  if endswith filepath (lit ".html") then Some (lit "text/html; charset=utf-8")
  else if existsb (endswith filepath)
                  [lit ".txt"; lit ".png"; lit ".jpg"; lit ".jpeg"]
  then Some (lit "application/octet-stream")
  else None.

Definition content_disposition (content_type filename : pystr) : pystr :=
  if str_eqb content_type (lit "application/octet-stream")
  then lit "Content-Disposition: attachment; filename=" ++ DQUOTE ++ filename
       ++ DQUOTE ++ CRLF
  else [].

Definition ok_head (content_type : pystr) (content_length : nat)
           (current_date filename : pystr) (keep_alive : bool) : pystr :=
  lit "HTTP/1.1 200 OK" ++ CRLF
  ++ lit "Content-Type: " ++ content_type ++ CRLF
  ++ lit "Content-Length: " ++ str_of_nat content_length ++ CRLF
  ++ lit "Date: " ++ current_date ++ CRLF
  ++ lit "Server: My Python HTTP Server" ++ CRLF
  ++ content_disposition content_type filename
  ++ connection_headers keep_alive.

(** [serve_post_request]: name of the upload, body and head of the 201
    response. *)
Definition upload_filename (timestamp random_id : pystr) : pystr :=
  lit "upload_" ++ timestamp ++ lit "_" ++ random_id ++ lit ".json".

Definition response_filepath (filename : pystr) : pystr :=
  lit "/uploads/" ++ filename.

Definition created_body (filename : pystr) : pystr :=
  json_dumps [(lit "status", lit "success");
              (lit "message", lit "File created successfully");
              (lit "filepath", response_filepath filename)].

Definition created_head (content_length : nat) (current_date : pystr)
           (keep_alive : bool) : pystr :=
  lit "HTTP/1.1 201 Created" ++ CRLF
  ++ lit "Content-Type: application/json" ++ CRLF
  ++ lit "Content-Length: " ++ str_of_nat content_length ++ CRLF
  ++ lit "Date: " ++ current_date ++ CRLF
  ++ lit "Server: My Python HTTP Server" ++ CRLF
  ++ connection_headers keep_alive.

Definition DATE_FORMAT : pystr := lit "%a, %d %b %Y %H:%M:%S GMT".
Definition UPLOAD_FORMAT : pystr := lit "%Y%m%d_%H%M%S".

(** [string.ascii_lowercase + string.digits]. *)
Definition UPLOAD_ALPHABET : pystr := lit "abcdefghijklmnopqrstuvwxyz0123456789".

(** *** Parsing of a request (the head of the loop body of
    [handle_connection]) *)

Record request : Type := {
  req_method : pystr;
  req_path : pystr;
  req_version : pystr;
  req_headers : dict;
  req_body : pystr
}.

(** The dict comprehension over the header lines: lines without [": "] are
    skipped, names are lower-cased, the last duplicate wins. *)
Fixpoint headers_of_lines (lower : pystr -> pystr) (lines : list pystr)
         (acc : dict) : res dict :=
  match lines with
  | [] => Val acc
  | line :: rest =>
      if py_in (lit ": ") line then
        match py_split (lit ": ") (Some 1) line with
        | [key; value] => headers_of_lines lower rest (dict_set (lower key) value acc)
        | _ => Raise ValueError
        end
      else headers_of_lines lower rest acc
  end.

Definition parse_request (lower : pystr -> pystr) (request_data : pystr)
  : res request :=
  match py_split (CRLF ++ CRLF) (Some 1) request_data with
  | [headers_part; body_part] =>
      match py_split CRLF None headers_part with
      | [] => Raise IndexError
      | first_line :: header_lines =>
          match py_split (lit " ") (Some 2) first_line with
          | [method; path; http_version] =>
              match headers_of_lines lower header_lines [] with
              | Val headers =>
                  Val {| req_method := method; req_path := path;
                         req_version := http_version; req_headers := headers;
                         req_body := body_part |}
              | Raise e => Raise e
              end
          | _ => Raise ValueError
          end
      end
  | _ => Raise ValueError
  end.

(** The request line of a request text and the number of its
    space-separated tokens. *)
Definition request_line (request_data : pystr) : pystr :=
  hd [] (py_split CRLF None
                  (hd [] (py_split (CRLF ++ CRLF) (Some 1) request_data))).

Definition token_count (line : pystr) : nat :=
  List.length (py_split (lit " ") None line).

(** "Decide Keep-Alive", with the cap on the requests of one connection. *)
Definition decide_keep_alive (lower : pystr -> pystr) (http_version : pystr)
           (headers : dict) (request_count : nat) : bool :=
  let connection_header := lower (dict_get (lit "connection") [] headers) in
  let should_keep_alive :=
    if endswith http_version (lit "/1.1")
       && negb (str_eqb connection_header (lit "close"))
    then true
    else if endswith http_version (lit "/1.0")
            && str_eqb connection_header (lit "keep-alive")
    then true
    else false in
  if 100 <=? request_count then false else should_keep_alive.

(** [queue.Queue.put_nowait] on a queue of capacity [maxsize]. *)
Definition put_nowait (maxsize : nat) (q : list sock) (item : sock)
  : res (list sock) :=
  if (0 <? maxsize) && (maxsize <=? List.length q)
  then Raise QueueFull
  else Val (q ++ [item]).

(** *** Responses on the wire *)

Definition octets (data : bytes) : list N := map N_of_ascii data.

(** The bytes [send_error] hands to [sendall]; [None] when encoding raises. *)
Definition error_response (status_code : nat) (status_message : pystr)
           (keep_alive : bool) (extra_headers : dict) : option bytes :=
  match utf8_encode (error_head status_code status_message keep_alive extra_headers),
        utf8_encode (error_body status_code status_message) with
  | Some h, Some b => Some (h ++ b)
  | _, _ => None
  end.

(** A response as it is read on the wire: header lines, a blank line, the
    body. *)
Definition wire (lines : list string) (body : string) : bytes :=
  flat_map (fun l => blit l ++ bCRLF) lines ++ bCRLF ++ blit body.

Definition page_400_keep_alive : bytes :=
  wire (["HTTP/1.1 400 Bad Request"; "Content-Type: text/html; charset=utf-8";
        "Content-Length: 50"; "Connection: keep-alive";
        "Keep-Alive: timeout=30, max=100"])%string
       "<html><body><h1>400 Bad Request</h1></body></html>".

Definition page_403_close : bytes :=
  wire (["HTTP/1.1 403 Forbidden"; "Content-Type: text/html; charset=utf-8";
        "Content-Length: 48"; "Connection: close"])%string
       "<html><body><h1>403 Forbidden</h1></body></html>".

Definition page_404_close : bytes :=
  wire (["HTTP/1.1 404 Not Found"; "Content-Type: text/html; charset=utf-8";
        "Content-Length: 48"; "Connection: close"])%string
       "<html><body><h1>404 Not Found</h1></body></html>".

Definition page_405_close : bytes :=
  wire (["HTTP/1.1 405 Method Not Allowed"; "Content-Type: text/html; charset=utf-8";
        "Content-Length: 57"; "Connection: close"])%string
       "<html><body><h1>405 Method Not Allowed</h1></body></html>".

Definition page_415_close : bytes :=
  wire (["HTTP/1.1 415 Unsupported Media Type";
        "Content-Type: text/html; charset=utf-8";
        "Content-Length: 61"; "Connection: close"])%string
       "<html><body><h1>415 Unsupported Media Type</h1></body></html>".

Definition page_500_close : bytes :=
  wire (["HTTP/1.1 500 Internal Server Error";
        "Content-Type: text/html; charset=utf-8";
        "Content-Length: 60"; "Connection: close"])%string
       "<html><body><h1>500 Internal Server Error</h1></body></html>".

Definition page_503_close : bytes :=
  wire (["HTTP/1.1 503 Service Unavailable";
        "Content-Type: text/html; charset=utf-8";
        "Content-Length: 58"; "Retry-After: 10"; "Connection: close"])%string
       "<html><body><h1>503 Service Unavailable</h1></body></html>".

(** The errors [handle_connection] and its helpers can answer with. *)
Definition error_kinds : list (nat * pystr) :=
  [(400, lit "Bad Request"); (403, lit "Forbidden"); (404, lit "Not Found");
   (405, lit "Method Not Allowed"); (415, lit "Unsupported Media Type");
   (500, lit "Internal Server Error")].

(** What a pass of the loop may send when the keep-alive decision of the
    request is [keep_alive]: an error page, closing or following the
    decision, a 200 or a 201 that follows the decision. *)
Inductive reply (keep_alive : bool) : bytes -> Prop :=
| reply_error code message ka data :
    In (code, message) error_kinds ->
    ka = false \/ ka = keep_alive ->
    error_response code message ka [] = Some data ->
    reply keep_alive data
| reply_ok content_type n date filename head content :
    utf8_encode (ok_head content_type n date filename keep_alive) = Some head ->
    reply keep_alive (head ++ content)
| reply_created n date head body :
    utf8_encode (created_head n date keep_alive) = Some head ->
    reply keep_alive (head ++ body).

(** The events of a request handler on socket [s]: files opened, and bytes
    sent to [s] that satisfy [Q]. *)
Definition handler_event (s : sock) (Q : bytes -> Prop) (ev : event) : Prop :=
  match ev with
  | EvSendAll s' data => s' = s /\ Q data
  | EvOpen _ _ => True
  | _ => False
  end.

Definition is_ascii (s : pystr) : bool := forallb (fun c => (c <? 128)%N) s.

(** The status line announces [status_code]. *)
Definition has_status (status_code : nat) (data : bytes) : bool :=
  startswith (octets data) (lit "HTTP/1.1 " ++ str_of_nat status_code ++ lit " ").

(** [line] occurs as a full line, between two line ends. *)
Definition has_line (line : pystr) (data : bytes) : bool :=
  py_in (CRLF ++ line ++ CRLF) (octets data).

(** Some line starts with [name]. *)
Definition has_header (name : pystr) (data : bytes) : bool :=
  py_in (CRLF ++ name ++ lit ": ") (octets data).

(** How one pass through the body of [while request_count < 100] ends. *)
Inductive loop_exit : Type :=
| Break
| Next (request_count : nat).

Section Handlers.
Variables W J : Type.
Variable E : Env W J.
Variable cfg : Config.

Definition send_error (client_socket : sock) (status_code : nat)
           (status_message : pystr) (keep_alive : bool) (extra_headers : dict)
  : M W unit :=
  let response_body := error_body status_code status_message in
  let response_headers :=
    error_head status_code status_message keep_alive extra_headers in
  h <- encode response_headers ;;
  b <- encode response_body ;;
  sendall E client_socket (h ++ b).

Definition serve_get_request (client_socket : sock) (path : pystr)
           (thread_id : nat) (keep_alive : bool) : M W unit :=
  let path := default_path path in
  if py_in (lit "..") path then
    send_error client_socket 403 (lit "Forbidden") false []
  else
    let filepath := lit "resources" ++ path in
    let filename := last (py_split (lit "/") None path) [] in
    try_except
      (content <- open_read E filepath ;;
       match content_type_of filepath with
       | Some content_type =>
           current_date <- time_strftime E DATE_FORMAT true ;;
           h <- encode (ok_head content_type (List.length content) current_date
                                filename keep_alive) ;;
           sendall E client_socket (h ++ content)
       | None =>
           send_error client_socket 415 (lit "Unsupported Media Type") false []
       end)
      (fun e =>
         match e with
         | FileNotFoundError =>
             send_error client_socket 404 (lit "Not Found") false []
         | _ => raise e
         end).

(** [random.choices(population, k=k)], joined. *)
Fixpoint random_choices (population : pystr) (k : nat) : M W pystr :=
  match k with
  | O => ret []
  | S k' =>
      i <- random_below E (List.length population) ;;
      rest <- random_choices population k' ;;
      ret (nth i population 0%N :: rest)
  end.

Definition serve_post_request (client_socket : sock) (headers : dict)
           (body_part : pystr) (thread_id : nat) (keep_alive : bool) : M W unit :=
  if negb (startswith (dict_get (lit "content-type") [] headers)
                      (lit "application/json")) then
    send_error client_socket 415 (lit "Unsupported Media Type") false []
  else
    parsed <- try_except
                (json_data <- lift (json_loads E body_part) ;; ret (Some json_data))
                (fun e =>
                   match e with
                   | JSONDecodeError =>
                       send_error client_socket 400 (lit "Bad Request") false [] ;;
                       ret None
                   | _ => raise e
                   end) ;;
    match parsed with
    | None => ret tt
    | Some json_data =>
        timestamp <- time_strftime E UPLOAD_FORMAT false ;;
        random_id <- random_choices UPLOAD_ALPHABET 4 ;;
        let filename := upload_filename timestamp random_id in
        let filepath := lit "resources/uploads/" ++ filename in
        try_except
          (open_write_json E filepath json_data ;;
           let response_body := created_body filename in
           current_date <- time_strftime E DATE_FORMAT true ;;
           h <- encode (created_head (List.length response_body) current_date
                                     keep_alive) ;;
           b <- encode response_body ;;
           sendall E client_socket (h ++ b))
          (fun _ =>
             send_error client_socket 500 (lit "Internal Server Error") false [])
    end.

(** "Security and Routing": what the loop body does with a parsed request. *)
Definition route_request (client_socket : sock) (thread_id : nat)
           (req : request) (request_count : nat) : M W loop_exit :=
  let should_keep_alive :=
    decide_keep_alive (str_lower E) (req_version req) (req_headers req)
                      request_count in
  let server_host_address := HOST cfg ++ lit ":" ++ str_of_N (PORT cfg) in
  let after := if negb should_keep_alive then Break else Next request_count in
  if negb (dict_mem (lit "host") (req_headers req)) then
    send_error client_socket 400 (lit "Bad Request") should_keep_alive [] ;;
    ret after
  else
    host <- lift (dict_index (lit "host") (req_headers req)) ;;
    if negb (str_eqb host server_host_address) then
      send_error client_socket 403 (lit "Forbidden") should_keep_alive [] ;;
      ret after
    else
      (if str_eqb (req_method req) (lit "GET") then
         serve_get_request client_socket (req_path req) thread_id should_keep_alive
       else if str_eqb (req_method req) (lit "POST") then
         serve_post_request client_socket (req_headers req) (req_body req)
                            thread_id should_keep_alive
       else
         send_error client_socket 405 (lit "Method Not Allowed")
                    should_keep_alive []) ;;
      ret after.

(** The [except] clauses of the loop body: an idle time-out ends the loop
    silently, any other exception is answered with a 500. *)
Definition on_error (client_socket : sock) (e : exn) : M W loop_exit :=
  match e with
  | SocketTimeout => ret Break
  | _ =>
      send_error client_socket 500 (lit "Internal Server Error") false [] ;;
      ret Break
  end.

(** One pass through the body of the [while] loop of [handle_connection],
    entered with [request_count] requests counted so far. *)
Definition serve_one (client_socket : sock) (thread_id : nat)
           (request_count : nat) : M W loop_exit :=
  try_except
    (settimeout client_socket 30 ;;
     data <- recv E client_socket 8192%N ;;
     request_data <- decode data ;;
     match request_data with
     | [] => ret Break
     | _ :: _ =>
         let request_count := request_count + 1 in
         req <- lift (parse_request (str_lower E) request_data) ;;
         route_request client_socket thread_id req request_count
     end)
    (on_error client_socket).

(** The same pass once [recv] has returned or raised. *)
Definition after_recv (client_socket : sock) (thread_id : nat)
           (request_count : nat) (received : res bytes) : M W loop_exit :=
  try_except
    (data <- lift received ;;
     request_data <- decode data ;;
     match request_data with
     | [] => ret Break
     | _ :: _ =>
         req <- lift (parse_request (str_lower E) request_data) ;;
         route_request client_socket thread_id req (request_count + 1)
     end)
    (on_error client_socket).

(** [while request_count < 100: ...]; [None] when [fuel] passes are not
    enough to leave the loop. *)
Fixpoint request_loop (fuel : nat) (client_socket : sock) (thread_id : nat)
         (request_count : nat) : M W (option unit) :=
  if request_count <? 100 then
    match fuel with
    | O => ret None
    | S fuel' =>
        step <- serve_one client_socket thread_id request_count ;;
        match step with
        | Break => ret (Some tt)
        | Next request_count' =>
            request_loop fuel' client_socket thread_id request_count'
        end
    end
  else ret (Some tt).

(** [handle_connection], entered at the head of its loop with
    [request_count] requests counted.  The handler itself starts at 0, and a
    hundred passes are always enough to leave the loop. *)
Definition handle_connection_at (fuel : nat) (client_socket : sock)
           (thread_id : nat) (request_count : nat) : M W (option unit) :=
  try_finally
    (try_except
       (request_loop fuel client_socket thread_id request_count)
       (fun _ => ret (Some tt)))
    (close client_socket).

Definition handle_connection (client_socket : sock) (thread_id : nat)
  : M W (option unit) :=
  handle_connection_at 100 client_socket thread_id 0.

(** The body of the accept loop of [main] once [accept()] has returned
    [client_socket], on the queue as it stands at that moment. *)
Definition main_accept (connection_queue : list sock) (client_socket : sock)
  : M W (list sock) :=
  try_except
    (lift (put_nowait MAX_QUEUE_SIZE connection_queue client_socket))
    (fun e =>
       match e with
       | QueueFull =>
           send_error client_socket 503 (lit "Service Unavailable") false
                      [(lit "Retry-After", lit "10")] ;;
           close client_socket ;;
           ret connection_queue
       | _ => raise e
       end).

(** The keep-alive decision of the pass that counts its request as number
    [request_count] and has read [received]; [false] when no request is
    parsed. *)
Definition pass_decision (request_count : nat) (received : res bytes) : bool :=
  match received with
  | Val data =>
      match utf8_decode data with
      | Some (c :: text) =>
          match parse_request (str_lower E) (c :: text) with
          | Val req =>
              decide_keep_alive (str_lower E) (req_version req)
                                (req_headers req) request_count
          | Raise _ => false
          end
      | _ => false
      end
  | Raise _ => false
  end.

(** What [serve_post_request] draws in world [w] to name an upload. *)
Definition drawn_timestamp (w : W) : pystr := fst (strftime E UPLOAD_FORMAT false w).

Definition drawn_random_id (w : W) : pystr :=
  match outcome (random_choices UPLOAD_ALPHABET 4
                                (snd (strftime E UPLOAD_FORMAT false w))) with
  | Val random_id => random_id
  | Raise _ => []
  end.

End Handlers.

Arguments send_error {W J} E client_socket status_code status_message keep_alive extra_headers _.
Arguments serve_get_request {W J} E client_socket path thread_id keep_alive _.
Arguments random_choices {W J} E population k _.
Arguments serve_post_request {W J} E client_socket headers body_part thread_id keep_alive _.
Arguments route_request {W J} E cfg client_socket thread_id req request_count _.
Arguments on_error {W J} E client_socket e _.
Arguments serve_one {W J} E cfg client_socket thread_id request_count _.
Arguments after_recv {W J} E cfg client_socket thread_id request_count received _.
Arguments request_loop {W J} E cfg fuel client_socket thread_id request_count _.
Arguments handle_connection_at {W J} E cfg fuel client_socket thread_id request_count _.
Arguments handle_connection {W J} E cfg client_socket thread_id _.
Arguments main_accept {W J} E connection_queue client_socket _.
Arguments pass_decision {W J} E request_count received.
Arguments drawn_timestamp {W J} E w.
Arguments drawn_random_id {W J} E w.

(** Reading a trace. *)
Definition is_recv (ev : event) : bool :=
  match ev with EvRecv _ _ => true | _ => false end.

Definition is_close (ev : event) : bool :=
  match ev with EvClose _ => true | _ => false end.

Definition is_open (ev : event) : bool :=
  match ev with EvOpen _ _ => true | _ => false end.

(** The number of reads on a trace. *)
Definition reads (t : list event) : nat := List.length (filter is_recv t).

(** The byte strings sent on a trace, in order. *)
Definition sent (t : list event) : list bytes :=
  flat_map (fun ev => match ev with EvSendAll _ data => [data] | _ => [] end) t.

(** A 201 response announcing the upload [filename]. *)
Definition created_with (filename : pystr) (data : bytes) : Prop :=
  exists n date keep_alive head body,
    utf8_encode (created_head n date keep_alive) = Some head /\
    utf8_encode (created_body filename) = Some body /\
    data = head ++ body.

(** The JSON text [body] ends with the member ["filepath": filepath]. *)
Definition announces_filepath (body filepath : pystr) : Prop :=
  exists members,
    body = members ++ json_string (lit "filepath") ++ lit ": "
           ++ json_string filepath ++ lit "}".

(** The [Connection] line that follows a keep-alive decision. *)
Definition connection_line (keep_alive : bool) : pystr :=
  if keep_alive then lit "Connection: keep-alive" else lit "Connection: close".

(** After the hundredth read: nothing is read, what is sent closes. *)
Definition closing_event (ev : event) : Prop :=
  match ev with
  | EvRecv _ _ => False
  | EvSendAll _ data => has_line (lit "Connection: close") data = true
  | _ => True
  end.

End Server.

(** ** A scripted environment, for running the server on concrete inputs *)

Module Scenario.
Import PyStr Runtime Server.

(** The world of the scenarios: the reads the peer will deliver, the files of
    the [resources] directory, a clock that stands still, the draws the
    random generator will make, and whether the peer has gone away (every
    [sendall] then raises). *)
Record world : Type := {
  inbox : list (sock_result bytes);
  files : list (pystr * bytes);
  now_date : pystr;
  now_stamp : pystr;
  dice : list nat;
  peer_gone : bool
}.

(** [str.lower] on ASCII text. *)
Definition ascii_lower (s : pystr) : pystr :=
  map (fun c => if in_range 65 90 c then (c + 32)%N else c) s.

(** The JSON decoder of the scenarios knows one document, the empty object. *)
Definition loads_empty_object (s : pystr) : res pystr :=
  if str_eqb s (lit "{}") then Val s else Raise JSONDecodeError.

Fixpoint lookup_file (path : pystr) (fs : list (pystr * bytes)) : option bytes :=
  match fs with
  | [] => None
  | (p, content) :: fs' => if str_eqb p path then Some content else lookup_file path fs'
  end.

Definition scripted_recv (s : sock) (bufsize : N) (w : world)
  : sock_result bytes * world :=
  match inbox w with
  | [] => (Done [], w)
  | r :: rest =>
      (r, {| inbox := rest; files := files w; now_date := now_date w;
             now_stamp := now_stamp w; dice := dice w; peer_gone := peer_gone w |})
  end.

Definition scripted_sendall (s : sock) (data : bytes) (w : world)
  : sock_result unit * world :=
  if peer_gone w then (Failed ConnectionError, w) else (Done tt, w).

Definition scripted_read (path : pystr) (w : world) : res bytes * world :=
  match lookup_file path (files w) with
  | Some content => (Val content, w)
  | None => (Raise FileNotFoundError, w)
  end.

Definition scripted_write (path : pystr) (doc : pystr) (w : world) : res unit * world :=
  (Val tt,
   {| inbox := inbox w; files := (path, map ascii_of_N doc) :: files w;
      now_date := now_date w; now_stamp := now_stamp w; dice := dice w;
      peer_gone := peer_gone w |}).

Definition scripted_strftime (format : pystr) (gmt : bool) (w : world) : pystr * world :=
  (if gmt then now_date w else now_stamp w, w).

Definition scripted_random (n : nat) (w : world) : nat * world :=
  match dice w with
  | [] => (0, w)
  | d :: rest =>
      (d, {| inbox := inbox w; files := files w; now_date := now_date w;
             now_stamp := now_stamp w; dice := rest; peer_gone := peer_gone w |})
  end.

Definition env : Env world pystr := {|
  str_lower := ascii_lower;
  json_loads := loads_empty_object;
  sock_recv := scripted_recv;
  sock_sendall := scripted_sendall;
  read_file := scripted_read;
  write_json_file := scripted_write;
  strftime := scripted_strftime;
  random_index := scripted_random
|}.

Definition index_html : bytes := blit "<h1>It works</h1>".

Definition start (reads : list (sock_result bytes)) : world := {|
  inbox := reads;
  files := [(lit "resources/index.html", index_html);
            (lit "resources/data.bin", blit "0123")];
  now_date := lit "Tue, 03 Nov 2026 10:10:10 GMT";
  now_stamp := lit "20261103_101010";
  dice := [10; 3; 33; 7; 10; 3; 33; 7];
  peer_gone := false
|}.

(** The handler on socket 7, in worker 1, with the default configuration. *)
Definition run (reads : list (sock_result bytes)) :=
  handle_connection env default_config 7 1 (start reads).

(** Request texts. *)
Definition host_line : bytes := blit "Host: 127.0.0.1:8080" ++ bCRLF.

Definition get_index : bytes :=
  blit "GET /index.html HTTP/1.1" ++ bCRLF ++ host_line ++ bCRLF.

Definition get_index_close_capitalised : bytes :=
  blit "GET /index.html HTTP/1.1" ++ bCRLF ++ host_line
  ++ blit "Connection: Close" ++ bCRLF ++ bCRLF.

Definition get_missing : bytes :=
  blit "GET /missing.html HTTP/1.1" ++ bCRLF ++ host_line ++ bCRLF.

Definition get_without_host : bytes :=
  blit "GET /index.html HTTP/1.1" ++ bCRLF ++ bCRLF.

Definition get_without_separator : bytes :=
  blit "GET /index.html HTTP/1.1" ++ bCRLF ++ host_line.

Definition get_two_tokens : bytes :=
  blit "GET /index.html" ++ bCRLF ++ host_line ++ bCRLF.

Definition put_head_and_half_body : bytes :=
  blit "PUT /notes.txt HTTP/1.0" ++ bCRLF ++ host_line
  ++ blit "Content-Length: 10" ++ bCRLF ++ bCRLF ++ blit "hello".

Definition post_empty_object : bytes :=
  blit "POST /upload HTTP/1.1" ++ bCRLF ++ host_line
  ++ blit "Content-Type: application/json" ++ bCRLF ++ bCRLF ++ blit "{}".

Definition put_rest_of_body : bytes := blit "world".

(** The same world once the peer has gone away. *)
Definition start_gone (reads : list (sock_result bytes)) : world := {|
  inbox := reads;
  files := files (start reads);
  now_date := now_date (start reads);
  now_stamp := now_stamp (start reads);
  dice := dice (start reads);
  peer_gone := true
|}.

Definition hundred_gets : list (sock_result bytes) := repeat (Done get_index) 100.

(** Responses of the scenarios, as read on the wire. *)
Definition ok_index_keep_alive : bytes :=
  wire (["HTTP/1.1 200 OK"; "Content-Type: text/html; charset=utf-8";
         "Content-Length: 17"; "Date: Tue, 03 Nov 2026 10:10:10 GMT";
         "Server: My Python HTTP Server"; "Connection: keep-alive";
         "Keep-Alive: timeout=30, max=100"])%string
       "<h1>It works</h1>".

Definition ok_index_close : bytes :=
  wire (["HTTP/1.1 200 OK"; "Content-Type: text/html; charset=utf-8";
         "Content-Length: 17"; "Date: Tue, 03 Nov 2026 10:10:10 GMT";
         "Server: My Python HTTP Server"; "Connection: close"])%string
       "<h1>It works</h1>".

Definition upload_kd7h : pystr := lit "upload_20261103_101010_kd7h.json".

Definition created_kd7h (keep_alive : bool) : option bytes :=
  match utf8_encode (created_head (List.length (created_body upload_kd7h))
                                  (lit "Tue, 03 Nov 2026 10:10:10 GMT") keep_alive),
        utf8_encode (created_body upload_kd7h) with
  | Some h, Some b => Some (h ++ b)
  | _, _ => None
  end.

Definition created_kd7h_page : bytes :=
  match created_kd7h true with
  | Some r => r
  | None => []
  end.

Definition get_traversal_path : pystr := lit "/../server.py".

Definition invalid_utf8 : bytes := [ascii_of_N 255].

Definition full_queue : list sock := repeat 1 50.

End Scenario.

(** ** More of the server: the pages that follow the keep-alive decision,
    request texts, the worker and the queue *)

Module Refusals.
Import PyStr Runtime Server.

Definition page_400_close : bytes :=
  wire (["HTTP/1.1 400 Bad Request"; "Content-Type: text/html; charset=utf-8";
        "Content-Length: 50"; "Connection: close"])%string
       "<html><body><h1>400 Bad Request</h1></body></html>".

Definition page_403_keep_alive : bytes :=
  wire (["HTTP/1.1 403 Forbidden"; "Content-Type: text/html; charset=utf-8";
        "Content-Length: 48"; "Connection: keep-alive";
        "Keep-Alive: timeout=30, max=100"])%string
       "<html><body><h1>403 Forbidden</h1></body></html>".

Definition page_405_keep_alive : bytes :=
  wire (["HTTP/1.1 405 Method Not Allowed"; "Content-Type: text/html; charset=utf-8";
        "Content-Length: 57"; "Connection: keep-alive";
        "Keep-Alive: timeout=30, max=100"])%string
       "<html><body><h1>405 Method Not Allowed</h1></body></html>".

(** The 400, 403 and 405 pages of the routing, which follow the decision. *)
Definition page_400 (keep_alive : bool) : bytes :=
  if keep_alive then page_400_keep_alive else page_400_close.

Definition page_403 (keep_alive : bool) : bytes :=
  if keep_alive then page_403_keep_alive else page_403_close.

Definition page_405 (keep_alive : bool) : bytes :=
  if keep_alive then page_405_keep_alive else page_405_close.

(** How the loop goes on after a pass whose decision is [keep_alive]. *)
Definition after_pass (keep_alive : bool) (request_count : nat) : loop_exit :=
  if keep_alive then Next request_count else Break.

(** The address the [Host] header is compared with. *)
Definition server_host_address (cfg : Config) : pystr :=
  HOST cfg ++ lit ":" ++ str_of_N (PORT cfg).

End Refusals.

Module Uploads.
Import PyStr Runtime Server.
Local Open Scope py_scope.

Section Uploads.
Variables W J : Type.
Variable E : Env W J.

(** The last [try] block of [serve_post_request], for the upload
    [filename]: the document is written, then the 201 is sent; any
    exception is answered with the 500 page. *)
Definition store_upload (client_socket : sock) (keep_alive : bool)
           (filename : pystr) (json_data : J) : M W unit :=
  let filepath := lit "resources/uploads/" ++ filename in
  try_except
    (open_write_json E filepath json_data ;;
     let response_body := created_body filename in
     current_date <- time_strftime E DATE_FORMAT true ;;
     h <- encode (created_head (List.length response_body) current_date
                               keep_alive) ;;
     b <- encode response_body ;;
     sendall E client_socket (h ++ b))
    (fun _ =>
       send_error E client_socket 500 (lit "Internal Server Error") false []).

(** The name [serve_post_request] gives to an upload in world [w], the path
    of the file it writes, and the world once the name is drawn. *)
Definition drawn_filename (w : W) : pystr :=
  upload_filename (drawn_timestamp E w) (drawn_random_id E w).

Definition upload_path (w : W) : pystr :=
  lit "resources/uploads/" ++ drawn_filename w.

Definition world_after_draws (w : W) : W :=
  world_after (random_choices E UPLOAD_ALPHABET 4
                              (snd (strftime E UPLOAD_FORMAT false w))).

End Uploads.

Arguments store_upload {W J} E client_socket keep_alive filename json_data _.
Arguments drawn_filename {W J} E w.
Arguments upload_path {W J} E w.
Arguments world_after_draws {W J} E w.

(** An event that opens no file. *)
Definition opens_nothing (ev : event) : Prop := is_open ev = false.

End Uploads.

Module Requests.
Import PyStr Runtime Server.

(** A header line, and the text of a request as it is read from the wire:
    the request line, one line per header, a blank line, the body. *)
Definition header_line (kv : pystr * pystr) : pystr :=
  fst kv ++ lit ": " ++ snd kv.

Definition request_text (method path http_version : pystr)
           (headers : list (pystr * pystr)) (body : pystr) : pystr :=
  (method ++ lit " " ++ path ++ lit " " ++ http_version)
  ++ List.concat (map (fun kv => CRLF ++ header_line kv) headers)
  ++ (CRLF ++ CRLF) ++ body.

(** The headers in the order of the wire, put into a dict one by one under
    their lower-cased names. *)
Definition header_dict (lower : pystr -> pystr) (headers : list (pystr * pystr))
  : dict :=
  fold_left (fun acc kv => dict_set (lower (fst kv)) (snd kv) acc) headers [].

(** The value of the last header whose lower-cased name is [name]. *)
Definition last_value (lower : pystr -> pystr) (name : pystr)
           (headers : list (pystr * pystr)) : option pystr :=
  option_map snd (find (fun kv => str_eqb (lower (fst kv)) name) (rev headers)).

(** [a] put in front of the first piece. *)
Definition prepend (a : pystr) (pieces : list pystr) : list pystr :=
  match pieces with
  | piece :: rest => (a ++ piece) :: rest
  | [] => [a]
  end.

Definition SPACE : codepoint := 32%N.
Definition COLON : codepoint := 58%N.

End Requests.

Module Sessions.
Import PyStr Runtime Server.

(** The status codes [handle_connection] and its helpers answer with. *)
Definition STATUS_CODES : list nat := [200; 201; 400; 403; 404; 405; 415; 500].

(** A response with a known status line, a content type, a content length
    and a [Connection] line. *)
Definition complete_response (data : bytes) : Prop :=
  (exists code, In code STATUS_CODES /\ has_status code data = true) /\
  has_header (lit "Content-Type") data = true /\
  has_header (lit "Content-Length") data = true /\
  (has_line (lit "Connection: close") data = true \/
   has_line (lit "Connection: keep-alive") data = true).

(** What a connection handler on socket [s] may do to the sockets. *)
Definition session_event (s : sock) (ev : event) : Prop :=
  match ev with
  | EvSetTimeout s' seconds => s' = s /\ seconds = 30
  | EvRecv s' bufsize => s' = s /\ bufsize = 8192%N
  | EvSendAll s' data => s' = s /\ complete_response data
  | EvClose s' => s' = s
  | EvOpen _ _ => True
  end.

(** The files a connection handler may open: for reading, a path under
    [resources] that holds no [".."]; for writing, an upload under
    [resources/uploads/]. *)
Definition permitted_access (ev : event) : Prop :=
  match ev with
  | EvOpen path ModeRB =>
      exists p, path = lit "resources" ++ p /\ py_in (lit "..") p = false
  | EvOpen path ModeW =>
      exists timestamp random_id,
        path = lit "resources/uploads/" ++ upload_filename timestamp random_id /\
        List.length random_id = 4
  | _ => True
  end.

End Sessions.

Module Pool.
Import PyStr Runtime Server.
Local Open Scope py_scope.

Definition LOG_FORMAT : pystr := lit "%Y-%m-%d %H:%M:%S".

(** Where [worker] stands once the items handed to it are used up: it has
    left its loop, or it is blocked in [connection_queue.get()].  Both carry
    the number of calls of [task_done]. *)
Inductive worker_state : Type :=
| Stopped (task_done : nat)
| Waiting (task_done : nat).

Section Pool.
Variables W J : Type.
Variable E : Env W J.
Variable cfg : Config.

(** [worker]; [items] are what the successive calls of
    [connection_queue.get()] return. *)
Fixpoint worker (thread_id : nat) (items : list (option sock))
         (task_done : nat) : M W worker_state :=
  match items with
  | [] => ret (Waiting task_done)
  | None :: _ => ret (Stopped task_done)
  | Some client_socket :: rest =>
      current_time <- time_strftime E LOG_FORMAT true ;;
      handled <- handle_connection E cfg client_socket thread_id ;;
      worker thread_id rest (S task_done)
  end.

End Pool.

Arguments worker {W J} E cfg thread_id items task_done _.

(** The sockets a worker takes from the queue before it is told to stop. *)
Fixpoint dequeued (items : list (option sock)) : list sock :=
  match items with
  | Some client_socket :: rest => client_socket :: dequeued rest
  | _ => []
  end.

(** Whether one of the items tells the worker to stop. *)
Definition told_to_stop (items : list (option sock)) : bool :=
  existsb (fun item => match item with None => true | Some _ => false end) items.

(** The sockets closed on a trace, in order. *)
Definition closes (t : list event) : list sock :=
  flat_map (fun ev => match ev with EvClose s => [s] | _ => [] end) t.

End Pool.

(** ** More scenarios *)

Module Cases.
Import PyStr Runtime Server Scenario.

Definition get_foreign_host : bytes :=
  blit "GET /index.html HTTP/1.1" ++ bCRLF ++ blit "Host: example.org" ++ bCRLF
  ++ bCRLF.

Definition post_broken_json : pystr := lit "{".

Definition json_headers : dict := [(lit "content-type", lit "application/json")].

(** The requests of the scenarios, once parsed. *)
Definition bare_request : request := {|
  req_method := lit "GET"; req_path := lit "/index.html";
  req_version := lit "HTTP/1.1"; req_headers := []; req_body := []
|}.

Definition foreign_request : request := {|
  req_method := lit "GET"; req_path := lit "/index.html";
  req_version := lit "HTTP/1.1";
  req_headers := [(lit "host", lit "example.org")]; req_body := []
|}.

Definition put_request : request := {|
  req_method := lit "PUT"; req_path := lit "/notes.txt";
  req_version := lit "HTTP/1.0";
  req_headers := [(lit "host", lit "127.0.0.1:8080");
                  (lit "content-length", lit "10")];
  req_body := lit "hello"
|}.

Definition index_request : request := {|
  req_method := lit "GET"; req_path := lit "/index.html";
  req_version := lit "HTTP/1.1";
  req_headers := [(lit "host", lit "127.0.0.1:8080")]; req_body := []
|}.

Definition missing_request : request := {|
  req_method := lit "GET"; req_path := lit "/missing.html";
  req_version := lit "HTTP/1.1";
  req_headers := [(lit "host", lit "127.0.0.1:8080")]; req_body := []
|}.

(** The scripted environment with an [uploads] directory that cannot be
    written. *)
Definition failing_write (path : pystr) (doc : pystr) (w : world)
  : res unit * world :=
  (Raise OtherError, w).

Definition read_only_env : Env world pystr := {|
  str_lower := ascii_lower;
  json_loads := loads_empty_object;
  sock_recv := scripted_recv;
  sock_sendall := scripted_sendall;
  read_file := scripted_read;
  write_json_file := failing_write;
  strftime := scripted_strftime;
  random_index := scripted_random
|}.

(** The world once the empty object has been uploaded. *)
Definition after_upload : world :=
  world_after (serve_post_request env 7 json_headers (lit "{}") 1 true (start [])).

Definition upload_kd7h_path : pystr :=
  lit "resources/uploads/upload_20261103_101010_kd7h.json".

Definition upload_headers : list (pystr * pystr) :=
  [(lit "Host", lit "127.0.0.1:8080"); (lit "Content-Type", lit "text/plain");
   (lit "content-type", lit "application/json")].

End Cases.

(** * Proofs *)

Import PyStr Runtime Server.

(** ** Facts about [str] operations *)

Module StrFacts.
Import PyStr.

Lemma str_eqb_refl (a : pystr) : str_eqb a a = true.
Proof.
  induction a as [|x a IH]; simpl; [reflexivity|].
  now rewrite N.eqb_refl, IH.
Qed.

Lemma str_eqb_eq (a b : pystr) : str_eqb a b = true <-> a = b.
Proof.
  split.
  - revert b; induction a as [|x a IH]; intros [|y b]; simpl; try discriminate.
    + reflexivity.
    + intros H. apply andb_true_iff in H as [Hx Hab].
      apply N.eqb_eq in Hx. f_equal; auto.
  - intros ->. apply str_eqb_refl.
Qed.

Lemma str_eqb_neq (a b : pystr) : str_eqb a b = false <-> a <> b.
Proof.
  split.
  - intros H Heq. apply str_eqb_eq in Heq. congruence.
  - intros H. destruct (str_eqb a b) eqn:Hab; [|reflexivity].
    apply str_eqb_eq in Hab. contradiction.
Qed.

Lemma startswith_app (p s : pystr) : startswith (p ++ s) p = true.
Proof.
  induction p as [|y p IH]; simpl; [reflexivity|].
  now rewrite N.eqb_refl, IH.
Qed.

Lemma startswith_prefix (s p : pystr) :
  startswith s p = true -> exists rest, s = p ++ rest.
Proof.
  revert s; induction p as [|y p IH]; intros s H; simpl in *.
  - now exists s.
  - destruct s as [|x s]; [discriminate|].
    apply andb_true_iff in H as [Hx Hs]. apply N.eqb_eq in Hx. subst y.
    destruct (IH _ Hs) as [rest ->]. now exists rest.
Qed.

Lemma py_in_unfold (sub s : pystr) :
  py_in sub s = startswith s sub || match s with [] => false | _ :: s' => py_in sub s' end.
Proof. destruct s; reflexivity. Qed.

Lemma py_in_app (sub pre post : pystr) : py_in sub (pre ++ sub ++ post) = true.
Proof.
  induction pre as [|c pre IH]; simpl.
  - now rewrite py_in_unfold, startswith_app.
  - rewrite IH. apply orb_true_r.
Qed.

Lemma py_in_occurs (sub s : pystr) :
  py_in sub s = true -> exists pre post, s = pre ++ sub ++ post.
Proof.
  induction s as [|c s IH]; simpl.
  - rewrite orb_false_r. intros H. destruct sub; [|discriminate].
    now exists [], [].
  - intros H. apply orb_true_iff in H as [H|H].
    + apply startswith_prefix in H as [rest Hrest].
      exists [], rest. now rewrite Hrest.
    + destruct (IH H) as (pre & post & ->). now exists (c :: pre), post.
Qed.

(** *** [split] *)

Lemma split_from_nonempty sep m k s : split_from sep m k s <> [].
Proof.
  revert m k; induction s as [|c s IH]; intros m k; simpl; [discriminate|].
  destruct k; [|apply IH].
  destruct (may_split m && startswith (c :: s) sep); [discriminate|].
  unfold cons_first. destruct (split_from sep m 0 s); discriminate.
Qed.

Lemma length_cons_first c pieces :
  pieces <> [] -> List.length (cons_first c pieces) = List.length pieces.
Proof. destruct pieces; [congruence|reflexivity]. Qed.

(** Without an occurrence of the separator nothing is split. *)
Lemma split_absent sep m s :
  py_in sep s = false -> py_split sep m s = [s].
Proof.
  unfold py_split. induction s as [|c s IH]; intros H; [reflexivity|].
  simpl in H. apply orb_false_iff in H as [Hsw Hin].
  cbn [split_from]. rewrite Hsw, andb_false_r, (IH Hin). reflexivity.
Qed.

Lemma split_exhausted sep k s : exists piece, split_from sep (Some 0) k s = [piece].
Proof.
  revert k; induction s as [|c s IH]; intros k; simpl; [now exists []|].
  destruct k; [|apply IH].
  destruct (IH 0) as [piece ->]. now exists (c :: piece).
Qed.

(** With an occurrence, splitting once gives two pieces. *)
Lemma split_once_present sep s :
  py_in sep s = true -> sep <> [] ->
  exists a b, py_split sep (Some 1) s = [a; b].
Proof.
  unfold py_split. intros H Hsep. induction s as [|c s IH].
  - simpl in H. rewrite orb_false_r in H. destruct sep; [congruence|discriminate].
  - cbn [split_from]. destruct (startswith (c :: s) sep) eqn:Hsw; simpl.
    + destruct (split_exhausted sep (List.length sep - 1) s) as [piece ->].
      now exists [], piece.
    + simpl in H. 
      assert (Hin : py_in sep s = true).
      { destruct sep as [|y sep]; [congruence|]. simpl in *. 
        destruct s; simpl in *; rewrite Hsw in H; exact H. }
      destruct (IH Hin) as (a & b & ->). now exists (c :: a), b.
Qed.

(** The number of pieces with a limit is the number without, capped. *)
Lemma split_length_capped sep n k s :
  List.length (split_from sep (Some n) k s)
  = Nat.min (S n) (List.length (split_from sep None k s)).
Proof.
  revert n k; induction s as [|c s IH]; intros n k; [simpl; lia|].
  cbn [split_from]. destruct k; [|apply IH].
  destruct (startswith (c :: s) sep) eqn:Hsw.
  - destruct n as [|n]; cbn [may_split andb one_less pred List.length].
    + rewrite length_cons_first by apply split_from_nonempty.
      rewrite IH. pose proof (split_from_nonempty sep None 0 s).
      destruct (split_from sep None 0 s); [congruence|simpl; lia].
    + rewrite IH. lia.
  - rewrite !andb_false_r.
    rewrite !length_cons_first by apply split_from_nonempty. apply IH.
Qed.

(** *** The operations on examples *)

Example split_request_line :
  py_split (lit " ") (Some 2) (lit "GET /a b HTTP/1.1")
  = [lit "GET"; lit "/a"; lit "b HTTP/1.1"].
Proof. reflexivity. Qed.

Example split_adjacent_separators :
  py_split (lit " ") None (lit "a  b") = [lit "a"; []; lit "b"].
Proof. reflexivity. Qed.

Example split_does_not_overlap :
  py_split (lit "aa") None (lit "aaa") = [[]; lit "a"].
Proof. reflexivity. Qed.

Example split_header_once :
  py_split (lit ": ") (Some 1) (lit "Host: a: b") = [lit "Host"; lit "a: b"].
Proof. reflexivity. Qed.

Example endswith_version : endswith (lit "HTTP/1.1") (lit "/1.1") = true.
Proof. reflexivity. Qed.

Example decode_euro_sign :
  utf8_decode (map ascii_of_N [0xE2; 0x82; 0xAC; 0x41]%N) = Some [0x20AC; 0x41]%N.
Proof. reflexivity. Qed.

Example decode_rejects_overlong :
  utf8_decode (map ascii_of_N [0xC0; 0x80]%N) = None.
Proof. reflexivity. Qed.

Example decode_rejects_surrogate :
  utf8_decode (map ascii_of_N [0xED; 0xA0; 0x80]%N) = None.
Proof. reflexivity. Qed.

Example decode_rejects_truncated :
  utf8_decode (map ascii_of_N [0xE2; 0x82]%N) = None.
Proof. reflexivity. Qed.

Example encode_astral :
  option_map octets (utf8_encode [0x10348]%N) = Some [0xF0; 0x90; 0x8D; 0x88]%N.
Proof. reflexivity. Qed.

End StrFacts.

Import StrFacts.

Module WireFacts.
Import PyStr Runtime Server StrFacts.

Lemma utf8_encode_app (a b : pystr) :
  utf8_encode (a ++ b) =
  match utf8_encode a, utf8_encode b with
  | Some x, Some y => Some (x ++ y)
  | _, _ => None
  end.
Proof.
  induction a as [|c a IH]; simpl.
  - now destruct (utf8_encode b).
  - rewrite IH. destruct (utf8_encode_cp c); [|reflexivity].
    destruct (utf8_encode a); [|reflexivity].
    destruct (utf8_encode b); [|reflexivity].
    now rewrite app_assoc.
Qed.

Lemma utf8_encode_ascii (t : pystr) :
  is_ascii t = true -> utf8_encode t = Some (map ascii_of_N t).
Proof.
  induction t as [|c t IH]; simpl; [reflexivity|].
  intros H. apply andb_true_iff in H as [Hc Ht].
  unfold utf8_encode_cp. rewrite Hc, (IH Ht). reflexivity.
Qed.

Lemma octets_ascii (t : pystr) :
  is_ascii t = true -> octets (map ascii_of_N t) = t.
Proof.
  unfold octets. induction t as [|c t IH]; simpl; [reflexivity|].
  intros H. apply andb_true_iff in H as [Hc Ht].
  apply N.ltb_lt in Hc. rewrite N_ascii_embedding by lia. now rewrite IH.
Qed.

Lemma octets_app (a b : bytes) : octets (a ++ b) = octets a ++ octets b.
Proof. apply map_app. Qed.

(** An ASCII text inside an encoded head is found on the wire. *)
Lemma encoded_text_occurs (a t b : pystr) (head rest : bytes) :
  is_ascii t = true ->
  utf8_encode (a ++ t ++ b) = Some head ->
  py_in t (octets (head ++ rest)) = true.
Proof.
  intros Ht H. rewrite !utf8_encode_app, (utf8_encode_ascii _ Ht) in H.
  destruct (utf8_encode a) as [xa|]; [|discriminate].
  destruct (utf8_encode b) as [xb|]; [|discriminate].
  injection H as <-.
  rewrite <- !app_assoc, !octets_app, (octets_ascii _ Ht).
  apply py_in_app.
Qed.

Lemma connection_headers_line (keep_alive : bool) :
  exists line rest,
    connection_headers keep_alive = line ++ CRLF ++ rest /\
    line = (if keep_alive then lit "Connection: keep-alive" else lit "Connection: close").
Proof.
  destruct keep_alive; eexists; eexists; split; reflexivity.
Qed.

End WireFacts.

Import WireFacts.

(** ** A small logic of traces *)

Section TraceLogic.
Context {W J : Type} (E : Env W J) (cfg : Config).

Lemma emits_ret {A} Q (a : A) : emits Q (ret (W:=W) a).
Proof. intros w. constructor. Qed.

Lemma emits_raise {A} Q e : emits Q (raise (W:=W) (A:=A) e).
Proof. intros w. constructor. Qed.

Lemma emits_lift {A} Q (r : res A) : emits Q (lift (W:=W) r).
Proof. intros w. constructor. Qed.

Lemma emits_bind {A B} Q (m : M W A) (k : A -> M W B) :
  emits Q m -> (forall a, emits Q (k a)) -> emits Q (bind m k).
Proof.
  intros Hm Hk w. unfold bind. specialize (Hm w).
  destruct (m w) as [[[a|e] w1] t1]; [|exact Hm].
  specialize (Hk a w1). destruct (k a w1) as [[r w2] t2].
  apply Forall_app. split; assumption.
Qed.

Lemma emits_try_except {A} Q (m : M W A) (h : exn -> M W A) :
  emits Q m -> (forall e, emits Q (h e)) -> emits Q (try_except m h).
Proof.
  intros Hm Hh w. unfold try_except. specialize (Hm w).
  destruct (m w) as [[[a|e] w1] t1]; [exact Hm|].
  specialize (Hh e w1). destruct (h e w1) as [[r w2] t2].
  apply Forall_app. split; assumption.
Qed.

Lemma emits_try_finally {A} Q (m : M W A) (f : M W unit) :
  emits Q m -> emits Q f -> emits Q (try_finally m f).
Proof.
  intros Hm Hf w. unfold try_finally. specialize (Hm w).
  destruct (m w) as [[r w1] t1]. specialize (Hf w1).
  destruct (f w1) as [[[u|e] w2] t2]; apply Forall_app; split; assumption.
Qed.

Lemma bind_ret {A B} (a : A) (k : A -> M W B) w : bind (ret a) k w = k a w.
Proof. unfold bind, ret. now destruct (k a w) as [[r w1] t]. Qed.

Lemma bind_raise {A B} e (k : A -> M W B) w : bind (raise e) k w = raise e w.
Proof. reflexivity. Qed.

Lemma emits_bind_encode {B} Q s (k : bytes -> M W B) :
  (forall b, utf8_encode s = Some b -> emits Q (k b)) ->
  emits Q (bind (encode s) k).
Proof.
  intros H w. unfold encode. destruct (utf8_encode s) as [b|].
  - rewrite bind_ret. now apply H.
  - constructor.
Qed.

Lemma emits_encode Q s : emits Q (encode (W:=W) s).
Proof. unfold encode. destruct (utf8_encode s); [apply emits_ret|apply emits_raise]. Qed.

Lemma emits_decode Q data : emits Q (decode (W:=W) data).
Proof. unfold decode. destruct (utf8_decode data); [apply emits_ret|apply emits_raise]. Qed.

Lemma emits_time_strftime Q format gmt : emits Q (time_strftime E format gmt).
Proof. intros w. unfold time_strftime. destruct (strftime E format gmt w). constructor. Qed.

Lemma emits_random_below Q n : emits Q (random_below E n).
Proof. intros w. unfold random_below. destruct (random_index E n w). constructor. Qed.

Lemma emits_sendall (Q : event -> Prop) s data :
  Q (EvSendAll s data) -> emits Q (sendall E s data).
Proof.
  intros H w. unfold sendall. destruct (sock_sendall E s data w).
  repeat constructor. exact H.
Qed.

Lemma emits_open_read (Q : event -> Prop) path :
  Q (EvOpen path ModeRB) -> emits Q (open_read E path).
Proof.
  intros H w. unfold open_read. destruct (read_file E path w).
  repeat constructor. exact H.
Qed.

Lemma emits_open_write_json (Q : event -> Prop) path doc :
  Q (EvOpen path ModeW) -> emits Q (open_write_json E path doc).
Proof.
  intros H w. unfold open_write_json. destruct (write_json_file E path doc w).
  repeat constructor. exact H.
Qed.

Lemma emits_random_choices Q population k :
  emits Q (random_choices E population k).
Proof.
  induction k as [|k IH]; simpl; [apply emits_ret|].
  apply emits_bind; [apply emits_random_below|]. intros i.
  apply emits_bind; [exact IH|]. intros rest. apply emits_ret.
Qed.

(** *** [send_error] *)

Lemma send_error_run s code message ka extra data w :
  error_response code message ka extra = Some data ->
  send_error E s code message ka extra w = sendall E s data w.
Proof.
  unfold send_error, error_response, encode.
  destruct (utf8_encode (error_head code message ka extra)) as [h|]; [|discriminate].
  destruct (utf8_encode (error_body code message)) as [b|]; [|discriminate].
  intros [= <-]. now rewrite !bind_ret.
Qed.

Lemma emits_send_error (Q : event -> Prop) s code message ka extra :
  (forall data, error_response code message ka extra = Some data ->
                Q (EvSendAll s data)) ->
  emits Q (send_error E s code message ka extra).
Proof.
  intros H w. destruct (error_response code message ka extra) as [data|] eqn:Hr.
  - rewrite (send_error_run _ _ _ _ _ _ w Hr). now apply emits_sendall, H.
  - unfold send_error, error_response, encode in *.
    destruct (utf8_encode (error_head code message ka extra)) as [h|]; [|constructor].
    rewrite bind_ret.
    destruct (utf8_encode (error_body code message)) as [b|]; [discriminate|constructor].
Qed.

(** An error page of [error_kinds] is a [reply] under every decision when it
    closes, and under the decision it follows. *)
Lemma emits_error_reply s code message ka keep_alive :
  In (code, message) error_kinds ->
  ka = false \/ ka = keep_alive ->
  emits (handler_event s (reply keep_alive)) (send_error E s code message ka []).
Proof.
  intros Hin Hka. apply emits_send_error. intros data Hdata.
  split; [reflexivity|]. now apply (reply_error keep_alive code message ka).
Qed.

(** *** The request handlers *)

Lemma emits_serve_get_request s path thread_id keep_alive :
  emits (handler_event s (reply keep_alive))
        (serve_get_request E s path thread_id keep_alive).
Proof.
  unfold serve_get_request.
  destruct (py_in (lit "..") (default_path path)).
  { apply emits_error_reply; [cbv; tauto|now left]. }
  apply emits_try_except.
  - apply emits_bind; [now apply emits_open_read|]. intros content.
    destruct (content_type_of _) as [content_type|].
    + apply emits_bind; [apply emits_time_strftime|]. intros date.
      apply emits_bind_encode. intros h Hh. apply emits_sendall.
      split; [reflexivity|]. exact (reply_ok keep_alive _ _ _ _ _ content Hh).
    + apply emits_error_reply; [cbv; tauto|now left].
  - intros [] ; try apply emits_raise.
    apply emits_error_reply; [cbv; tauto|now left].
Qed.

Lemma emits_serve_post_request s headers body_part thread_id keep_alive :
  emits (handler_event s (reply keep_alive))
        (serve_post_request E s headers body_part thread_id keep_alive).
Proof.
  unfold serve_post_request.
  destruct (negb _).
  { apply emits_error_reply; [cbv; tauto|now left]. }
  apply emits_bind.
  - apply emits_try_except.
    + apply emits_bind; [apply emits_lift|]. intros j. apply emits_ret.
    + intros []; try apply emits_raise.
      apply emits_bind; [|intros; apply emits_ret].
      apply emits_error_reply; [cbv; tauto|now left].
  - intros [json_data|]; [|apply emits_ret].
    apply emits_bind; [apply emits_time_strftime|]. intros timestamp.
    apply emits_bind; [apply emits_random_choices|]. intros random_id.
    apply emits_try_except.
    + apply emits_bind; [now apply emits_open_write_json|]. intros _.
      apply emits_bind; [apply emits_time_strftime|]. intros date.
      apply emits_bind_encode. intros h Hh.
      apply emits_bind_encode. intros b _. apply emits_sendall.
      split; [reflexivity|]. exact (reply_created keep_alive _ _ _ b Hh).
    + intros e. apply emits_error_reply; [cbv; tauto|now left].
Qed.



(** *** What a computation returns *)

Lemma returns_ret {A} (P : A -> Prop) a : P a -> returns P (ret (W:=W) a).
Proof. intros H w. exact H. Qed.

Lemma returns_raise {A} (P : A -> Prop) e : returns P (raise (W:=W) e).
Proof. intros w. exact I. Qed.

Lemma returns_bind {A B} (P : B -> Prop) (m : M W A) (k : A -> M W B) :
  (forall a, returns P (k a)) -> returns P (bind m k).
Proof.
  intros Hk w. unfold bind. destruct (m w) as [[[a|e] w1] t1]; [|exact I].
  specialize (Hk a w1). now destruct (k a w1) as [[r w2] t2].
Qed.

Lemma returns_try_except {A} (P : A -> Prop) (m : M W A) (h : exn -> M W A) :
  returns P m -> (forall e, returns P (h e)) -> returns P (try_except m h).
Proof.
  intros Hm Hh w. unfold try_except. specialize (Hm w).
  destruct (m w) as [[[a|e] w1] t1]; [exact Hm|].
  specialize (Hh e w1). now destruct (h e w1) as [[r w2] t2].
Qed.

(** *** Stepping through a [try] block *)

Lemma try_except_bind_val {A B} (m : M W A) (k : A -> M W B) h w a w1 t0 :
  m w = (Val a, w1, t0) ->
  try_except (bind m k) h w =
  let '(r, w2, t) := try_except (k a) h w1 in (r, w2, t0 ++ t).
Proof.
  intros H. unfold try_except, bind. rewrite H.
  destruct (k a w1) as [[[b|e] w2] t]; [reflexivity|].
  destruct (h e w2) as [[r w3] t']. now rewrite app_assoc.
Qed.

Lemma try_except_bind_raise {A B} (m : M W A) (k : A -> M W B) h w e w1 t0 :
  m w = (Raise e, w1, t0) ->
  try_except (bind m k) h w =
  let '(r, w2, t) := h e w1 in (r, w2, t0 ++ t).
Proof. intros H. unfold try_except, bind. now rewrite H. Qed.

(** *** One pass of the loop *)

Variables (s : sock) (thread_id : nat).

Lemma serve_one_unfold request_count w :
  serve_one E cfg s thread_id request_count w =
  let '(received, w1) := sock_recv E s 8192%N w in
  let '(r, w2, t) := after_recv E cfg s thread_id request_count (of_sock received) w1 in
  (r, w2, EvSetTimeout s 30 :: EvRecv s 8192%N :: t).
Proof.
  unfold serve_one.
  rewrite (try_except_bind_val _ _ _ w tt w [EvSetTimeout s 30] eq_refl).
  destruct (sock_recv E s 8192%N w) as [received w1] eqn:Hrecv.
  unfold after_recv.
  destruct (of_sock received) as [data|e] eqn:Hres.
  - rewrite (try_except_bind_val _ _ _ w data w1 [EvRecv s 8192%N]);
      [|unfold recv; now rewrite Hrecv, Hres].
    rewrite (try_except_bind_val (lift (Val data)) _ _ w1 data w1 [] eq_refl).
    destruct (try_except _ _ w1) as [[r w2] t]. reflexivity.
  - rewrite (try_except_bind_raise _ _ _ w e w1 [EvRecv s 8192%N]);
      [|unfold recv; now rewrite Hrecv, Hres].
    rewrite (try_except_bind_raise (lift (Raise e)) _ _ w1 e w1 [] eq_refl).
    destruct (on_error E s e w1) as [[r w2] t]. reflexivity.
Qed.

Lemma emits_on_error keep_alive e :
  emits (handler_event s (reply keep_alive)) (on_error E s e).
Proof.
  destruct e; [apply emits_ret|..];
    (apply emits_bind; [|intros; apply emits_ret]);
    (apply emits_error_reply; [cbv; tauto|now left]).
Qed.

Lemma returns_on_error e : returns (fun x => x = Break) (on_error E s e).
Proof.
  destruct e; [now apply returns_ret|..];
    apply returns_bind; intros; now apply returns_ret.
Qed.

Lemma emits_route_request req request_count :
  emits (handler_event s
           (reply (decide_keep_alive (str_lower E) (req_version req)
                                     (req_headers req) request_count)))
        (route_request E cfg s thread_id req request_count).
Proof.
  unfold route_request.
  set (ska := decide_keep_alive _ _ _ _).
  destruct (negb (dict_mem _ _)).
  { apply emits_bind; [|intros; apply emits_ret].
    apply emits_error_reply; [cbv; tauto|now right]. }
  apply emits_bind; [apply emits_lift|]. intros host.
  destruct (negb (str_eqb host _)).
  { apply emits_bind; [|intros; apply emits_ret].
    apply emits_error_reply; [cbv; tauto|now right]. }
  apply emits_bind; [|intros; apply emits_ret].
  destruct (str_eqb (req_method req) _); [apply emits_serve_get_request|].
  destruct (str_eqb (req_method req) _); [apply emits_serve_post_request|].
  apply emits_error_reply; [cbv; tauto|now right].
Qed.

Lemma returns_route_request req request_count :
  returns (fun x => x = if negb (decide_keep_alive (str_lower E) (req_version req)
                                                   (req_headers req) request_count)
                        then Break else Next request_count)
          (route_request E cfg s thread_id req request_count).
Proof.
  unfold route_request.
  destruct (negb (dict_mem _ _)).
  { apply returns_bind; intros; now apply returns_ret. }
  apply returns_bind. intros host.
  destruct (negb (str_eqb host _)); apply returns_bind; intros; now apply returns_ret.
Qed.

End TraceLogic.

(** ** What is on the wire of a reply *)

Module ReplyFacts.
Import PyStr Runtime Server StrFacts WireFacts.

Lemma py_in_app_r (t x y : pystr) : py_in t y = true -> py_in t (x ++ y) = true.
Proof.
  intros H. apply py_in_occurs in H as (pre & post & ->).
  rewrite app_assoc. apply py_in_app.
Qed.

Lemma py_in_app_l (t x y : pystr) : py_in t x = true -> py_in t (x ++ y) = true.
Proof.
  intros H. apply py_in_occurs in H as (pre & post & ->).
  rewrite <- !app_assoc. apply py_in_app.
Qed.

(** Looking for a text in an encoded head, piece by piece. *)
Lemma find_text_later (x y : pystr) (h rest : bytes) (t : pystr) :
  utf8_encode (x ++ y) = Some h ->
  (forall hy, utf8_encode y = Some hy -> py_in t (octets (hy ++ rest)) = true) ->
  py_in t (octets (h ++ rest)) = true.
Proof.
  intros H Hy. rewrite utf8_encode_app in H.
  destruct (utf8_encode x) as [hx|]; [|discriminate].
  destruct (utf8_encode y) as [hy|]; [|discriminate].
  injection H as <-. rewrite <- app_assoc, octets_app.
  apply py_in_app_r. now apply Hy.
Qed.

Lemma find_text_here (y : pystr) (hy rest : bytes) (t : pystr) :
  is_ascii y = true -> py_in t y = true ->
  utf8_encode y = Some hy ->
  py_in t (octets (hy ++ rest)) = true.
Proof.
  intros Hascii Hin H. rewrite (utf8_encode_ascii _ Hascii) in H.
  injection H as <-. rewrite octets_app, (octets_ascii _ Hascii).
  now apply py_in_app_l.
Qed.

Ltac find_text H :=
  first
    [ refine (find_text_here _ _ _ _ _ _ H); reflexivity
    | let H' := fresh "Henc" in
      eapply find_text_later; [exact H | intros ? H'; find_text H'] ].

Lemma ok_head_connection content_type n date filename keep_alive head content :
  utf8_encode (ok_head content_type n date filename keep_alive) = Some head ->
  has_line (connection_line keep_alive) (head ++ content) = true.
Proof.
  unfold has_line, ok_head, content_disposition. intros H.
  destruct (str_eqb content_type _); destruct keep_alive;
    rewrite <- ?app_assoc in H; cbn [app] in H; find_text H.
Qed.

Lemma created_head_connection n date keep_alive head body :
  utf8_encode (created_head n date keep_alive) = Some head ->
  has_line (connection_line keep_alive) (head ++ body) = true.
Proof.
  unfold has_line, created_head. intros H.
  destruct keep_alive; find_text H.
Qed.

Lemma error_kinds_cases (P : nat -> pystr -> Prop) code message :
  In (code, message) error_kinds ->
  P 400 (lit "Bad Request") -> P 403 (lit "Forbidden") ->
  P 404 (lit "Not Found") -> P 405 (lit "Method Not Allowed") ->
  P 415 (lit "Unsupported Media Type") -> P 500 (lit "Internal Server Error") ->
  P code message.
Proof.
  unfold error_kinds. simpl.
  intros [H|[H|[H|[H|[H|[H|[]]]]]]]; injection H as <- <-; auto.
Qed.

(** A reply under the decision "close" carries [Connection: close]. *)
Lemma reply_close data :
  reply false data -> has_line (lit "Connection: close") data = true.
Proof.
  intros [code message ka d Hin Hka Hd | ct n date fn head content H | n date head body H].
  - assert (ka = false) as -> by (destruct Hka; assumption).
    revert d Hd. pattern code, message.
    apply (error_kinds_cases _ _ _ Hin);
      intros d Hd; vm_compute in Hd; injection Hd as <-; vm_compute; reflexivity.
  - exact (ok_head_connection _ _ _ _ false _ _ H).
  - exact (created_head_connection _ _ false _ _ H).
Qed.

(** A 200 or a 201 under the decision "keep alive" carries
    [Connection: keep-alive]. *)
Lemma reply_success_keep_alive data :
  reply true data ->
  has_status 200 data = true \/ has_status 201 data = true ->
  has_line (lit "Connection: keep-alive") data = true.
Proof.
  intros [code message ka d Hin Hka Hd | ct n date fn head content H | n date head body H] Hs.
  - exfalso. revert d Hd Hs. pattern code, message.
    apply (error_kinds_cases _ _ _ Hin);
      intros d Hd Hs; destruct ka; vm_compute in Hd; injection Hd as <-;
      destruct Hs as [Hs|Hs]; vm_compute in Hs; discriminate.
  - exact (ok_head_connection _ _ _ _ true _ _ H).
  - exact (created_head_connection _ _ true _ _ H).
Qed.

(** No error page carries a [Date] or a [Server] header. *)
Lemma error_page_headers code message ka data :
  In (code, message) error_kinds ->
  error_response code message ka [] = Some data ->
  has_header (lit "Date") data = false /\ has_header (lit "Server") data = false.
Proof.
  intros Hin. revert data. pattern code, message.
  apply (error_kinds_cases _ _ _ Hin);
    intros data Hd; destruct ka; vm_compute in Hd; injection Hd as <-;
    split; vm_compute; reflexivity.
Qed.

End ReplyFacts.

Import ReplyFacts.

(** ** The loop of [handle_connection] *)

Section LoopFacts.
Context {W J : Type} (E : Env W J) (cfg : Config) (s : sock) (thread_id : nat).

Lemma emits_bind_ret {A B} Q (a : A) (k : A -> M W B) :
  emits Q (k a) -> emits Q (bind (ret a) k).
Proof. intros H w. rewrite bind_ret. apply H. Qed.

Lemma emits_bind_decode {B} Q data (k : pystr -> M W B) :
  (forall text, utf8_decode data = Some text -> emits Q (k text)) ->
  emits Q (bind (decode data) k).
Proof.
  intros H. unfold decode. destruct (utf8_decode data) as [text|].
  - apply emits_bind_ret. now apply H.
  - intros w. constructor.
Qed.

Lemma emits_after_recv k received :
  emits (handler_event s (reply (pass_decision E (k + 1) received)))
        (after_recv E cfg s thread_id k received).
Proof.
  unfold after_recv. apply emits_try_except; [|intros; apply emits_on_error].
  destruct received as [data|e]; [|intros w; constructor].
  change (lift (Val data)) with (ret (W:=W) data). apply emits_bind_ret.
  apply emits_bind_decode. intros text Hd.
  destruct text as [|c text]; [apply emits_ret|].
  unfold pass_decision. rewrite Hd.
  destruct (parse_request (str_lower E) (c :: text)) as [req|e].
  - change (lift (Val req)) with (ret (W:=W) req). apply emits_bind_ret.
    apply emits_route_request.
  - intros w. constructor.
Qed.

Lemma pass_decision_cap k received :
  100 <= k -> pass_decision E k received = false.
Proof.
  intros Hk. unfold pass_decision.
  destruct received as [data|]; [|reflexivity].
  destruct (utf8_decode data) as [[|c text]|]; try reflexivity.
  destruct (parse_request _ _) as [req|]; [|reflexivity].
  unfold decide_keep_alive. apply Nat.leb_le in Hk. now rewrite Hk.
Qed.

Lemma decide_keep_alive_below lower version headers k :
  decide_keep_alive lower version headers k = true -> k < 100.
Proof.
  unfold decide_keep_alive. destruct (100 <=? k) eqn:Hk; [discriminate|].
  intros _. now apply Nat.leb_gt in Hk.
Qed.

Lemma returns_weaken {A} (P Q : A -> Prop) (m : M W A) :
  returns P m -> (forall a, P a -> Q a) -> returns Q m.
Proof.
  intros H HPQ w. specialize (H w). destruct (outcome (m w)); auto.
Qed.

(** A pass ends the loop or moves to the next request, below the cap. *)
Lemma returns_serve_one k :
  returns (fun x => x = Break \/ (x = Next (k + 1) /\ k + 1 < 100))
          (serve_one E cfg s thread_id k).
Proof.
  unfold serve_one. apply returns_try_except.
  - apply returns_bind. intros _. apply returns_bind. intros data.
    apply returns_bind. intros [|c text]; [apply returns_ret; now left|].
    apply returns_bind. intros req.
    eapply returns_weaken; [apply returns_route_request|].
    cbv beta. intros x ->.
    destruct (decide_keep_alive _ _ _ _) eqn:Hd; [right|now left].
    split; [reflexivity|]. eapply decide_keep_alive_below, Hd.
  - intros e. eapply returns_weaken; [apply returns_on_error|]. now left.
Qed.

(** The events of a pass: the time-out is set, one read of 8192 bytes is
    made, and the rest is the work of the handlers. *)
Lemma serve_one_trace k w :
  exists t,
    trace (serve_one E cfg s thread_id k w)
    = EvSetTimeout s 30 :: EvRecv s 8192%N :: t /\
    Forall (handler_event s
              (reply (pass_decision E (k + 1)
                                     (of_sock (fst (sock_recv E s 8192%N w)))))) t.
Proof.
  rewrite serve_one_unfold.
  destruct (sock_recv E s 8192%N w) as [received w1]. cbn [fst].
  pose proof (emits_after_recv k (of_sock received) w1) as H.
  destruct (after_recv E cfg s thread_id k (of_sock received) w1) as [[r w2] t].
  now exists t.
Qed.

(** *** Unfolding [handle_connection_at] *)

Lemma handle_connection_at_done fuel k w :
  100 <= k ->
  handle_connection_at E cfg fuel s thread_id k w = (Val (Some tt), w, [EvClose s]).
Proof.
  intros Hk. apply Nat.ltb_ge in Hk.
  unfold handle_connection_at, try_finally, try_except.
  destruct fuel; cbn [request_loop]; rewrite Hk; reflexivity.
Qed.

Lemma handle_connection_at_exit fuel k w r w1 t :
  k < 100 ->
  serve_one E cfg s thread_id k w = (r, w1, t) ->
  (forall n, r <> Val (Next n)) ->
  handle_connection_at E cfg (S fuel) s thread_id k w
  = (Val (Some tt), w1, t ++ [EvClose s]).
Proof.
  intros Hk Hs Hr. apply Nat.ltb_lt in Hk.
  unfold handle_connection_at, try_finally, try_except.
  cbn [request_loop]. rewrite Hk. unfold bind at 1. rewrite Hs.
  destruct r as [[|n]|e]; cbn.
  - now rewrite !app_nil_r.
  - now destruct (Hr n).
  - now rewrite !app_nil_r.
Qed.

Lemma handle_connection_at_next fuel k w n w1 t :
  k < 100 ->
  serve_one E cfg s thread_id k w = (Val (Next n), w1, t) ->
  handle_connection_at E cfg (S fuel) s thread_id k w
  = let '(r, w2, t2) := handle_connection_at E cfg fuel s thread_id n w1 in
    (r, w2, t ++ t2).
Proof.
  intros Hk Hs. apply Nat.ltb_lt in Hk.
  unfold handle_connection_at, try_finally, try_except.
  cbn [request_loop]. rewrite Hk. unfold bind at 1. rewrite Hs.
  destruct (request_loop E cfg fuel s thread_id n w1) as [[[a|e] w2] t2];
    cbn; now rewrite <- ?app_assoc.
Qed.


(** *** Reading traces *)

Lemma reads_app (a b : list event) : reads (a ++ b) = reads a + reads b.
Proof. unfold reads. now rewrite filter_app, length_app. Qed.

Lemma reads_handler_events Q (t : list event) :
  Forall (handler_event s Q) t -> reads t = 0.
Proof.
  induction 1 as [|ev t Hev _ IH]; [reflexivity|].
  unfold reads in *. destruct ev; simpl in *; try contradiction; exact IH.
Qed.

Lemma no_reads_closing (t : list event) :
  Forall (fun ev => is_recv ev = false -> closing_event ev) t ->
  reads t = 0 -> Forall closing_event t.
Proof.
  induction 1 as [|ev t Hev _ IH]; intros Hr; [constructor|].
  unfold reads in *. simpl in Hr. destruct (is_recv ev) eqn:Hev'.
  - discriminate.
  - constructor; auto.
Qed.

Lemma handler_events_closing (t : list event) :
  Forall (handler_event s (reply false)) t ->
  Forall (fun ev => is_recv ev = false -> closing_event ev) t.
Proof.
  apply Forall_impl. intros [] H _; simpl in *; try contradiction; auto.
  destruct H as [_ H]. now apply reply_close.
Qed.

Lemma handler_events_not_close Q (t : list event) :
  Forall (handler_event s Q) t -> Forall (fun ev => is_close ev = false) t.
Proof. apply Forall_impl. intros [] H; simpl in *; try contradiction; reflexivity. Qed.

(** *** The whole run, from any loop head *)

Lemma connection_run fuel :
  forall k w, 100 - k <= fuel ->
  let x := handle_connection_at E cfg fuel s thread_id k w in
  outcome x = Val (Some tt) /\
  exists t,
    trace x = t ++ [EvClose s] /\
    Forall (fun ev => is_close ev = false) t /\
    reads t <= 100 - k /\
    forall pre post,
      trace x = pre ++ post -> reads pre = 100 - k -> Forall closing_event post.
Proof.
  induction fuel as [|fuel IH]; intros k w Hfuel x.
  - subst x. rewrite handle_connection_at_done by lia.
    split; [reflexivity|]. exists []. repeat split; auto; [cbn; lia|].
    intros pre post Heq _. cbn [trace snd] in Heq.
    assert (Forall closing_event (pre ++ post)) as H
        by (rewrite <- Heq; repeat constructor).
    now apply Forall_app in H.
  - destruct (Nat.lt_ge_cases k 100) as [Hk|Hk].
    2:{ subst x. rewrite handle_connection_at_done by lia.
        split; [reflexivity|]. exists []. repeat split; auto; [cbn; lia|].
        intros pre post Heq _. cbn [trace snd] in Heq.
        assert (Forall closing_event (pre ++ post)) as H
            by (rewrite <- Heq; repeat constructor).
        now apply Forall_app in H. }
    destruct (serve_one_trace k w) as (t0 & Htrace & Hevents).
    pose proof (returns_serve_one k w) as Hret.
    destruct (serve_one E cfg s thread_id k w) as [[r w1] t1] eqn:Hs.
    cbn [trace snd] in Htrace. cbn [outcome fst] in Hret. subst t1.
    assert (Hreads0 : reads t0 = 0) by (eapply reads_handler_events; eauto).
    assert (Hexit : (forall n, r <> Val (Next n)) ->
              outcome x = Val (Some tt) /\
              exists t, trace x = t ++ [EvClose s] /\
                Forall (fun ev => is_close ev = false) t /\
                reads t <= 100 - k /\
                forall pre post, trace x = pre ++ post -> reads pre = 100 - k ->
                                 Forall closing_event post).
    { intros Hr. subst x. rewrite (handle_connection_at_exit _ _ _ _ _ _ Hk Hs Hr).
      split; [reflexivity|]. eexists. split; [reflexivity|].
      split; [|split].
      - repeat constructor. eapply handler_events_not_close; eauto.
      - change (reads (EvSetTimeout s 30 :: EvRecv s 8192%N :: t0)) with (S (reads t0)). lia.
      - intros pre post Heq Hpre. cbn [trace snd] in Heq.
        assert (Hall : reads (pre ++ post) = 1).
        { rewrite <- Heq. change (S (reads (t0 ++ [EvClose s])) = 1).
          rewrite reads_app, Hreads0. reflexivity. }
        rewrite reads_app in Hall.
        assert (k = 99) as -> by lia.
        rewrite (pass_decision_cap _ _ (Nat.le_refl 100)) in Hevents.
        assert (Hcl : Forall (fun ev => is_recv ev = false -> closing_event ev)
                             (pre ++ post)).
        { rewrite <- Heq. constructor; [intros _; exact I|].
          constructor; [discriminate|].
          apply Forall_app. split; [now apply handler_events_closing|].
          repeat constructor. }
        apply Forall_app in Hcl as [_ Hcl]. apply no_reads_closing; [exact Hcl|lia]. }
    destruct r as [[|n]|e]; try (apply Hexit; intros n'; discriminate).
    destruct Hret as [Hret|[Hret Hcap]]; [discriminate|]. injection Hret as ->.
    subst x. rewrite (handle_connection_at_next _ _ _ _ _ _ Hk Hs).
    specialize (IH (k + 1) w1 ltac:(lia)). cbv zeta in IH.
    destruct (handle_connection_at E cfg fuel s thread_id (k + 1) w1) as [[r2 w2] t2].
    cbn [outcome trace fst snd] in *.
    destruct IH as (Hout & t & Ht2 & Hclose & Hreads & Hsplit).
    split; [exact Hout|].
    exists ((EvSetTimeout s 30 :: EvRecv s 8192%N :: t0) ++ t).
    split; [now rewrite Ht2, app_assoc|]. split; [|split].
    + apply Forall_app. split; [|exact Hclose].
      repeat constructor. eapply handler_events_not_close; eauto.
    + rewrite reads_app.
      change (reads (EvSetTimeout s 30 :: EvRecv s 8192%N :: t0)) with (S (reads t0)). lia.
    + intros pre post Heq Hpre.
      apply app_eq_app in Heq as [l [[Hl1 Hl2]|[Hl1 Hl2]]].
      * exfalso. assert (Hr : reads (pre ++ l) = 1).
        { rewrite <- Hl1.
          change (reads (EvSetTimeout s 30 :: EvRecv s 8192%N :: t0)) with (S (reads t0)). lia. }
        rewrite reads_app in Hr. lia.
      * apply (Hsplit l post Hl2).
        rewrite Hl1, reads_app in Hpre.
        change (reads (EvSetTimeout s 30 :: EvRecv s 8192%N :: t0)) with (S (reads t0)) in Hpre.
        lia.
Qed.

End LoopFacts.

(** ** Requests that do not parse *)

Section ParseFacts.
Variable lower : pystr -> pystr.

Lemma parse_empty : parse_request lower [] = Raise ValueError.
Proof. reflexivity. Qed.

Lemma parse_missing_separator text :
  py_in (CRLF ++ CRLF) text = false -> parse_request lower text = Raise ValueError.
Proof. intros H. unfold parse_request. now rewrite (split_absent _ _ _ H). Qed.

Lemma parse_short_request_line text :
  py_in (CRLF ++ CRLF) text = true ->
  token_count (request_line text) < 3 ->
  parse_request lower text = Raise ValueError.
Proof.
  intros Hsep Htok. unfold parse_request, request_line, token_count in *.
  destruct (split_once_present (CRLF ++ CRLF) text Hsep) as (head & body & Hsplit);
    [discriminate|].
  rewrite Hsplit in *. cbn [hd] in Htok.
  pose proof (split_from_nonempty CRLF None 0 head) as Hne.
  unfold py_split in *.
  destruct (split_from CRLF None 0 head) as [|first rest]; [congruence|].
  cbn [hd] in Htok.
  pose proof (split_length_capped (lit " ") 2 0 first) as Hlen.
  destruct (split_from (lit " ") (Some 2) 0 first) as [|a [|b [|c [|d l]]]];
    try reflexivity.
  cbn [List.length] in Hlen. lia.
Qed.

Lemma parse_unparseable text :
  py_in (CRLF ++ CRLF) text = false \/ token_count (request_line text) < 3 ->
  parse_request lower text = Raise ValueError.
Proof.
  intros [H|H]; [now apply parse_missing_separator|].
  destruct (py_in (CRLF ++ CRLF) text) eqn:Hsep.
  - now apply parse_short_request_line.
  - now apply parse_missing_separator.
Qed.

Lemma headers_of_lines_total (lines : list pystr) (acc : dict) :
  exists headers, headers_of_lines lower lines acc = Val headers.
Proof.
  revert acc. induction lines as [|line lines IH]; intros acc; cbn [headers_of_lines].
  - now exists acc.
  - destruct (py_in (lit ": ") line) eqn:Hin; [|apply IH].
    destruct (split_once_present (lit ": ") line Hin) as (key & value & ->);
      [discriminate|apply IH].
Qed.

(** A text that holds the blank line and whose request line has three
    tokens or more is parsed, and its body is whatever follows the first
    blank line, however short. *)
Lemma parse_head_and_body text head body :
  py_split (CRLF ++ CRLF) (Some 1) text = [head; body] ->
  3 <= token_count (request_line text) ->
  exists req, parse_request lower text = Val req /\ req_body req = body.
Proof.
  intros Hsplit Htok. unfold parse_request, request_line, token_count in *.
  rewrite Hsplit in *. cbn [hd] in Htok.
  pose proof (split_from_nonempty CRLF None 0 head) as Hne.
  unfold py_split in *.
  destruct (split_from CRLF None 0 head) as [|first rest]; [congruence|].
  cbn [hd] in Htok.
  pose proof (split_length_capped (lit " ") 2 0 first) as Hlen.
  destruct (split_from (lit " ") (Some 2) 0 first) as [|a [|b [|c [|d l]]]];
    cbn [List.length] in Hlen; try lia.
  destruct (headers_of_lines_total rest []) as (headers & ->).
  eexists. split; reflexivity.
Qed.

End ParseFacts.

(** ** A pass that has read a request *)

Section ParsedPass.
Context {W J : Type} (E : Env W J) (cfg : Config) (s : sock) (thread_id : nat).

(** A pass that has received a request that parses goes on with the
    routing, under the [except] clauses. *)
Lemma serve_one_parsed k w w1 data text req :
  sock_recv E s 8192%N w = (Done data, w1) ->
  utf8_decode data = Some text ->
  parse_request (str_lower E) text = Val req ->
  serve_one E cfg s thread_id k w =
  let '(r, w2, t) :=
    try_except (route_request E cfg s thread_id req (k + 1)) (on_error E s) w1 in
  (r, w2, EvSetTimeout s 30 :: EvRecv s 8192%N :: t).
Proof.
  intros Hrecv Hdec Hparse. rewrite serve_one_unfold, Hrecv. cbn [of_sock].
  unfold after_recv.
  rewrite (try_except_bind_val (lift (Val data)) _ _ w1 data w1 [] eq_refl).
  unfold decode. rewrite Hdec.
  destruct text as [|c text]; [rewrite parse_empty in Hparse; discriminate|].
  rewrite (try_except_bind_val (ret (c :: text)) _ _ w1 _ w1 [] eq_refl).
  rewrite Hparse.
  rewrite (try_except_bind_val (lift (Val req)) _ _ w1 req w1 [] eq_refl).
  destruct (try_except _ _ w1) as [[r w2] t]. reflexivity.
Qed.

End ParsedPass.

(** ** The fatal path of a pass *)

Section FatalPath.
Context {W J : Type} (E : Env W J) (cfg : Config) (s : sock) (thread_id : nat).

Lemma page_500_close_sent :
  error_response 500 (lit "Internal Server Error") false [] = Some page_500_close.
Proof. vm_compute. reflexivity. Qed.

Lemma on_error_fatal e w :
  e <> SocketTimeout ->
  exists r w1,
    on_error E s e w = (r, w1, [EvSendAll s page_500_close]) /\
    forall n, r <> Val (Next n).
Proof.
  intros He.
  assert (H : on_error E s e w =
              bind (send_error E s 500 (lit "Internal Server Error") false [])
                   (fun _ => ret Break) w)
    by (destruct e; try reflexivity; congruence).
  rewrite H. unfold bind. rewrite (send_error_run E _ _ _ _ _ _ w page_500_close_sent).
  unfold sendall. destruct (sock_sendall E s page_500_close w) as [[u|[]] w1];
    cbn; eexists; eexists; (split; [reflexivity|]); intros n; discriminate.
Qed.

(** A read that does not decode, or decodes to a text that does not parse,
    is answered with the 500 page and ends the loop. *)
Lemma after_recv_fatal k data w :
  utf8_decode data = None \/
  (exists c text, utf8_decode data = Some (c :: text) /\
                  parse_request (str_lower E) (c :: text) = Raise ValueError) ->
  exists r w1,
    after_recv E cfg s thread_id k (Val data) w = (r, w1, [EvSendAll s page_500_close]) /\
    forall n, r <> Val (Next n).
Proof.
  intros H. unfold after_recv.
  rewrite (try_except_bind_val (lift (Val data)) _ _ w data w [] eq_refl).
  unfold decode.
  destruct H as [H|(c & text & H & Hparse)]; rewrite H.
  - rewrite (try_except_bind_raise (raise UnicodeDecodeError) _ _ w _ w [] eq_refl).
    destruct (on_error_fatal UnicodeDecodeError w) as (r & w1 & -> & Hr);
      [discriminate|].
    now exists r, w1.
  - rewrite (try_except_bind_val (ret (c :: text)) _ _ w _ w [] eq_refl).
    rewrite Hparse.
    rewrite (try_except_bind_raise (lift (Raise ValueError)) _ _ w _ w [] eq_refl).
    destruct (on_error_fatal ValueError w) as (r & w1 & -> & Hr); [discriminate|].
    now exists r, w1.
Qed.

Lemma fatal_pass_closes fuel k w data w1 :
  k < 100 ->
  sock_recv E s 8192%N w = (Done data, w1) ->
  utf8_decode data = None \/
  (exists c text, utf8_decode data = Some (c :: text) /\
                  parse_request (str_lower E) (c :: text) = Raise ValueError) ->
  trace (handle_connection_at E cfg (S fuel) s thread_id k w)
  = [EvSetTimeout s 30; EvRecv s 8192%N; EvSendAll s page_500_close; EvClose s].
Proof.
  intros Hk Hrecv Hbad.
  destruct (after_recv_fatal k data w1 Hbad) as (r & w2 & Hafter & Hr).
  pose proof (serve_one_unfold E cfg s thread_id k w) as Hs.
  rewrite Hrecv in Hs. cbn [of_sock] in Hs. rewrite Hafter in Hs.
  now rewrite (handle_connection_at_exit E cfg s thread_id fuel k w _ _ _ Hk Hs Hr).
Qed.

End FatalPath.

(** ** The connection handler *)

Section ConnectionClaims.
Context {W J : Type} (E : Env W J) (cfg : Config) (s : sock) (thread_id : nat).

(** C10. Whatever the peer, the files, the clock and the socket do,
    [handle_connection] returns, and it returns with the client socket
    closed: [close] is the last thing it does, once. *)
Theorem handle_connection_closes_socket (w : W) :
  outcome (handle_connection E cfg s thread_id w) = Val (Some tt) /\
  exists t,
    trace (handle_connection E cfg s thread_id w) = t ++ [EvClose s] /\
    Forall (fun ev => is_close ev = false) t.
Proof.
  unfold handle_connection.
  destruct (connection_run E cfg s thread_id 100 0 w) as (Hout & t & Ht & Hclose & _);
    [lia|].
  split; [exact Hout|]. now exists t.
Qed.


(** C1, as the code has it.  When the loop is at its head with fewer than
    100 requests counted and the next read delivers a non-empty text without
    the blank-line separator, or with a request line of fewer than three
    space-separated tokens, the handler answers with the 500 page (not a
    400), and closes the socket. *)
Theorem unparseable_request_answered_500_and_closed
        (fuel k : nat) (w w1 : W) (data : bytes) (text : pystr) :
  k < 100 ->
  sock_recv E s 8192%N w = (Done data, w1) ->
  utf8_decode data = Some text ->
  text <> [] ->
  py_in (CRLF ++ CRLF) text = false \/ token_count (request_line text) < 3 ->
  trace (handle_connection_at E cfg (S fuel) s thread_id k w)
  = [EvSetTimeout s 30; EvRecv s 8192%N; EvSendAll s page_500_close; EvClose s]
  /\ has_status 500 page_500_close = true
  /\ has_status 400 page_500_close = false
  /\ has_line (lit "Connection: close") page_500_close = true.
Proof.
  intros Hk Hrecv Hdec Hne Hbad.
  split; [|repeat split; vm_compute; reflexivity].
  apply (fatal_pass_closes E cfg s thread_id fuel k w data w1 Hk Hrecv).
  right. destruct text as [|c text]; [congruence|].
  exists c, text. split; [exact Hdec|]. now apply parse_unparseable.
Qed.

(** C9, as the code has it.  A pass of the loop sets the time-out, makes one
    read of at most 8192 bytes and nothing it does afterwards is a read: the
    rest of the pass is computed from these bytes alone.  Bytes that are not
    valid UTF-8, and a non-empty text without the blank-line separator, take
    the fatal path: the 500 page, then the socket is closed.  A text that
    holds the blank line and a request line of three tokens or more is a
    complete request for the handler: it is parsed, its body is whatever
    follows the first blank line in these bytes, however short, and the
    request is routed with that body. *)
Theorem one_read_per_pass_and_fatal_path
        (fuel k : nat) (w w1 : W) (received : sock_result bytes) :
  k < 100 ->
  sock_recv E s 8192%N w = (received, w1) ->
  (exists t,
      trace (serve_one E cfg s thread_id k w)
      = EvSetTimeout s 30 :: EvRecv s 8192%N :: t /\
      reads t = 0 /\
      t = trace (after_recv E cfg s thread_id k (of_sock received) w1)) /\
  (forall data,
      received = Done data ->
      utf8_decode data = None \/
      (exists c text, utf8_decode data = Some (c :: text) /\
                      py_in (CRLF ++ CRLF) (c :: text) = false) ->
      trace (handle_connection_at E cfg (S fuel) s thread_id k w)
      = [EvSetTimeout s 30; EvRecv s 8192%N; EvSendAll s page_500_close; EvClose s]) /\
  (forall data text head body,
      received = Done data ->
      utf8_decode data = Some text ->
      py_split (CRLF ++ CRLF) (Some 1) text = [head; body] ->
      3 <= token_count (request_line text) ->
      exists req,
        parse_request (str_lower E) text = Val req /\
        req_body req = body /\
        serve_one E cfg s thread_id k w
        = let '(r, w2, t) :=
            try_except (route_request E cfg s thread_id req (k + 1))
                       (on_error E s) w1 in
          (r, w2, EvSetTimeout s 30 :: EvRecv s 8192%N :: t)).
Proof.
  intros Hk Hrecv. split; [|split].
  - destruct (serve_one_trace E cfg s thread_id k w) as (t & Ht & Hev).
    exists t. split; [exact Ht|]. split; [eapply reads_handler_events; eauto|].
    rewrite serve_one_unfold, Hrecv in Ht.
    destruct (after_recv E cfg s thread_id k (of_sock received) w1) as [[r w2] t'].
    cbn [trace snd] in *. congruence.
  - intros data -> Hbad.
    apply (fatal_pass_closes E cfg s thread_id fuel k w data w1 Hk Hrecv).
    destruct Hbad as [H|(c & text & Hd & Hsep)]; [now left|right].
    exists c, text. split; [exact Hd|]. now apply parse_missing_separator.
  - intros data text head body -> Hdec Hsplit Htok.
    destruct (parse_head_and_body (str_lower E) text head body Hsplit Htok)
      as (req & Hparse & Hbody).
    exists req. split; [exact Hparse|]. split; [exact Hbody|].
    exact (serve_one_parsed E cfg s thread_id k w w1 data text req Hrecv Hdec Hparse).
Qed.

(** C5, as the code has it.  For a request that parses, made with a version
    ending in [/1.1], whose [Connection] header, lower-cased, is not
    [close], and that is not the hundredth of its connection, every 200 and
    every 201 response sent in the pass carries [Connection: keep-alive]. *)
Theorem success_response_keeps_alive
        (k : nat) (w w1 : W) (data : bytes) (text : pystr) (req : request)
        (response : bytes) :
  sock_recv E s 8192%N w = (Done data, w1) ->
  utf8_decode data = Some text ->
  parse_request (str_lower E) text = Val req ->
  endswith (req_version req) (lit "/1.1") = true ->
  str_lower E (dict_get (lit "connection") [] (req_headers req)) <> lit "close" ->
  k + 1 < 100 ->
  In (EvSendAll s response) (trace (serve_one E cfg s thread_id k w)) ->
  has_status 200 response = true \/ has_status 201 response = true ->
  has_line (lit "Connection: keep-alive") response = true.
Proof.
  intros Hrecv Hdec Hparse Hver Hconn Hk Hin Hstatus.
  destruct (serve_one_trace E cfg s thread_id k w) as (t & Ht & Hev).
  rewrite Ht in Hin. destruct Hin as [Hin|[Hin|Hin]]; try discriminate.
  rewrite Forall_forall in Hev. apply Hev in Hin as [_ Hreply].
  apply reply_success_keep_alive; [|exact Hstatus].
  replace (pass_decision E (k + 1) (of_sock (fst (sock_recv E s 8192%N w))))
    with true in Hreply;
    [exact Hreply|].
  rewrite Hrecv. cbn [fst of_sock]. unfold pass_decision. rewrite Hdec.
  destruct text as [|c text]; [rewrite parse_empty in Hparse; discriminate|].
  rewrite Hparse. unfold decide_keep_alive.
  apply str_eqb_neq in Hconn. rewrite Hver, Hconn. cbn [negb andb].
  apply Nat.leb_gt in Hk. now rewrite Hk.
Qed.

End ConnectionClaims.

(** ** The acceptor and the request handlers *)

Section HandlerClaims.
Context {W J : Type} (E : Env W J).

Lemma page_503_close_sent :
  error_response 503 (lit "Service Unavailable") false [(lit "Retry-After", lit "10")]
  = Some page_503_close.
Proof. vm_compute. reflexivity. Qed.

Lemma page_403_close_sent :
  error_response 403 (lit "Forbidden") false [] = Some page_403_close.
Proof. vm_compute. reflexivity. Qed.

Lemma page_404_close_sent :
  error_response 404 (lit "Not Found") false [] = Some page_404_close.
Proof. vm_compute. reflexivity. Qed.

Lemma page_415_close_sent :
  error_response 415 (lit "Unsupported Media Type") false [] = Some page_415_close.
Proof. vm_compute. reflexivity. Qed.

(** The acceptor of C3, as far as it does what is claimed.  With the queue
    at its capacity the accepted connection is not
    enqueued: the first thing the acceptor does is to send the 503 page,
    which carries [Retry-After] and [Connection: close], and once the send
    has returned it closes the socket and leaves the queue as it was.  Below
    capacity the connection is appended to the queue and nothing is sent. *)
Theorem acceptor_sheds_load_at_capacity (q : list sock) (s : sock) (w : W) :
  (MAX_QUEUE_SIZE <= List.length q ->
   (exists rest, trace (main_accept E q s w) = EvSendAll s page_503_close :: rest) /\
   (forall q', outcome (main_accept E q s w) = Val q' -> q' = q) /\
   (forall w1, sock_sendall E s page_503_close w = (Done tt, w1) ->
               main_accept E q s w
               = (Val q, w1, [EvSendAll s page_503_close; EvClose s]))) /\
  (List.length q < MAX_QUEUE_SIZE ->
   main_accept E q s w = (Val (q ++ [s]), w, [])) /\
  has_status 503 page_503_close = true /\
  has_header (lit "Retry-After") page_503_close = true /\
  has_line (lit "Connection: close") page_503_close = true.
Proof.
  split; [|split; [|repeat split; vm_compute; reflexivity]].
  - intros Hfull. unfold main_accept, put_nowait, try_except, lift.
    replace (MAX_QUEUE_SIZE <=? List.length q) with true
      by (symmetry; now apply Nat.leb_le).
    cbn [Nat.ltb Nat.leb MAX_QUEUE_SIZE andb]. unfold bind.
    rewrite (send_error_run E _ _ _ _ _ _ w page_503_close_sent).
    unfold sendall.
    destruct (sock_sendall E s page_503_close w) as [[[]|[]] w1]; cbn;
      (repeat split; [now eexists | intros q' [=]; congruence | intros w2 [=]; congruence]).
  - intros Hroom. unfold main_accept, put_nowait, try_except, lift.
    replace (MAX_QUEUE_SIZE <=? List.length q) with false
      by (symmetry; now apply Nat.leb_gt).
    now rewrite andb_false_r.
Qed.

(** C4. A GET whose path, once ["/"] has been replaced by the default
    resource, contains [".."] is answered with the 403 page and nothing
    else happens: no file is opened. *)
Theorem traversal_rejected_before_file_access
        (s : sock) (path : pystr) (thread_id : nat) (keep_alive : bool) (w : W) :
  py_in (lit "..") (default_path path) = true ->
  trace (serve_get_request E s path thread_id keep_alive w)
  = [EvSendAll s page_403_close] /\
  has_status 403 page_403_close = true /\
  Forall (fun ev => is_open ev = false)
         (trace (serve_get_request E s path thread_id keep_alive w)).
Proof.
  intros Hdots.
  assert (Ht : trace (serve_get_request E s path thread_id keep_alive w)
               = [EvSendAll s page_403_close]).
  { unfold serve_get_request. rewrite Hdots.
    rewrite (send_error_run E _ _ _ _ _ _ w page_403_close_sent).
    unfold sendall. now destruct (sock_sendall E s page_403_close w). }
  rewrite Ht. repeat split; try (vm_compute; reflexivity).
  repeat constructor.
Qed.

(** C6, as the code has it.  A GET whose path holds no [".."] and whose
    extension is none of the supported ones opens and reads the file first;
    it is answered with the 415 page when the file could be read and with
    the 404 page when the file does not exist. *)
Theorem unsupported_extension_after_file_access
        (s : sock) (path : pystr) (thread_id : nat) (keep_alive : bool) (w : W) :
  py_in (lit "..") (default_path path) = false ->
  content_type_of (lit "resources" ++ default_path path) = None ->
  let filepath := lit "resources" ++ default_path path in
  exists rest,
    trace (serve_get_request E s path thread_id keep_alive w)
    = EvOpen filepath ModeRB :: rest /\
    (forall content w1, read_file E filepath w = (Val content, w1) ->
                        rest = [EvSendAll s page_415_close]) /\
    (forall w1, read_file E filepath w = (Raise FileNotFoundError, w1) ->
                rest = [EvSendAll s page_404_close]).
Proof.
  intros Hdots Htype filepath. subst filepath.
  unfold serve_get_request. rewrite Hdots, Htype.
  set (filepath := lit "resources" ++ default_path path).
  unfold try_except, bind, open_read.
  destruct (read_file E filepath w) as [[content|e] w1].
  - rewrite (send_error_run E _ _ _ _ _ _ w1 page_415_close_sent).
    unfold sendall.
    destruct (sock_sendall E s page_415_close w1) as [[u|[]] w2];
      cbn [of_sock raise trace snd app];
      (eexists; split; [reflexivity|]; split; [reflexivity | intros ? [=]]).
  - assert (He : forall t,
               (let '(r, w2, t2) :=
                  match e with
                  | FileNotFoundError =>
                      send_error E s 404 (lit "Not Found") false []
                  | _ => raise e
                  end w1 in (r, w2, t ++ t2))
               = (let '(r, w2, t2) :=
                    match e with
                    | FileNotFoundError => sendall E s page_404_close
                    | _ => raise e
                    end w1 in (r, w2, t ++ t2))).
    { intros t. destruct e; try reflexivity.
      now rewrite (send_error_run E _ _ _ _ _ _ w1 page_404_close_sent). }
    rewrite He. clear He.
    destruct e;
      try (cbn [raise trace snd app]; eexists; split; [reflexivity|];
           split; intros; discriminate).
    unfold sendall. destruct (sock_sendall E s page_404_close w1) as [r w2].
    cbn [trace snd app].
    eexists; split; [reflexivity|]; split; [intros; discriminate|reflexivity].
Qed.

End HandlerClaims.

(** ** Uploads *)

Section UploadClaims.
Context {W J : Type} (E : Env W J).

Lemma bind_run_val {A B} (m : M W A) (k : A -> M W B) w a w1 :
  m w = (Val a, w1, []) -> bind m k w = k a w1.
Proof. intros H. unfold bind. rewrite H. now destruct (k a w1) as [[r w2] t]. Qed.

Lemma bind_run_raise {A B} (m : M W A) (k : A -> M W B) w e w1 t :
  m w = (Raise e, w1, t) -> bind m k w = (Raise e, w1, t).
Proof. intros H. unfold bind. now rewrite H. Qed.

Lemma bind_time_strftime {B} format gmt (k : pystr -> M W B) w :
  bind (time_strftime E format gmt) k w
  = k (fst (strftime E format gmt w)) (snd (strftime E format gmt w)).
Proof.
  apply bind_run_val. unfold time_strftime. now destruct (strftime E format gmt w).
Qed.

Lemma random_choices_val population k w :
  exists random_id w1,
    random_choices E population k w = (Val random_id, w1, []) /\
    List.length random_id = k.
Proof.
  revert w; induction k as [|k IH]; intros w; cbn [random_choices].
  - now exists [], w.
  - unfold bind at 1, random_below.
    destruct (random_index E (List.length population) w) as [i w1].
    destruct (IH w1) as (rest & w2 & Hrest & Hlen).
    unfold bind. rewrite Hrest. cbn.
    eexists; eexists; split; [reflexivity|]. cbn. now rewrite Hlen.
Qed.

Lemma drawn_random_id_length w : List.length (drawn_random_id E w) = 4.
Proof.
  unfold drawn_random_id.
  destruct (random_choices_val UPLOAD_ALPHABET 4
              (snd (strftime E UPLOAD_FORMAT false w))) as (rid & w1 & -> & Hlen).
  exact Hlen.
Qed.

Lemma app_same_length_inj {A} (a c b d : list A) :
  a ++ b = c ++ d -> List.length a = List.length c -> a = c /\ b = d.
Proof.
  revert c; induction a as [|x a IH]; intros [|y c] H Hlen; try discriminate.
  - now split.
  - injection H as -> H. injection Hlen as Hlen.
    destruct (IH c H Hlen) as [-> ->]. now split.
Qed.

(** Two upload names agree only when the time stamps and the random
    suffixes agree, the suffixes having the same length. *)
Lemma upload_filename_inj ts1 r1 ts2 r2 :
  List.length r1 = List.length r2 ->
  upload_filename ts1 r1 = upload_filename ts2 r2 ->
  ts1 = ts2 /\ r1 = r2.
Proof.
  unfold upload_filename. intros Hlen H.
  apply app_inv_head in H.
  assert (Hl : List.length (ts1 ++ lit "_" ++ r1 ++ lit ".json")
               = List.length (ts2 ++ lit "_" ++ r2 ++ lit ".json")) by now rewrite H.
  rewrite !length_app in Hl.
  apply app_same_length_inj in H as [-> H]; [|lia].
  apply app_inv_head in H. apply app_inv_tail in H. now split.
Qed.

Lemma error_page_not_created code message ka data :
  In (code, message) error_kinds ->
  error_response code message ka [] = Some data ->
  has_status 201 data = false.
Proof.
  intros Hin. revert data. pattern code, message.
  apply (error_kinds_cases _ _ _ Hin);
    intros data Hd; destruct ka; vm_compute in Hd; injection Hd as <-;
    vm_compute; reflexivity.
Qed.

Lemma emits_error_not_created s code message ka (P : bytes -> Prop) :
  In (code, message) error_kinds ->
  emits (handler_event s (fun d => has_status 201 d = true -> P d))
        (send_error E s code message ka []).
Proof.
  intros Hin. apply emits_send_error. intros data Hd.
  split; [reflexivity|]. intros H.
  rewrite (error_page_not_created _ _ _ _ Hin Hd) in H. discriminate.
Qed.

(** Every 201 sent by [serve_post_request] announces the name drawn in the
    world the handler started in. *)
Lemma serve_post_events s headers body thread_id keep_alive w :
  Forall (handler_event s
            (fun d => has_status 201 d = true ->
                      created_with (upload_filename (drawn_timestamp E w)
                                                    (drawn_random_id E w)) d))
         (trace (serve_post_request E s headers body thread_id keep_alive w)).
Proof.
  unfold serve_post_request.
  destruct (negb _).
  { apply emits_error_not_created. cbv; tauto. }
  destruct (json_loads E body) as [j|e] eqn:Hj.
  - rewrite (bind_run_val _ _ w (Some j) w eq_refl).
    rewrite bind_time_strftime.
    unfold drawn_timestamp, drawn_random_id.
    destruct (strftime E UPLOAD_FORMAT false w) as [ts w1]. cbn [fst snd].
    destruct (random_choices_val UPLOAD_ALPHABET 4 w1) as (rid & w2 & Hrid & _).
    rewrite (bind_run_val _ _ w1 rid w2 Hrid). rewrite Hrid. cbn [outcome fst].
    match goal with |- Forall ?Q (trace (?m w2)) => assert (Hm : emits Q m) end;
      [|now apply Hm].
    apply emits_try_except.
    + apply emits_bind; [now apply emits_open_write_json|]. intros _.
      apply emits_bind; [apply emits_time_strftime|]. intros date.
      apply emits_bind_encode. intros h Hh.
      apply emits_bind_encode. intros b Hb. apply emits_sendall.
      split; [reflexivity|]. intros _.
      exists (List.length (created_body (upload_filename ts rid))), date, keep_alive, h, b.
      now repeat split.
    + intros e. apply emits_error_not_created. cbv; tauto.
  - pose proof (emits_error_not_created s 400 (lit "Bad Request") false
                  (created_with (upload_filename (drawn_timestamp E w)
                                                 (drawn_random_id E w)))
                  ltac:(cbv; tauto) w) as Hm.
    destruct (send_error E s 400 (lit "Bad Request") false [] w) as [[r w1] t] eqn:Hsend.
    cbn [trace snd] in Hm.
    destruct e;
      try (erewrite bind_run_raise; [constructor | reflexivity]).
    unfold bind, try_except, lift. rewrite Hsend.
    destruct r as [u|e]; cbn; rewrite ?app_nil_r; exact Hm.
Qed.

End UploadClaims.

Section UploadTheorem.
Context {W J : Type} (E : Env W J).

Lemma created_body_announces filename :
  announces_filepath (created_body filename) (response_filepath filename).
Proof.
  exists (lit "{" ++ json_string (lit "status") ++ lit ": "
            ++ json_string (lit "success") ++ lit ", "
            ++ json_string (lit "message") ++ lit ": "
            ++ json_string (lit "File created successfully") ++ lit ", ").
  unfold created_body, json_dumps. cbn [json_members].
  now rewrite <- !app_assoc.
Qed.

(** C8, as the code has it.  A 201 sent by [serve_post_request] carries a
    JSON body whose [filepath] member is [/uploads/] followed by the upload
    name, and the name is made of the time stamp and of the four random
    characters drawn in the world the handler started in.  So the file paths
    of two uploads are equal exactly when both the time stamps and the
    random suffixes are equal: they differ whenever one of the two
    differs, and not otherwise. *)
Theorem upload_filepaths_differ_iff_draws_differ
        (s : sock) (headers : dict) (body : pystr) (thread_id : nat)
        (keep_alive1 keep_alive2 : bool) (w1 w2 : W) (r1 r2 : bytes) :
  In (EvSendAll s r1)
     (trace (serve_post_request E s headers body thread_id keep_alive1 w1)) ->
  has_status 201 r1 = true ->
  In (EvSendAll s r2)
     (trace (serve_post_request E s headers body thread_id keep_alive2 w2)) ->
  has_status 201 r2 = true ->
  let name1 := upload_filename (drawn_timestamp E w1) (drawn_random_id E w1) in
  let name2 := upload_filename (drawn_timestamp E w2) (drawn_random_id E w2) in
  created_with name1 r1 /\
  created_with name2 r2 /\
  announces_filepath (created_body name1) (response_filepath name1) /\
  announces_filepath (created_body name2) (response_filepath name2) /\
  (response_filepath name1 = response_filepath name2 <->
   drawn_timestamp E w1 = drawn_timestamp E w2 /\
   drawn_random_id E w1 = drawn_random_id E w2).
Proof.
  intros Hin1 Hs1 Hin2 Hs2 name1 name2.
  pose proof (serve_post_events E s headers body thread_id keep_alive1 w1) as H1.
  pose proof (serve_post_events E s headers body thread_id keep_alive2 w2) as H2.
  rewrite Forall_forall in H1, H2.
  apply H1 in Hin1 as [_ Hc1]. apply H2 in Hin2 as [_ Hc2].
  split; [now apply Hc1|]. split; [now apply Hc2|].
  split; [apply created_body_announces|]. split; [apply created_body_announces|].
  split.
  - unfold response_filepath. intros H. apply app_inv_head in H.
    apply upload_filename_inj in H; [exact H|].
    now rewrite !drawn_random_id_length.
  - intros [Ht Hr]. subst name1 name2. now rewrite Ht, Hr.
Qed.

End UploadTheorem.

(** ** The server at work: scenarios *)

Module ScenarioFacts.
Import Scenario.

(** C1 fails as stated: a request without the blank-line separator, and one
    whose request line has two tokens, are answered with 500, not 400. *)
Lemma unparseable_requests_get_500_not_400 :
  trace (run [Done get_without_separator])
  = [EvSetTimeout 7 30; EvRecv 7 8192%N; EvSendAll 7 page_500_close; EvClose 7] /\
  trace (run [Done get_two_tokens])
  = [EvSetTimeout 7 30; EvRecv 7 8192%N; EvSendAll 7 page_500_close; EvClose 7] /\
  has_status 400 page_500_close = false /\
  has_status 500 page_500_close = true.
Proof. repeat apply conj; vm_compute; reflexivity. Qed.

(** C5 fails as stated: the hundredth request of a connection, a valid
    HTTP/1.1 GET without a [Connection] header, is answered with a 200 that
    carries [Connection: close]; so is a request whose header reads
    [Connection: Close], which is not equal to [close]. *)
Lemma valid_http11_requests_answered_with_close :
  nth_error (sent (trace (run hundred_gets))) 99 = Some ok_index_close /\
  nth_error (sent (trace (run hundred_gets))) 98 = Some ok_index_keep_alive /\
  sent (trace (run [Done get_index_close_capitalised])) = [ok_index_close] /\
  has_status 200 ok_index_close = true /\
  has_line (lit "Connection: keep-alive") ok_index_close = false /\
  has_line (lit "Connection: close") ok_index_close = true.
Proof. repeat apply conj; vm_compute; reflexivity. Qed.

(** C6 fails as stated: for an unsupported extension the file is opened
    first, and a file that does not exist is answered with 404, not 415. *)
Lemma unsupported_extension_opens_the_file :
  trace (serve_get_request env 7 (lit "/notes.xyz") 1 true (start []))
  = [EvOpen (lit "resources/notes.xyz") ModeRB; EvSendAll 7 page_404_close] /\
  trace (serve_get_request env 7 (lit "/data.bin") 1 true (start []))
  = [EvOpen (lit "resources/data.bin") ModeRB; EvSendAll 7 page_415_close] /\
  has_status 415 page_404_close = false.
Proof. repeat apply conj; vm_compute; reflexivity. Qed.

(** C7: the error pages carry neither [Date] nor [Server], which the 200
    response does. *)
Lemma error_pages_lack_date_and_server :
  sent (trace (run [Done get_without_host])) = [page_400_keep_alive] /\
  has_header (lit "Date") page_400_keep_alive = false /\
  has_header (lit "Server") page_400_keep_alive = false /\
  has_header (lit "Date") page_503_close = false /\
  has_header (lit "Server") page_503_close = false /\
  sent (trace (run [Done get_index])) = [ok_index_keep_alive] /\
  has_header (lit "Date") ok_index_keep_alive = true /\
  has_header (lit "Server") ok_index_keep_alive = true.
Proof. repeat apply conj; vm_compute; reflexivity. Qed.

(** C8 fails as stated: two uploads of the same document made within one
    second, for which the generator draws the same four characters, are
    given the same file path. *)
Lemma same_second_same_draw_same_filepath :
  exists r,
    created_kd7h true = Some r /\
    sent (trace (run [Done post_empty_object; Done post_empty_object])) = [r; r] /\
    has_status 201 r = true /\
    response_filepath upload_kd7h = lit "/uploads/upload_20261103_101010_kd7h.json".
Proof. eexists. repeat apply conj; vm_compute; reflexivity. Qed.

(** C9 fails as stated: a request whose body has arrived by half is served
    as a complete request, here with a 405, and the rest of the body is
    never read; the fatal path is not taken. *)
Lemma half_body_served_as_complete_request :
  trace (run [Done put_head_and_half_body; Done put_rest_of_body])
  = [EvSetTimeout 7 30; EvRecv 7 8192%N; EvSendAll 7 page_405_close; EvClose 7] /\
  has_status 500 page_405_close = false.
Proof. repeat apply conj; vm_compute; reflexivity. Qed.

(** The ways out of [handle_connection], each ending with the socket
    closed: idle time-out, empty read, failed read, handler failure with the
    peer gone, last request of a connection that is not kept alive. *)
Example exit_on_idle_timeout :
  trace (run [Failed TimedOut]) = [EvSetTimeout 7 30; EvRecv 7 8192%N; EvClose 7].
Proof. vm_compute. reflexivity. Qed.

Example exit_on_empty_read :
  trace (run [Done []]) = [EvSetTimeout 7 30; EvRecv 7 8192%N; EvClose 7].
Proof. vm_compute. reflexivity. Qed.

Example exit_on_failed_read :
  trace (run [Failed ConnectionError])
  = [EvSetTimeout 7 30; EvRecv 7 8192%N; EvSendAll 7 page_500_close; EvClose 7].
Proof. vm_compute. reflexivity. Qed.

Example exit_when_peer_gone :
  outcome (handle_connection env default_config 7 1 (start_gone [Done get_index]))
  = Val (Some tt) /\
  trace (handle_connection env default_config 7 1 (start_gone [Done get_index]))
  = [EvSetTimeout 7 30; EvRecv 7 8192%N; EvOpen (lit "resources/index.html") ModeRB;
     EvSendAll 7 ok_index_keep_alive; EvSendAll 7 page_500_close; EvClose 7].
Proof. split; vm_compute; reflexivity. Qed.

Example exit_after_close_request :
  trace (run [Done get_index_close_capitalised; Done get_index])
  = [EvSetTimeout 7 30; EvRecv 7 8192%N; EvOpen (lit "resources/index.html") ModeRB;
     EvSendAll 7 ok_index_close; EvClose 7].
Proof. vm_compute. reflexivity. Qed.

(** C3 fails on the code when the 503 cannot be sent.  With the queue at
    its capacity and a peer that has gone away, [sendall] raises: the
    exception leaves the accept loop of [main], the queue is not touched, and
    the rejected socket is never closed.  The connection handler, whose
    [finally] clause closes the socket on every path, does close it in the
    same situation. *)
Lemma rejected_socket_left_open_when_send_fails :
  List.length full_queue = MAX_QUEUE_SIZE /\
  outcome (main_accept env full_queue 9 (start_gone [])) = Raise OtherError /\
  trace (main_accept env full_queue 9 (start_gone [])) = [EvSendAll 9 page_503_close] /\
  existsb is_close (trace (main_accept env full_queue 9 (start_gone []))) = false /\
  existsb is_close
          (trace (handle_connection env default_config 9 1 (start_gone [Done get_index])))
  = true.
Proof. repeat apply conj; vm_compute; reflexivity. Qed.

End ScenarioFacts.

Module Witnesses.
Import Scenario.

Lemma unparseable_request_answered_500_and_closed_witness :
  trace (handle_connection_at env default_config 100 7 1 0
                              (start [Done get_without_separator]))
  = [EvSetTimeout 7 30; EvRecv 7 8192%N; EvSendAll 7 page_500_close; EvClose 7]
  /\ has_status 500 page_500_close = true
  /\ has_status 400 page_500_close = false
  /\ has_line (lit "Connection: close") page_500_close = true.
Proof.
  eapply (unparseable_request_answered_500_and_closed
            env default_config 7 1 99 0 (start [Done get_without_separator])).
  - lia.
  - reflexivity.
  - vm_compute. reflexivity.
  - discriminate.
  - left. vm_compute. reflexivity.
Defined.


Lemma acceptor_sheds_load_at_capacity_witness :
  main_accept env full_queue 9 (start [])
  = (Val full_queue, start [], [EvSendAll 9 page_503_close; EvClose 9]) /\
  main_accept env [1; 2] 9 (start []) = (Val [1; 2; 9], start [], []).
Proof.
  destruct (acceptor_sheds_load_at_capacity env full_queue 9 (start []))
    as (Hfull & _).
  destruct (acceptor_sheds_load_at_capacity env [1; 2] 9 (start []))
    as (_ & Hroom & _).
  split.
  - apply Hfull; [vm_compute; lia|reflexivity].
  - apply Hroom. vm_compute. lia.
Defined.

Lemma traversal_rejected_before_file_access_witness :
  py_in (lit "..") (default_path get_traversal_path) = true /\
  trace (serve_get_request env 7 get_traversal_path 1 true (start []))
  = [EvSendAll 7 page_403_close].
Proof.
  split; [vm_compute; reflexivity|].
  apply (traversal_rejected_before_file_access env 7 get_traversal_path 1 true (start [])).
  vm_compute. reflexivity.
Defined.

Lemma success_response_keeps_alive_witness :
  In (EvSendAll 7 ok_index_keep_alive)
     (trace (serve_one env default_config 7 1 0 (start [Done get_index]))) /\
  has_line (lit "Connection: keep-alive") ok_index_keep_alive = true.
Proof.
  assert (Hin : In (EvSendAll 7 ok_index_keep_alive)
                   (trace (serve_one env default_config 7 1 0 (start [Done get_index]))))
    by (vm_compute; right; right; right; left; reflexivity).
  split; [exact Hin|].
  eapply (success_response_keeps_alive env default_config 7 1 0
            (start [Done get_index])).
  - reflexivity.
  - vm_compute. reflexivity.
  - vm_compute. reflexivity.
  - vm_compute. reflexivity.
  - vm_compute. discriminate.
  - lia.
  - exact Hin.
  - left. vm_compute. reflexivity.
Defined.

Lemma unsupported_extension_after_file_access_witness :
  exists rest,
    trace (serve_get_request env 7 (lit "/data.bin") 1 true (start []))
    = EvOpen (lit "resources" ++ default_path (lit "/data.bin")) ModeRB :: rest /\
    rest = [EvSendAll 7 page_415_close].
Proof.
  destruct (unsupported_extension_after_file_access env 7 (lit "/data.bin") 1 true (start []))
    as (rest & Htrace & Hread & _).
  - vm_compute. reflexivity.
  - vm_compute. reflexivity.
  - exists rest. split; [exact Htrace|].
    eapply Hread. vm_compute. reflexivity.
Defined.

Lemma upload_filepaths_differ_iff_draws_differ_witness :
  created_with upload_kd7h created_kd7h_page /\
  announces_filepath (created_body upload_kd7h) (response_filepath upload_kd7h).
Proof.
  pose proof (upload_filepaths_differ_iff_draws_differ
                env 7 [(lit "content-type", lit "application/json")] (lit "{}") 1
                true true (start []) (start []) created_kd7h_page created_kd7h_page)
    as H.
  cbv zeta in H.
  destruct H as (Hcreated & _ & Hfield & _).
  - vm_compute. right. left. reflexivity.
  - vm_compute. reflexivity.
  - vm_compute. right. left. reflexivity.
  - vm_compute. reflexivity.
  - split.
    + replace upload_kd7h
        with (upload_filename (drawn_timestamp env (start []))
                              (drawn_random_id env (start [])))
        by (vm_compute; reflexivity).
      exact Hcreated.
    + replace upload_kd7h
        with (upload_filename (drawn_timestamp env (start []))
                              (drawn_random_id env (start [])))
        by (vm_compute; reflexivity).
      exact Hfield.
Defined.

Lemma one_read_per_pass_and_fatal_path_witness :
  reads (trace (serve_one env default_config 7 1 0 (start [Done invalid_utf8]))) = 1 /\
  trace (handle_connection_at env default_config 100 7 1 0 (start [Done invalid_utf8]))
  = [EvSetTimeout 7 30; EvRecv 7 8192%N; EvSendAll 7 page_500_close; EvClose 7] /\
  exists req,
    parse_request ascii_lower (octets put_head_and_half_body) = Val req /\
    req_body req = lit "hello".
Proof.
  destruct (one_read_per_pass_and_fatal_path env default_config 7 1 99 0
              (start [Done invalid_utf8]) (start []) (Done invalid_utf8))
    as ((t & Htrace & Hreads & _) & Hfatal & _).
  - lia.
  - reflexivity.
  - split; [|split].
    + rewrite Htrace. change (S (reads t) = 1). now rewrite Hreads.
    + apply (Hfatal invalid_utf8 eq_refl). left. vm_compute. reflexivity.
    + destruct (one_read_per_pass_and_fatal_path env default_config 7 1 99 0
                  (start [Done put_head_and_half_body; Done put_rest_of_body])
                  (start [Done put_rest_of_body]) (Done put_head_and_half_body))
        as (_ & _ & Hserved).
      * lia.
      * reflexivity.
      * destruct (Hserved put_head_and_half_body (octets put_head_and_half_body)
                    (lit "PUT /notes.txt HTTP/1.0" ++ CRLF
                     ++ lit "Host: 127.0.0.1:8080" ++ CRLF
                     ++ lit "Content-Length: 10")
                    (lit "hello") eq_refl)
          as (req & Hparse & Hbody & _).
        -- vm_compute. reflexivity.
        -- vm_compute. reflexivity.
        -- vm_compute. lia.
        -- exists req. split; [exact Hparse|exact Hbody].
Defined.

End Witnesses.

(** * More of the server *)

Import Refusals Uploads Requests Sessions Pool.

(** ** More about one pass of the loop *)

Section PassFacts.
Context {W J : Type} (E : Env W J) (cfg : Config) (s : sock) (thread_id : nat).

Lemma refusal_pages_sent keep_alive :
  error_response 400 (lit "Bad Request") keep_alive [] = Some (page_400 keep_alive) /\
  error_response 403 (lit "Forbidden") keep_alive [] = Some (page_403 keep_alive) /\
  error_response 405 (lit "Method Not Allowed") keep_alive [] = Some (page_405 keep_alive).
Proof. destruct keep_alive; repeat apply conj; vm_compute; reflexivity. Qed.

(** The routing answers with one error page that follows the decision. *)
Lemma routed_to_page (m : M W loop_exit) code message keep_alive page x w w1 :
  error_response code message keep_alive [] = Some page ->
  (forall w', m w' = bind (send_error E s code message keep_alive [])
                          (fun _ => ret x) w') ->
  sock_sendall E s page w = (Done tt, w1) ->
  try_except m (on_error E s) w = (Val x, w1, [EvSendAll s page]).
Proof.
  intros Hpage Hm Hsend. unfold try_except. rewrite Hm. unfold bind.
  rewrite (send_error_run E _ _ _ _ _ _ w Hpage). unfold sendall. rewrite Hsend.
  reflexivity.
Qed.


Lemma after_pass_eq keep_alive n :
  (if negb keep_alive then Break else Next n) = after_pass keep_alive n.
Proof. now destruct keep_alive. Qed.

Lemma route_request_missing_host req k w :
  dict_mem (lit "host") (req_headers req) = false ->
  let ka := decide_keep_alive (str_lower E) (req_version req) (req_headers req) k in
  route_request E cfg s thread_id req k w
  = bind (send_error E s 400 (lit "Bad Request") ka [])
         (fun _ => ret (after_pass ka k)) w.
Proof.
  intros H ka. unfold route_request. rewrite H. cbn [negb].
  now rewrite after_pass_eq.
Qed.

Lemma route_request_with_host req k host w :
  dict_find (lit "host") (req_headers req) = Some host ->
  let ka := decide_keep_alive (str_lower E) (req_version req) (req_headers req) k in
  route_request E cfg s thread_id req k w
  = (if negb (str_eqb host (server_host_address cfg)) then
       bind (send_error E s 403 (lit "Forbidden") ka [])
            (fun _ => ret (after_pass ka k))
     else
       bind (if str_eqb (req_method req) (lit "GET") then
               serve_get_request E s (req_path req) thread_id ka
             else if str_eqb (req_method req) (lit "POST") then
               serve_post_request E s (req_headers req) (req_body req) thread_id ka
             else send_error E s 405 (lit "Method Not Allowed") ka [])
            (fun _ => ret (after_pass ka k))) w.
Proof.
  intros H ka. unfold route_request, dict_mem, dict_index. rewrite H. cbn [negb].
  change (lift (Val host)) with (ret (W:=W) host). rewrite bind_ret.
  fold ka. rewrite after_pass_eq. reflexivity.
Qed.

(** X1. A request that parses but carries no [Host] header is answered with
    the 400 page, whose [Connection] lines follow the keep-alive decision,
    and the loop goes on as the decision says: the request is not routed and
    no file is touched. *)
Theorem missing_host_answered_400
        (k : nat) (w w1 w2 : W) (data : bytes) (text : pystr) (req : request) :
  sock_recv E s 8192%N w = (Done data, w1) ->
  utf8_decode data = Some text ->
  parse_request (str_lower E) text = Val req ->
  dict_mem (lit "host") (req_headers req) = false ->
  let ka := decide_keep_alive (str_lower E) (req_version req) (req_headers req)
                              (k + 1) in
  sock_sendall E s (page_400 ka) w1 = (Done tt, w2) ->
  serve_one E cfg s thread_id k w
  = (Val (after_pass ka (k + 1)), w2,
     [EvSetTimeout s 30; EvRecv s 8192%N; EvSendAll s (page_400 ka)]).
Proof.
  intros Hrecv Hdec Hparse Hhost ka Hsend.
  rewrite (serve_one_parsed E cfg s thread_id k w w1 data text req Hrecv Hdec Hparse).
  erewrite routed_to_page; [reflexivity | apply (refusal_pages_sent ka) | | exact Hsend].
  intros w'. now apply route_request_missing_host.
Qed.

(** X2. A request whose [Host] header is not exactly [HOST:PORT] of the
    configuration is answered with the 403 page, which follows the
    keep-alive decision; the request is not routed. *)
Theorem foreign_host_answered_403
        (k : nat) (w w1 w2 : W) (data : bytes) (text : pystr) (req : request)
        (host : pystr) :
  sock_recv E s 8192%N w = (Done data, w1) ->
  utf8_decode data = Some text ->
  parse_request (str_lower E) text = Val req ->
  dict_find (lit "host") (req_headers req) = Some host ->
  host <> server_host_address cfg ->
  let ka := decide_keep_alive (str_lower E) (req_version req) (req_headers req)
                              (k + 1) in
  sock_sendall E s (page_403 ka) w1 = (Done tt, w2) ->
  serve_one E cfg s thread_id k w
  = (Val (after_pass ka (k + 1)), w2,
     [EvSetTimeout s 30; EvRecv s 8192%N; EvSendAll s (page_403 ka)]).
Proof.
  intros Hrecv Hdec Hparse Hhost Hne ka Hsend.
  rewrite (serve_one_parsed E cfg s thread_id k w w1 data text req Hrecv Hdec Hparse).
  erewrite routed_to_page; [reflexivity | apply (refusal_pages_sent ka) | | exact Hsend].
  intros w'. rewrite (route_request_with_host req (k + 1) host w' Hhost).
  apply str_eqb_neq in Hne. now rewrite Hne.
Qed.

(** X3. A request with the right [Host] whose method is neither [GET] nor
    [POST] (the comparison is exact, so [get] is such a method) is answered
    with the 405 page, which follows the keep-alive decision. *)
Theorem other_method_answered_405
        (k : nat) (w w1 w2 : W) (data : bytes) (text : pystr) (req : request) :
  sock_recv E s 8192%N w = (Done data, w1) ->
  utf8_decode data = Some text ->
  parse_request (str_lower E) text = Val req ->
  dict_find (lit "host") (req_headers req) = Some (server_host_address cfg) ->
  req_method req <> lit "GET" ->
  req_method req <> lit "POST" ->
  let ka := decide_keep_alive (str_lower E) (req_version req) (req_headers req)
                              (k + 1) in
  sock_sendall E s (page_405 ka) w1 = (Done tt, w2) ->
  serve_one E cfg s thread_id k w
  = (Val (after_pass ka (k + 1)), w2,
     [EvSetTimeout s 30; EvRecv s 8192%N; EvSendAll s (page_405 ka)]).
Proof.
  intros Hrecv Hdec Hparse Hhost Hget Hpost ka Hsend.
  rewrite (serve_one_parsed E cfg s thread_id k w w1 data text req Hrecv Hdec Hparse).
  erewrite routed_to_page; [reflexivity | apply (refusal_pages_sent ka) | | exact Hsend].
  intros w'. rewrite (route_request_with_host req (k + 1) _ w' Hhost).
  rewrite str_eqb_refl. cbn [negb].
  apply str_eqb_neq in Hget, Hpost. now rewrite Hget, Hpost.
Qed.

End PassFacts.

(** ** The ways out of the loop *)

Section ExitFacts.
Context {W J : Type} (E : Env W J) (cfg : Config) (s : sock) (thread_id : nat).

(** X4. An idle time-out and an empty read end the connection silently:
    nothing is sent, the request is not counted, the socket is closed. *)
Theorem idle_or_empty_read_closes_silently
        (fuel k : nat) (w w1 : W) (received : sock_result bytes) :
  k < 100 ->
  sock_recv E s 8192%N w = (received, w1) ->
  received = Failed TimedOut \/ received = Done [] ->
  handle_connection_at E cfg (S fuel) s thread_id k w
  = (Val (Some tt), w1, [EvSetTimeout s 30; EvRecv s 8192%N; EvClose s]).
Proof.
  intros Hk Hrecv Hwhat.
  assert (Hs : serve_one E cfg s thread_id k w
               = (Val Break, w1, [EvSetTimeout s 30; EvRecv s 8192%N])).
  { rewrite serve_one_unfold, Hrecv. destruct Hwhat as [-> | ->]; reflexivity. }
  rewrite (handle_connection_at_exit E cfg s thread_id fuel k w _ _ _ Hk Hs);
    [reflexivity | intros n; discriminate].
Qed.

(** X5. When the read itself fails with another error than a time-out, the
    handler still tries to send the 500 page, and closes the socket whether
    that send succeeds or not. *)
Theorem failed_read_answered_500_and_closed (fuel k : nat) (w w1 : W) :
  k < 100 ->
  sock_recv E s 8192%N w = (Failed ConnectionError, w1) ->
  outcome (handle_connection_at E cfg (S fuel) s thread_id k w) = Val (Some tt) /\
  trace (handle_connection_at E cfg (S fuel) s thread_id k w)
  = [EvSetTimeout s 30; EvRecv s 8192%N; EvSendAll s page_500_close; EvClose s].
Proof.
  intros Hk Hrecv.
  destruct (on_error_fatal E s OtherError w1) as (r & w2 & Herr & Hr); [discriminate|].
  assert (Hs : serve_one E cfg s thread_id k w
               = (r, w2, [EvSetTimeout s 30; EvRecv s 8192%N; EvSendAll s page_500_close])).
  { rewrite serve_one_unfold, Hrecv. cbn [of_sock]. unfold after_recv.
    rewrite (try_except_bind_raise (lift (Raise OtherError)) _ _ w1 _ w1 [] eq_refl).
    now rewrite Herr. }
  now rewrite (handle_connection_at_exit E cfg s thread_id fuel k w _ _ _ Hk Hs Hr).
Qed.

(** X6. Whatever exception leaves the routing of a request (a failed send,
    a file error other than a missing file ...), the pass ends the loop;
    a socket time-out ends it silently, any other exception is answered
    with the 500 page first. *)
Theorem handler_exception_ends_the_loop
        (k : nat) (w w1 w2 : W) (data : bytes) (text : pystr) (req : request)
        (e : exn) (t : list event) :
  sock_recv E s 8192%N w = (Done data, w1) ->
  utf8_decode data = Some text ->
  parse_request (str_lower E) text = Val req ->
  route_request E cfg s thread_id req (k + 1) w1 = (Raise e, w2, t) ->
  (forall n, outcome (serve_one E cfg s thread_id k w) <> Val (Next n)) /\
  trace (serve_one E cfg s thread_id k w)
  = EvSetTimeout s 30 :: EvRecv s 8192%N :: t
    ++ match e with
       | SocketTimeout => []
       | _ => [EvSendAll s page_500_close]
       end.
Proof.
  intros Hrecv Hdec Hparse Hroute.
  rewrite (serve_one_parsed E cfg s thread_id k w w1 data text req Hrecv Hdec Hparse).
  unfold try_except. rewrite Hroute.
  assert (He : e = SocketTimeout \/ e <> SocketTimeout)
    by (destruct e; (now left) || (right; discriminate)).
  destruct He as [-> | He].
  - cbn. split; [intros n; discriminate|reflexivity].
  - destruct (on_error_fatal E s e w2 He) as (r & w3 & -> & Hr).
    cbn [outcome trace fst snd]. split; [exact Hr|].
    destruct e; try reflexivity. congruence.
Qed.

(** *** When the loop reads again *)

Lemma returns_after_recv k received :
  returns (fun x => x = Break \/
                    (x = Next (k + 1) /\ pass_decision E (k + 1) received = true))
          (after_recv E cfg s thread_id k received).
Proof.
  unfold after_recv. apply returns_try_except.
  2:{ intros e. eapply returns_weaken; [apply returns_on_error|]. now left. }
  destruct received as [data|e]; [|intros w; exact I].
  change (lift (Val data)) with (ret (W:=W) data).
  intros w. rewrite bind_ret. revert w. unfold decode, pass_decision.
  destruct (utf8_decode data) as [[|c text]|].
  - intros w. rewrite bind_ret. now left.
  - intros w. rewrite bind_ret. revert w.
    destruct (parse_request (str_lower E) (c :: text)) as [req|e].
    + change (lift (Val req)) with (ret (W:=W) req).
      intros w. rewrite bind_ret. revert w.
      eapply returns_weaken; [apply returns_route_request|].
      cbv beta. intros x ->.
      destruct (decide_keep_alive _ _ _ _); [right|left]; auto.
    + intros w. exact I.
  - intros w. exact I.
Qed.

Lemma serve_one_next_decision k w n :
  outcome (serve_one E cfg s thread_id k w) = Val (Next n) ->
  n = k + 1 /\
  pass_decision E (k + 1) (of_sock (fst (sock_recv E s 8192%N w))) = true.
Proof.
  rewrite serve_one_unfold.
  destruct (sock_recv E s 8192%N w) as [received w1]. cbn [fst].
  pose proof (returns_after_recv k (of_sock received) w1) as H.
  destruct (after_recv E cfg s thread_id k (of_sock received) w1) as [[r w2] t].
  cbn [outcome fst] in *. intros ->.
  destruct H as [H|[H Hd]]; [discriminate|]. injection H as ->. now split.
Qed.

(** X7. The connection is read again only after a request that was decided
    keep-alive.  After a pass whose decision is "close" (the version and the
    [Connection] header say so, the request does not parse, or it is the
    hundredth) nothing more is read and the socket is closed. *)
Theorem no_read_after_close_decision (fuel k : nat) (w : W) :
  k < 100 ->
  pass_decision E (k + 1) (of_sock (fst (sock_recv E s 8192%N w))) = false ->
  reads (trace (handle_connection_at E cfg (S fuel) s thread_id k w)) = 1 /\
  exists t,
    trace (handle_connection_at E cfg (S fuel) s thread_id k w)
    = EvSetTimeout s 30 :: EvRecv s 8192%N :: t ++ [EvClose s].
Proof.
  intros Hk Hdec.
  destruct (serve_one_trace E cfg s thread_id k w) as (t & Ht & Hev).
  destruct (serve_one E cfg s thread_id k w) as [[r w1] t1] eqn:Hs.
  cbn [trace snd] in Ht. subst t1.
  assert (Hr : forall n, r <> Val (Next n)).
  { intros n ->. destruct (serve_one_next_decision k w n) as [_ H].
    - now rewrite Hs.
    - congruence. }
  rewrite (handle_connection_at_exit E cfg s thread_id fuel k w _ _ _ Hk Hs Hr).
  cbn [trace snd]. split; [|now exists t].
  change (S (reads (t ++ [EvClose s])) = 1).
  rewrite reads_app, (reads_handler_events s _ t Hev). reflexivity.
Qed.

End ExitFacts.

(** ** More about [serve_get_request] *)

Section GetFacts.
Context {W J : Type} (E : Env W J).

(** X8. For a file that can be read and has a supported extension the
    handler opens [resources<path>] once and sends one message: a head that
    announces 200, the content type of the extension and the length of the
    content, followed by exactly the bytes read.  (Nothing is sent when the
    head cannot be encoded.) *)
Theorem get_delivers_the_file_content
        (s : sock) (path : pystr) (thread_id : nat) (keep_alive : bool)
        (w w1 : W) (content : bytes) (content_type : pystr) :
  let filepath := lit "resources" ++ default_path path in
  let filename := last (py_split (lit "/") None (default_path path)) [] in
  py_in (lit "..") (default_path path) = false ->
  read_file E filepath w = (Val content, w1) ->
  content_type_of filepath = Some content_type ->
  trace (serve_get_request E s path thread_id keep_alive w)
  = EvOpen filepath ModeRB ::
    match utf8_encode (ok_head content_type (List.length content)
                               (fst (strftime E DATE_FORMAT true w1))
                               filename keep_alive) with
    | Some head => [EvSendAll s (head ++ content)]
    | None => []
    end.
Proof.
  intros filepath filename Hdots Hread Htype. subst filepath filename.
  unfold serve_get_request. rewrite Hdots, Htype.
  unfold try_except, open_read. unfold bind at 1. rewrite Hread.
  rewrite bind_time_strftime. unfold encode.
  destruct (utf8_encode _) as [head|].
  - rewrite bind_ret. unfold sendall.
    destruct (sock_sendall E s (head ++ content) _) as [[u|[]] w2]; reflexivity.
  - reflexivity.
Qed.

Lemma serve_get_missing_file s path thread_id keep_alive w w1 w2 :
  py_in (lit "..") (default_path path) = false ->
  read_file E (lit "resources" ++ default_path path) w
  = (Raise FileNotFoundError, w1) ->
  sock_sendall E s page_404_close w1 = (Done tt, w2) ->
  serve_get_request E s path thread_id keep_alive w
  = (Val tt, w2,
     [EvOpen (lit "resources" ++ default_path path) ModeRB;
      EvSendAll s page_404_close]).
Proof.
  intros Hdots Hread Hsend. unfold serve_get_request. rewrite Hdots.
  unfold try_except, open_read. unfold bind at 1. rewrite Hread.
  rewrite (send_error_run E _ _ _ _ _ _ w1 page_404_close_sent).
  unfold sendall. now rewrite Hsend.
Qed.

End GetFacts.

Section GetOnConnection.
Context {W J : Type} (E : Env W J) (cfg : Config) (s : sock) (thread_id : nat).

(** X9. A GET for a file that does not exist is answered with a 404 page
    that says [Connection: close]; when the request was decided keep-alive
    the handler nevertheless keeps the connection and goes on to the next
    request. *)
Theorem missing_file_404_says_close_but_loop_goes_on
        (k : nat) (w w1 w2 w3 : W) (data : bytes) (text : pystr) (req : request) :
  sock_recv E s 8192%N w = (Done data, w1) ->
  utf8_decode data = Some text ->
  parse_request (str_lower E) text = Val req ->
  dict_find (lit "host") (req_headers req) = Some (server_host_address cfg) ->
  req_method req = lit "GET" ->
  py_in (lit "..") (default_path (req_path req)) = false ->
  read_file E (lit "resources" ++ default_path (req_path req)) w1
  = (Raise FileNotFoundError, w2) ->
  sock_sendall E s page_404_close w2 = (Done tt, w3) ->
  decide_keep_alive (str_lower E) (req_version req) (req_headers req) (k + 1) = true ->
  serve_one E cfg s thread_id k w
  = (Val (Next (k + 1)), w3,
     [EvSetTimeout s 30; EvRecv s 8192%N;
      EvOpen (lit "resources" ++ default_path (req_path req)) ModeRB;
      EvSendAll s page_404_close]) /\
  has_line (lit "Connection: close") page_404_close = true /\
  has_line (lit "Connection: keep-alive") page_404_close = false.
Proof.
  intros Hrecv Hdec Hparse Hhost Hget Hdots Hread Hsend Hka.
  split; [|split; vm_compute; reflexivity].
  rewrite (serve_one_parsed E cfg s thread_id k w w1 data text req Hrecv Hdec Hparse).
  unfold try_except.
  rewrite (route_request_with_host E cfg s thread_id req (k + 1) _ w1 Hhost).
  rewrite str_eqb_refl, Hget, str_eqb_refl, Hka. cbn [negb].
  unfold bind.
  rewrite (serve_get_missing_file E s _ thread_id true w1 w2 w3 Hdots Hread Hsend).
  reflexivity.
Qed.

End GetOnConnection.

(** ** More about [serve_post_request] *)

Section PostFacts.
Context {W J : Type} (E : Env W J).

Lemma page_400_close_sent :
  error_response 400 (lit "Bad Request") false [] = Some page_400_close.
Proof. vm_compute. reflexivity. Qed.

(** Once the content type is accepted and the body decoded, the handler
    draws the name and stores the upload. *)
Lemma serve_post_accepted s headers body thread_id keep_alive w j :
  startswith (dict_get (lit "content-type") [] headers) (lit "application/json") = true ->
  json_loads E body = Val j ->
  serve_post_request E s headers body thread_id keep_alive w
  = store_upload E s keep_alive (drawn_filename E w) j (world_after_draws E w).
Proof.
  intros Hct Hj. unfold serve_post_request. rewrite Hct, Hj. cbn [negb].
  rewrite (bind_run_val _ _ w (Some j) w eq_refl).
  rewrite bind_time_strftime.
  unfold drawn_filename, drawn_timestamp, drawn_random_id, world_after_draws.
  destruct (strftime E UPLOAD_FORMAT false w) as [ts w1]. cbn [fst snd].
  destruct (random_choices_val E UPLOAD_ALPHABET 4 w1) as (rid & w2 & Hrid & _).
  rewrite (bind_run_val _ _ w1 rid w2 Hrid). rewrite Hrid. reflexivity.
Qed.

(** A body that is not decoded: all the handler does is what sending the
    400 page does. *)
Lemma serve_post_undecoded s headers body thread_id keep_alive w e
      (Q : event -> Prop) :
  startswith (dict_get (lit "content-type") [] headers) (lit "application/json") = true ->
  json_loads E body = Raise e ->
  emits Q (send_error E s 400 (lit "Bad Request") false []) ->
  Forall Q (trace (serve_post_request E s headers body thread_id keep_alive w)).
Proof.
  intros Hct Hj HQ. unfold serve_post_request. rewrite Hct, Hj. cbn [negb].
  specialize (HQ w).
  destruct (send_error E s 400 (lit "Bad Request") false [] w) as [[r w1] t] eqn:Hsend.
  cbn [trace snd] in HQ.
  destruct e; try (erewrite bind_run_raise; [constructor | reflexivity]).
  unfold bind, try_except, lift. rewrite Hsend.
  destruct r as [u|e]; cbn; rewrite ?app_nil_r; exact HQ.
Qed.

Lemma emits_sends_only s code message ka extra :
  emits opens_nothing (send_error E s code message ka extra).
Proof. apply emits_send_error. intros. reflexivity. Qed.

(** X10. [serve_post_request] opens a file only when the content type starts
    with [application/json] and the body is decoded by the JSON decoder; the
    file is then opened for writing, under [resources/uploads/], with the
    name drawn for this request.  A refused upload touches no file. *)
Theorem post_writes_only_decoded_json
        (s : sock) (headers : dict) (body : pystr) (thread_id : nat)
        (keep_alive : bool) (w : W) (path : pystr) (mode : file_mode) :
  In (EvOpen path mode)
     (trace (serve_post_request E s headers body thread_id keep_alive w)) ->
  startswith (dict_get (lit "content-type") [] headers) (lit "application/json") = true /\
  (exists j, json_loads E body = Val j) /\
  mode = ModeW /\
  path = upload_path E w.
Proof.
  intros Hin.
  destruct (startswith (dict_get (lit "content-type") [] headers)
                       (lit "application/json")) eqn:Hct.
  2:{ exfalso. unfold serve_post_request in Hin. rewrite Hct in Hin. cbn [negb] in Hin.
      pose proof (emits_sends_only s 415 (lit "Unsupported Media Type") false [] w) as H.
      rewrite Forall_forall in H. apply H in Hin. discriminate. }
  destruct (json_loads E body) as [j|e] eqn:Hj.
  - rewrite (serve_post_accepted s headers body thread_id keep_alive w j Hct Hj) in Hin.
    split; [reflexivity|]. split; [now exists j|].
    assert (Hm : emits (fun ev => match ev with
                                  | EvOpen p m => m = ModeW /\ p = upload_path E w
                                  | _ => True
                                  end)
                       (store_upload E s keep_alive (drawn_filename E w) j)).
    { unfold store_upload. apply emits_try_except.
      - apply emits_bind; [apply emits_open_write_json; now split|]. intros _.
        apply emits_bind; [apply emits_time_strftime|]. intros date.
        apply emits_bind_encode. intros h _.
        apply emits_bind_encode. intros b _. now apply emits_sendall.
      - intros e. apply emits_send_error. intros; exact I. }
    specialize (Hm (world_after_draws E w)). rewrite Forall_forall in Hm.
    now apply Hm in Hin.
  - exfalso.
    pose proof (serve_post_undecoded s headers body thread_id keep_alive w e _ Hct Hj
                  (emits_sends_only s 400 (lit "Bad Request") false [])) as Hm.
    rewrite Forall_forall in Hm. apply Hm in Hin. discriminate.
Qed.

(** X11. A body the JSON decoder rejects is answered with the 400 page that
    says [Connection: close], whatever the keep-alive decision, and nothing
    else happens. *)
Theorem post_malformed_json_answered_400
        (s : sock) (headers : dict) (body : pystr) (thread_id : nat)
        (keep_alive : bool) (w : W) :
  startswith (dict_get (lit "content-type") [] headers) (lit "application/json") = true ->
  json_loads E body = Raise JSONDecodeError ->
  trace (serve_post_request E s headers body thread_id keep_alive w)
  = [EvSendAll s page_400_close].
Proof.
  intros Hct Hj. unfold serve_post_request. rewrite Hct, Hj. cbn [negb].
  unfold bind at 1, try_except, lift. unfold bind at 1 2.
  rewrite (send_error_run E _ _ _ _ _ _ w page_400_close_sent).
  unfold sendall. destruct (sock_sendall E s page_400_close w) as [[u|[]] w1]; reflexivity.
Qed.

(** X12. When writing the upload fails (no [uploads] directory, a full
    disk ...) the handler answers with the 500 page and sends no 201. *)
Theorem post_write_failure_answered_500
        (s : sock) (headers : dict) (body : pystr) (thread_id : nat)
        (keep_alive : bool) (w w1 : W) (j : J) (e : exn) :
  startswith (dict_get (lit "content-type") [] headers) (lit "application/json") = true ->
  json_loads E body = Val j ->
  write_json_file E (upload_path E w) j (world_after_draws E w) = (Raise e, w1) ->
  trace (serve_post_request E s headers body thread_id keep_alive w)
  = [EvOpen (upload_path E w) ModeW; EvSendAll s page_500_close].
Proof.
  intros Hct Hj Hwrite.
  rewrite (serve_post_accepted s headers body thread_id keep_alive w j Hct Hj).
  unfold store_upload, try_except, open_write_json. unfold bind at 1.
  fold (upload_path E w). rewrite Hwrite.
  rewrite (send_error_run E _ _ _ _ _ _ w1 page_500_close_sent).
  unfold sendall. destruct (sock_sendall E s page_500_close w1) as [[u|[]] w2]; reflexivity.
Qed.

(** No error page is taken for a 201. *)
Lemma error_page_is_not_created s code message ka w response :
  In (code, message) error_kinds ->
  has_status 201 response = true ->
  ~ In (EvSendAll s response) (trace (send_error E s code message ka [] w)).
Proof.
  intros Hk H201 Hi.
  pose proof (emits_error_not_created E s code message ka (fun _ => False) Hk w) as H.
  rewrite Forall_forall in H. apply H in Hi as [_ Hi]. now apply Hi.
Qed.

(** A 201 is only sent for an upload that was accepted. *)
Lemma created_only_if_accepted s headers body thread_id keep_alive w response :
  In (EvSendAll s response)
     (trace (serve_post_request E s headers body thread_id keep_alive w)) ->
  has_status 201 response = true ->
  startswith (dict_get (lit "content-type") [] headers) (lit "application/json") = true /\
  exists j, json_loads E body = Val j.
Proof.
  intros Hin H201.
  destruct (startswith (dict_get (lit "content-type") [] headers)
                       (lit "application/json")) eqn:Hct.
  2:{ exfalso. unfold serve_post_request in Hin. rewrite Hct in Hin. cbn [negb] in Hin.
      revert Hin. apply error_page_is_not_created; [cbv; tauto|exact H201]. }
  destruct (json_loads E body) as [j|e] eqn:Hj; [split; [reflexivity|now exists j]|].
  exfalso.
  pose proof (serve_post_undecoded s headers body thread_id keep_alive w e _ Hct Hj
                (emits_error_not_created E s 400 (lit "Bad Request") false
                   (fun _ => False) ltac:(cbv; tauto))) as Hm.
  rewrite Forall_forall in Hm. apply Hm in Hin as [_ Hm']. now apply Hm'.
Qed.

(** X13. A 201 is sent only after the document has been written without
    error, and the file written is the one the response announces:
    [resources] followed by the [filepath] of the JSON body. *)
Theorem created_only_after_the_write
        (s : sock) (headers : dict) (body : pystr) (thread_id : nat)
        (keep_alive : bool) (w : W) (response : bytes) :
  In (EvSendAll s response)
     (trace (serve_post_request E s headers body thread_id keep_alive w)) ->
  has_status 201 response = true ->
  (exists j w1,
      json_loads E body = Val j /\
      write_json_file E (upload_path E w) j (world_after_draws E w) = (Val tt, w1)) /\
  (exists rest,
      trace (serve_post_request E s headers body thread_id keep_alive w)
      = EvOpen (upload_path E w) ModeW :: EvSendAll s response :: rest) /\
  upload_path E w = lit "resources" ++ response_filepath (drawn_filename E w) /\
  created_with (drawn_filename E w) response.
Proof.
  intros Hin H201.
  pose proof (serve_post_events E s headers body thread_id keep_alive w) as Hev.
  destruct (created_only_if_accepted s headers body thread_id keep_alive w response
              Hin H201) as (Hct & j & Hj).
  assert (Hpath : upload_path E w
                  = lit "resources" ++ response_filepath (drawn_filename E w)).
  { reflexivity. }
  assert (Hcw : created_with (drawn_filename E w) response).
  { rewrite Forall_forall in Hev. apply Hev in Hin as [_ Hc]. now apply Hc. }
  assert (H500 : forall w0,
             ~ In (EvSendAll s response)
                  (trace (send_error E s 500 (lit "Internal Server Error") false [] w0))).
  { intros w0. apply error_page_is_not_created; [cbv; tauto|exact H201]. }
  rewrite (serve_post_accepted s headers body thread_id keep_alive w j Hct Hj) in Hin |- *.
  unfold store_upload in Hin |- *. fold (upload_path E w) in Hin |- *.
  unfold try_except in Hin |- *. unfold bind at 1 in Hin. unfold bind at 1.
  unfold open_write_json in Hin |- *.
  destruct (write_json_file E (upload_path E w) j (world_after_draws E w))
    as [[[]|e] w1] eqn:Hwrite.
  2:{ exfalso. specialize (H500 w1).
      destruct (send_error E s 500 (lit "Internal Server Error") false [] w1)
        as [[r w2] t]. cbn [trace snd app] in Hin, H500.
      destruct Hin as [Hin|Hin]; [discriminate|]. now apply H500. }
  split; [now exists j, w1|]. split; [|now split].
  rewrite bind_time_strftime in Hin |- *.
  set (date := fst (strftime E DATE_FORMAT true w1)) in *.
  set (w2 := snd (strftime E DATE_FORMAT true w1)) in *.
  unfold bind at 1 in Hin. unfold bind at 1. unfold encode in Hin |- *.
  destruct (utf8_encode (created_head _ date keep_alive)) as [h|].
  2:{ exfalso. specialize (H500 w2). cbn [raise] in Hin.
      destruct (send_error E s 500 (lit "Internal Server Error") false [] w2)
        as [[r w3] t]. cbn [trace snd app] in Hin, H500.
      destruct Hin as [Hin|Hin]; [discriminate|]. now apply H500. }
  cbn [ret] in Hin |- *. unfold bind at 1 in Hin. unfold bind at 1.
  destruct (utf8_encode (created_body (drawn_filename E w))) as [b|].
  2:{ exfalso. specialize (H500 w2). cbn [raise] in Hin.
      destruct (send_error E s 500 (lit "Internal Server Error") false [] w2)
        as [[r w3] t]. cbn [trace snd app] in Hin, H500.
      destruct Hin as [Hin|Hin]; [discriminate|]. now apply H500. }
  cbn [ret] in Hin |- *. unfold sendall in Hin |- *.
  destruct (sock_sendall E s (h ++ b) w2) as [[u|x] w3]; cbn [of_sock raise ret] in Hin |- *.
  - cbn [trace snd app] in Hin |- *.
    destruct Hin as [Hin|[Hin|[]]]; [discriminate|]. injection Hin as <-.
    now exists [].
  - specialize (H500 w3).
    destruct x; cbn [of_sock] in Hin |- *;
    destruct (send_error E s 500 (lit "Internal Server Error") false [] w3)
      as [[r w4] t]; cbn [trace snd app] in Hin, H500 |- *;
    (destruct Hin as [Hin|[Hin|Hin]]; [discriminate| |now apply H500 in Hin]);
    injection Hin as <-; now exists t.
Qed.

End PostFacts.

(** ** Reading a request text *)

Module SplitFacts.
Import PyStr StrFacts Requests.

Lemma split_from_skip sep m (p b : pystr) :
  split_from sep m (List.length p) (p ++ b) = split_from sep m 0 b.
Proof.
  induction p as [|c p IH]; [reflexivity|]. exact IH.
Qed.

Lemma split_from_cons sep m c (rest : pystr) :
  split_from sep m 0 (c :: rest)
  = if may_split m && startswith (c :: rest) sep
    then [] :: split_from sep (one_less m) (List.length sep - 1) rest
    else cons_first c (split_from sep m 0 rest).
Proof. reflexivity. Qed.

Lemma cons_first_prepend c a pieces :
  cons_first c (prepend a pieces) = prepend (c :: a) pieces.
Proof. destruct pieces; reflexivity. Qed.

(** Characters other than the first of the separator are passed over. *)
Lemma split_from_clean y sep m (a s : pystr) :
  ~ In y a ->
  split_from (y :: sep) m 0 (a ++ s) = prepend a (split_from (y :: sep) m 0 s).
Proof.
  induction a as [|c a IH]; intros Hy.
  - cbn [app]. pose proof (split_from_nonempty (y :: sep) m 0 s) as Hne.
    now destruct (split_from (y :: sep) m 0 s).
  - cbn [app split_from startswith].
    assert (Hc : N.eqb c y = false).
    { apply N.eqb_neq. intros ->. apply Hy. now left. }
    rewrite Hc, andb_false_l, andb_false_r.
    rewrite IH by (intros H; apply Hy; now right).
    apply cons_first_prepend.
Qed.

Lemma split_from_here sep m (b : pystr) :
  sep <> [] -> may_split m = true ->
  split_from sep m 0 (sep ++ b) = [] :: split_from sep (one_less m) 0 b.
Proof.
  intros Hsep Hm. destruct sep as [|y sep]; [congruence|].
  change ((y :: sep) ++ b) with (y :: (sep ++ b)).
  cbn [split_from]. rewrite Hm.
  change (y :: sep ++ b) with ((y :: sep) ++ b). rewrite startswith_app.
  cbn [andb].
  replace (List.length (y :: sep) - 1) with (List.length sep) by (cbn; lia).
  now rewrite split_from_skip.
Qed.

(** The first piece ends at the first separator. *)
Lemma split_at y sep m (a b : pystr) :
  ~ In y a -> may_split m = true ->
  split_from (y :: sep) m 0 (a ++ (y :: sep) ++ b)
  = a :: split_from (y :: sep) (one_less m) 0 b.
Proof.
  intros Hy Hm. rewrite split_from_clean by exact Hy.
  rewrite split_from_here by (congruence || exact Hm).
  cbn [prepend]. now rewrite app_nil_r.
Qed.

Lemma split_zero sep (s : pystr) : split_from sep (Some 0) 0 s = [s].
Proof.
  induction s as [|c s IH]; [reflexivity|].
  cbn [split_from may_split andb]. now rewrite IH.
Qed.

Lemma split_last y sep m (a : pystr) :
  ~ In y a -> split_from (y :: sep) m 0 a = [a].
Proof.
  intros Hy. rewrite <- (app_nil_r a) at 1.
  rewrite split_from_clean by exact Hy. cbn. now rewrite app_nil_r.
Qed.

(** Lines without a carriage return, joined by line ends, are split back. *)
Lemma split_lines (line : pystr) (lines : list pystr) :
  Forall (fun l => ~ In CR l) (line :: lines) ->
  py_split CRLF None (line ++ List.concat (map (fun l : pystr => CRLF ++ l) lines))
  = line :: lines.
Proof.
  unfold py_split. revert line. induction lines as [|l lines IH]; intros line H.
  - cbn [map List.concat]. rewrite app_nil_r. apply (split_last CR [LF]).
    now inversion H.
  - cbn [map List.concat]. rewrite <- app_assoc.
    inversion H as [|? ? Hline Hrest]; subst.
    rewrite (split_at CR [LF] None line _ Hline eq_refl).
    cbn [one_less]. now rewrite IH.
Qed.

(** The blank line that ends the head is the first one of the text, when no
    line of the head is empty. *)
Lemma split_head_body (line : pystr) (lines : list pystr) (body : pystr) :
  Forall (fun l => ~ In CR l /\ l <> []) lines -> ~ In CR line ->
  py_split (CRLF ++ CRLF) (Some 1)
           (line ++ List.concat (map (fun l : pystr => CRLF ++ l) lines) ++ (CRLF ++ CRLF) ++ body)
  = [line ++ List.concat (map (fun l : pystr => CRLF ++ l) lines); body].
Proof.
  unfold py_split. change (CRLF ++ CRLF) with (CR :: [LF; CR; LF]).
  revert line. induction lines as [|l lines IH]; intros line H Hline.
  - cbn [map List.concat]. rewrite app_nil_l, app_nil_r.
    rewrite (split_at CR [LF; CR; LF] (Some 1) line body Hline eq_refl).
    cbn [one_less pred]. now rewrite split_zero.
  - inversion H as [|? ? [Hl Hne] Hrest]; subst.
    specialize (IH l Hrest Hl).
    cbn [map List.concat]. rewrite <- !app_assoc.
    rewrite split_from_clean by exact Hline.
    destruct l as [|x l]; [congruence|].
    assert (Hx : N.eqb x CR = false).
    { apply N.eqb_neq. intros ->. apply Hl. now left. }
    assert (Hstep : forall rest,
               split_from (CR :: [LF; CR; LF]) (Some 1) 0 (CRLF ++ (x :: l) ++ rest)
               = cons_first CR (cons_first LF
                   (split_from (CR :: [LF; CR; LF]) (Some 1) 0 ((x :: l) ++ rest)))).
    { intros rest.
      change (CRLF ++ (x :: l) ++ rest) with (CR :: LF :: x :: (l ++ rest)).
      rewrite split_from_cons.
      replace (startswith (CR :: LF :: x :: l ++ rest) [CR; LF; CR; LF]) with false
        by (cbn [startswith]; rewrite Hx; reflexivity).
      rewrite andb_false_r. rewrite split_from_cons.
      replace (startswith (LF :: x :: l ++ rest) [CR; LF; CR; LF]) with false
        by reflexivity.
      rewrite andb_false_r. reflexivity. }
    rewrite Hstep, IH.
    cbn [cons_first prepend]. reflexivity.
Qed.

End SplitFacts.
Import SplitFacts.

Section RequestFacts.
Variable lower : pystr -> pystr.

Lemma no_cr_in_space : ~ In CR (lit " ").
Proof. cbn. intros [H|[]]. discriminate. Qed.

Lemma no_cr_in_colon_space : ~ In CR (lit ": ").
Proof. cbn. intros [H|[H|[]]]; discriminate. Qed.

(** Header lines whose names hold no colon are read back one by one. *)
Lemma headers_of_header_lines (headers : list (pystr * pystr)) (acc : dict) :
  Forall (fun kv => ~ In COLON (fst kv)) headers ->
  headers_of_lines lower (map header_line headers) acc
  = Val (fold_left (fun acc kv => dict_set (lower (fst kv)) (snd kv) acc)
                   headers acc).
Proof.
  revert acc. induction headers as [|[k v] headers IH]; intros acc H; [reflexivity|].
  inversion H as [|? ? Hk Hrest]; subst. cbn [fst] in Hk.
  cbn [map headers_of_lines fold_left fst snd]. unfold header_line at 1 2.
  cbn [fst snd].
  rewrite (py_in_app (lit ": ") k v).
  unfold py_split.
  change (lit ": ") with (COLON :: [SPACE]).
  rewrite (split_at COLON [SPACE] (Some 1) k v Hk eq_refl).
  cbn [one_less pred]. rewrite split_zero. now apply IH.
Qed.

Lemma dict_find_set_same k v d : dict_find k (dict_set k v d) = Some v.
Proof.
  induction d as [|[k' v'] d IH]; cbn [dict_set dict_find].
  - now rewrite str_eqb_refl.
  - destruct (str_eqb k' k) eqn:Hk; cbn [dict_find]; now rewrite Hk.
Qed.

Lemma dict_find_set_other k k' v d :
  str_eqb k' k = false -> dict_find k (dict_set k' v d) = dict_find k d.
Proof.
  intros Hk. induction d as [|[k0 v0] d IH]; cbn [dict_set dict_find].
  - now rewrite Hk.
  - destruct (str_eqb k0 k') eqn:H0; cbn [dict_find].
    + apply str_eqb_eq in H0 as ->. now rewrite Hk.
    + now rewrite IH.
Qed.

Lemma find_snoc {A} (f : A -> bool) (l : list A) (x : A) :
  find f (l ++ [x]) = match find f l with Some y => Some y | None => find f [x] end.
Proof.
  induction l as [|y l IH]; [reflexivity|]. cbn [app find].
  now destruct (f y).
Qed.

Lemma dict_find_header_fold name (headers : list (pystr * pystr)) (acc : dict) :
  dict_find name
    (fold_left (fun acc kv => dict_set (lower (fst kv)) (snd kv) acc) headers acc)
  = match last_value lower name headers with
    | Some v => Some v
    | None => dict_find name acc
    end.
Proof.
  unfold last_value. revert acc.
  induction headers as [|[k v] headers IH]; intros acc; [reflexivity|].
  cbn [fold_left rev fst snd]. rewrite IH, find_snoc.
  destruct (find _ (rev headers)) as [[k1 v1]|]; [reflexivity|].
  cbn [find fst option_map].
  destruct (str_eqb (lower k) name) eqn:Hk.
  - apply str_eqb_eq in Hk as <-. cbn [option_map snd]. apply dict_find_set_same.
  - cbn [option_map]. now apply dict_find_set_other.
Qed.

(** X14. A request text made of a request line, header lines, a blank line and
    a body is split back into exactly these parts: the method and the path
    are the first two space-separated tokens, the version is the rest of
    the request line, and the headers are stored under their lower-cased
    names in the order of the text. *)
Theorem parse_request_reads_back_request_text
        (method path http_version : pystr) (headers : list (pystr * pystr))
        (body : pystr) :
  ~ In SPACE method -> ~ In SPACE path ->
  ~ In CR (method ++ path ++ http_version) ->
  Forall (fun kv => ~ In COLON (fst kv) /\ ~ In CR (fst kv ++ snd kv)) headers ->
  parse_request lower (request_text method path http_version headers body)
  = Val {| req_method := method; req_path := path; req_version := http_version;
           req_headers := header_dict lower headers; req_body := body |}.
Proof.
  intros Hm Hp Hcr Hh.
  assert (Hline : ~ In CR (method ++ lit " " ++ path ++ lit " " ++ http_version)).
  { pose proof no_cr_in_space. rewrite !in_app_iff in Hcr. rewrite !in_app_iff. tauto. }
  assert (Hlines : Forall (fun l => ~ In CR l /\ l <> []) (map header_line headers)).
  { rewrite Forall_map. eapply Forall_impl; [|exact Hh].
    intros [k v] [_ Hkv]. cbn [fst snd] in *. unfold header_line. cbn [fst snd].
    split.
    - pose proof no_cr_in_colon_space. rewrite !in_app_iff in Hkv. rewrite !in_app_iff. tauto.
    - destruct k; discriminate. }
  unfold parse_request, request_text.
  rewrite <- (map_map header_line (fun l : pystr => CRLF ++ l)).
  rewrite (split_head_body _ _ body Hlines Hline).
  rewrite split_lines.
  2:{ constructor; [exact Hline|]. eapply Forall_impl; [|exact Hlines]. now intros l []. }
  unfold py_split.
  change (lit " ") with (SPACE :: []).
  rewrite (split_at SPACE [] (Some 2) method _ Hm eq_refl).
  cbn [one_less pred].
  rewrite (split_at SPACE [] (Some 1) path _ Hp eq_refl).
  cbn [one_less pred]. rewrite split_zero.
  rewrite headers_of_header_lines; [reflexivity|].
  eapply Forall_impl; [|exact Hh]. now intros kv [].
Qed.

(** X15. Looking a name up in the headers [handle_connection] builds from the
    header lines gives the value of the last line whose lower-cased name is
    that name, and nothing when there is no such line. *)
Theorem header_lookup_takes_the_last_duplicate
        (headers : list (pystr * pystr)) (name : pystr) :
  Forall (fun kv => ~ In COLON (fst kv)) headers ->
  exists d,
    headers_of_lines lower (map header_line headers) [] = Val d /\
    dict_find name d = last_value lower name headers /\
    dict_mem name d
    = existsb (fun kv => str_eqb (lower (fst kv)) name) headers.
Proof.
  intros H. eexists. split; [now apply headers_of_header_lines|].
  assert (Hf : dict_find name
                 (fold_left (fun acc kv => dict_set (lower (fst kv)) (snd kv) acc)
                            headers [])
               = last_value lower name headers).
  { rewrite dict_find_header_fold. now destruct (last_value lower name headers). }
  split; [exact Hf|].
  unfold dict_mem. rewrite Hf. unfold last_value.
  destruct (find _ (rev headers)) as [kv|] eqn:Hfind; cbn [option_map].
  - apply find_some in Hfind as [Hin Hkv]. symmetry. apply existsb_exists.
    exists kv. split; [now apply in_rev|exact Hkv].
  - destruct (existsb _ headers) eqn:Hex; [|reflexivity].
    apply existsb_exists in Hex as (kv & Hin & Hkv).
    apply in_rev in Hin. now rewrite (find_none _ _ Hfind kv Hin) in Hkv.
Qed.

End RequestFacts.

(** ** Uploads and downloads *)

Section StoredUploads.
Context {W J : Type} (E : Env W J).

Lemma json_is_not_supported (stem : pystr) :
  content_type_of (stem ++ lit ".json") = None.
Proof.
  unfold content_type_of, endswith. rewrite rev_app_distr. reflexivity.
Qed.

(** X16. What [serve_post_request] stores cannot be fetched back: a GET on the
    [filepath] announced for an upload is never answered with the document,
    whatever the time stamp and the random suffix of its name; all it can
    send is the 403, the 404 or the 415 page. *)
Theorem uploaded_document_is_not_served_back
        (s : sock) (timestamp random_id : pystr) (thread_id : nat)
        (keep_alive : bool) (w : W) (s' : sock) (response : bytes) :
  In (EvSendAll s' response)
     (trace (serve_get_request E s
               (response_filepath (upload_filename timestamp random_id))
               thread_id keep_alive w)) ->
  response = page_403_close \/ response = page_404_close \/
  response = page_415_close.
Proof.
  intros Hin.
  assert (Hm : emits (fun ev => match ev with
                                | EvSendAll _ d =>
                                    d = page_403_close \/ d = page_404_close \/
                                    d = page_415_close
                                | _ => True
                                end)
                     (serve_get_request E s
                        (response_filepath (upload_filename timestamp random_id))
                        thread_id keep_alive)).
  { unfold serve_get_request.
    assert (Hd : default_path (response_filepath (upload_filename timestamp random_id))
                 = response_filepath (upload_filename timestamp random_id))
      by reflexivity.
    rewrite Hd.
    destruct (py_in _ _).
    - apply emits_send_error. intros d Hdd.
      rewrite page_403_close_sent in Hdd. injection Hdd as <-. now left.
    - assert (Hct : content_type_of
                      (lit "resources"
                       ++ response_filepath (upload_filename timestamp random_id))
                    = None).
      { unfold response_filepath, upload_filename. rewrite !app_assoc.
        apply json_is_not_supported. }
      rewrite Hct.
      apply emits_try_except.
      + apply emits_bind; [now apply emits_open_read|]. intros content.
        apply emits_send_error. intros d Hdd.
        rewrite page_415_close_sent in Hdd. injection Hdd as <-. tauto.
      + intros e. destruct e; try apply emits_raise.
        apply emits_send_error. intros d Hdd.
        rewrite page_404_close_sent in Hdd. injection Hdd as <-. tauto. }
  specialize (Hm w). rewrite Forall_forall in Hm. now apply Hm in Hin.
Qed.

End StoredUploads.

(** ** Whole connections *)

Section SessionFacts.
Context {W J : Type} (E : Env W J) (cfg : Config).
Variables (s : sock) (thread_id : nat).

Lemma emits_weaken {A} (Q Q' : event -> Prop) (m : M W A) :
  emits Q m -> (forall ev, Q ev -> Q' ev) -> emits Q' m.
Proof. intros H Himp w. eapply Forall_impl; [exact Himp|apply H]. Qed.

Lemma emits_close (Q : event -> Prop) : Q (EvClose s) -> emits Q (close (W:=W) s).
Proof. intros H w. now constructor. Qed.

Lemma emits_settimeout (Q : event -> Prop) n :
  Q (EvSetTimeout s n) -> emits Q (settimeout (W:=W) s n).
Proof. intros H w. now constructor. Qed.

Lemma emits_recv (Q : event -> Prop) n : Q (EvRecv s n) -> emits Q (recv E s n).
Proof.
  intros H w. unfold recv. destruct (sock_recv E s n w). now constructor.
Qed.

(** What holds of the events of every request handler and of the reads
    holds of every pass of the loop. *)
Lemma emits_serve_one (Q : event -> Prop) k :
  Q (EvSetTimeout s 30) -> Q (EvRecv s 8192%N) ->
  (forall req n, emits Q (route_request E cfg s thread_id req n)) ->
  (forall e, emits Q (on_error E s e)) ->
  emits Q (serve_one E cfg s thread_id k).
Proof.
  intros Hst Hrecv Hroute Herr. unfold serve_one.
  apply emits_try_except; [|exact Herr].
  apply emits_bind; [now apply emits_settimeout|]. intros _.
  apply emits_bind; [now apply emits_recv|]. intros data.
  apply emits_bind; [apply emits_decode|]. intros [|c text]; [apply emits_ret|].
  apply emits_bind; [apply emits_lift|]. intros req. apply Hroute.
Qed.

Lemma emits_request_loop (Q : event -> Prop) :
  (forall k, emits Q (serve_one E cfg s thread_id k)) ->
  forall fuel k, emits Q (request_loop E cfg fuel s thread_id k).
Proof.
  intros Hone. induction fuel as [|fuel IH]; intros k; cbn [request_loop];
    destruct (k <? 100); try apply emits_ret.
  apply emits_bind; [apply Hone|]. intros [|n]; [apply emits_ret|apply IH].
Qed.

Lemma emits_handle_connection_at (Q : event -> Prop) fuel k :
  (forall k, emits Q (serve_one E cfg s thread_id k)) -> Q (EvClose s) ->
  emits Q (handle_connection_at E cfg fuel s thread_id k).
Proof.
  intros Hone Hclose. unfold handle_connection_at.
  apply emits_try_finally; [|now apply emits_close].
  apply emits_try_except; [now apply emits_request_loop|].
  intros e. apply emits_ret.
Qed.

End SessionFacts.

Module ResponseFacts.
Import PyStr Runtime Server StrFacts WireFacts ReplyFacts Sessions.

(** The text an encoded head starts with. *)
Lemma encoded_head_starts (p rest : pystr) (head content : bytes) :
  is_ascii p = true ->
  utf8_encode (p ++ rest) = Some head ->
  startswith (octets (head ++ content)) p = true.
Proof.
  intros Hp H. rewrite utf8_encode_app, (utf8_encode_ascii _ Hp) in H.
  destruct (utf8_encode rest) as [r|]; [|discriminate]. injection H as <-.
  rewrite <- app_assoc, octets_app, (octets_ascii _ Hp). apply startswith_app.
Qed.

Lemma ok_head_complete content_type n date filename keep_alive head content :
  utf8_encode (ok_head content_type n date filename keep_alive) = Some head ->
  complete_response (head ++ content).
Proof.
  intros H. split; [|split; [|split]].
  - exists 200. split; [cbn; tauto|].
    exact (encoded_head_starts (lit "HTTP/1.1 200 ") _ _ _ eq_refl H).
  - exact (encoded_text_occurs (lit "HTTP/1.1 200 OK") (CRLF ++ lit "Content-Type: ")
                               _ _ _ eq_refl H).
  - unfold ok_head in H.
    rewrite (app_assoc (lit "HTTP/1.1 200 OK")) in H.
    rewrite (app_assoc _ (lit "Content-Type: ")) in H.
    rewrite (app_assoc _ content_type) in H.
    exact (encoded_text_occurs _ (CRLF ++ lit "Content-Length: ") _ _ _ eq_refl H).
  - pose proof (ok_head_connection _ _ _ _ _ _ content H) as Hc.
    destruct keep_alive; [right|left]; exact Hc.
Qed.

Lemma created_head_complete n date keep_alive head body :
  utf8_encode (created_head n date keep_alive) = Some head ->
  complete_response (head ++ body).
Proof.
  intros H. split; [|split; [|split]].
  - exists 201. split; [cbn; tauto|].
    exact (encoded_head_starts (lit "HTTP/1.1 201 ") _ _ _ eq_refl H).
  - exact (encoded_text_occurs (lit "HTTP/1.1 201 Created")
                               (CRLF ++ lit "Content-Type: ") _ _ _ eq_refl H).
  - exact (encoded_text_occurs
             (lit "HTTP/1.1 201 Created" ++ CRLF ++ lit "Content-Type: application/json")
             (CRLF ++ lit "Content-Length: ") _ _ _ eq_refl H).
  - pose proof (created_head_connection _ _ _ _ body H) as Hc.
    destruct keep_alive; [right|left]; exact Hc.
Qed.

Ltac page_complete ka c :=
  let data := fresh "data" in
  let Hd := fresh "Hd" in
  intros data Hd; destruct ka; vm_compute in Hd; injection Hd as <-;
  (split; [exists c; split; [cbn; tauto|vm_compute; reflexivity]|]);
  (split; [vm_compute; reflexivity|]);
  (split; [vm_compute; reflexivity|]);
  first [left; vm_compute; reflexivity | right; vm_compute; reflexivity].

Lemma error_page_complete code message ka data :
  In (code, message) error_kinds ->
  error_response code message ka [] = Some data ->
  complete_response data.
Proof.
  intros Hin. revert data. pattern code, message.
  apply (error_kinds_cases _ _ _ Hin);
    [page_complete ka 400 | page_complete ka 403 | page_complete ka 404
     | page_complete ka 405 | page_complete ka 415 | page_complete ka 500].
Qed.

Lemma reply_complete keep_alive data : reply keep_alive data -> complete_response data.
Proof.
  intros [code message ka d Hin Hka Hd | ct n date fn head content H | n date head body H].
  - exact (error_page_complete _ _ _ _ Hin Hd).
  - exact (ok_head_complete _ _ _ _ _ _ _ H).
  - exact (created_head_complete _ _ _ _ _ H).
Qed.

End ResponseFacts.
Import ResponseFacts.

Section SessionTheorems.
Context {W J : Type} (E : Env W J) (cfg : Config).

Lemma handler_event_session s keep_alive ev :
  handler_event s (reply keep_alive) ev -> session_event s ev.
Proof.
  destruct ev; cbn; try tauto. intros [-> H]. split; [reflexivity|].
  exact (reply_complete _ _ H).
Qed.

(** X17. Whatever the peer sends, a connection handler only ever touches its
    own socket: the time-out it sets is 30 seconds, it reads at most 8192
    bytes at a time, and every byte string it sends is a complete response,
    with one of the statuses 200, 201, 400, 403, 404, 405, 415 and 500, a
    content type, a content length and a [Connection] line. *)
Theorem connection_sends_only_complete_responses
        (s : sock) (thread_id : nat) (w : W) :
  Forall (session_event s) (trace (handle_connection E cfg s thread_id w)).
Proof.
  unfold handle_connection. apply emits_handle_connection_at; [|reflexivity].
  intros k. apply emits_serve_one; try (split; reflexivity).
  - intros req n. eapply emits_weaken; [apply emits_route_request|].
    intros ev. apply handler_event_session.
  - intros e. eapply emits_weaken; [apply (emits_on_error E s false)|].
    intros ev. apply handler_event_session.
Qed.

Lemma permitted_send_error s code message ka extra :
  emits permitted_access (send_error E s code message ka extra).
Proof. apply emits_send_error. intros; exact I. Qed.

Lemma permitted_serve_get_request s path thread_id keep_alive :
  emits permitted_access (serve_get_request E s path thread_id keep_alive).
Proof.
  unfold serve_get_request.
  destruct (py_in (lit "..") (default_path path)) eqn:Hdots;
    [apply permitted_send_error|].
  apply emits_try_except.
  - apply emits_bind.
    + apply emits_open_read. now exists (default_path path).
    + intros content. destruct (content_type_of _); [|apply permitted_send_error].
      apply emits_bind; [apply emits_time_strftime|]. intros date.
      apply emits_bind_encode. intros h _. now apply emits_sendall.
  - intros e. destruct e; try apply emits_raise. apply permitted_send_error.
Qed.

Lemma permitted_serve_post_request s headers body thread_id keep_alive :
  emits permitted_access (serve_post_request E s headers body thread_id keep_alive).
Proof.
  intros w.
  destruct (startswith (dict_get (lit "content-type") [] headers)
                       (lit "application/json")) eqn:Hct.
  2:{ unfold serve_post_request. rewrite Hct. apply permitted_send_error. }
  destruct (json_loads E body) as [j|e] eqn:Hj.
  2:{ apply (serve_post_undecoded E s headers body thread_id keep_alive w e _ Hct Hj).
      apply permitted_send_error. }
  rewrite (serve_post_accepted E s headers body thread_id keep_alive w j Hct Hj).
  assert (Hm : emits permitted_access
                     (store_upload E s keep_alive (drawn_filename E w) j));
    [|apply Hm].
  unfold store_upload. apply emits_try_except.
  - apply emits_bind.
    + apply emits_open_write_json.
      exists (drawn_timestamp E w), (drawn_random_id E w).
      split; [reflexivity|apply drawn_random_id_length].
    + intros _. apply emits_bind; [apply emits_time_strftime|]. intros date.
      apply emits_bind_encode. intros h _.
      apply emits_bind_encode. intros b _. now apply emits_sendall.
  - intros e. apply permitted_send_error.
Qed.

Lemma permitted_route_request s thread_id req n :
  emits permitted_access (route_request E cfg s thread_id req n).
Proof.
  unfold route_request.
  destruct (negb (dict_mem _ _)).
  { apply emits_bind; [apply permitted_send_error|]. intros _. apply emits_ret. }
  apply emits_bind; [apply emits_lift|]. intros host.
  destruct (negb (str_eqb host _)).
  { apply emits_bind; [apply permitted_send_error|]. intros _. apply emits_ret. }
  apply emits_bind; [|intros _; apply emits_ret].
  destruct (str_eqb (req_method req) (lit "GET"));
    [apply permitted_serve_get_request|].
  destruct (str_eqb (req_method req) (lit "POST"));
    [apply permitted_serve_post_request|apply permitted_send_error].
Qed.

(** X18. A connection handler opens no file but these: for reading, a path
    made of [resources] and a request path that holds no [".."]; for
    writing, an upload under [resources/uploads/], named [upload_], a time
    stamp, [_], four drawn characters and [.json]. *)
Theorem connection_file_access_is_confined
        (s : sock) (thread_id : nat) (w : W) :
  Forall permitted_access (trace (handle_connection E cfg s thread_id w)).
Proof.
  unfold handle_connection. apply emits_handle_connection_at; [|exact I].
  intros k. apply emits_serve_one; try exact I.
  - intros req n. apply permitted_route_request.
  - intros e. unfold on_error. destruct e; try apply emits_ret;
      (apply emits_bind; [apply permitted_send_error|intros _; apply emits_ret]).
Qed.

End SessionTheorems.

(** ** The worker threads and the acceptor *)

Section PoolFacts.
Context {W J : Type} (E : Env W J) (cfg : Config).

Lemma closes_app (a b : list event) : closes (a ++ b) = closes a ++ closes b.
Proof. apply flat_map_app. Qed.

Lemma closes_none (t : list event) :
  Forall (fun ev => is_close ev = false) t -> closes t = [].
Proof.
  induction 1 as [|ev t Hev _ IH]; [reflexivity|].
  unfold closes in *. cbn [flat_map]. rewrite IH.
  destruct ev; try reflexivity. discriminate.
Qed.

(** X19. A worker never dies of what happens on a connection: for every list
    of items taken from the queue it raises nothing and ends stopped (a
    [None] was among the items) or waiting for the next item, having
    handled and closed, in the order of the queue, exactly the sockets that
    come before the first [None], and having called [task_done] once for
    each. *)
Theorem worker_closes_every_dequeued_socket
        (thread_id : nat) (items : list (option sock)) (task_done : nat) (w : W) :
  outcome (worker E cfg thread_id items task_done w)
  = Val ((if told_to_stop items then Stopped else Waiting)
           (task_done + List.length (dequeued items))) /\
  closes (trace (worker E cfg thread_id items task_done w)) = dequeued items.
Proof.
  revert task_done w. induction items as [|[s|] items IH]; intros n w.
  - cbn. now rewrite Nat.add_0_r.
  - cbn [worker dequeued told_to_stop existsb orb List.length].
    rewrite bind_time_strftime.
    set (w1 := snd (strftime E LOG_FORMAT true w)).
    destruct (connection_run E cfg s thread_id 100 0 w1 ltac:(lia))
      as (Hout & t & Htrace & Hnc & _).
    fold (handle_connection E cfg s thread_id w1) in Hout, Htrace.
    unfold bind.
    destruct (handle_connection E cfg s thread_id w1) as [[r w2] t0].
    cbn [outcome trace fst snd] in Hout, Htrace. subst r t0.
    specialize (IH (S n) w2).
    destruct (worker E cfg thread_id items (S n) w2) as [[r' w3] t'].
    cbn [outcome trace fst snd] in IH |- *. destruct IH as [-> Hc].
    split.
    + fold (told_to_stop items).
      replace (n + S (List.length (dequeued items)))
        with (S n + List.length (dequeued items)) by lia.
      reflexivity.
    + rewrite !closes_app, (closes_none t Hnc), Hc. reflexivity.
  - cbn. now rewrite Nat.add_0_r.
Qed.

(** X20. With the queue at its capacity, a 503 that cannot be sent is the end
    of the accept loop: the exception of [sendall] leaves [main_accept], and
    the rejected socket is not closed. *)
Theorem saturated_acceptor_fails_when_the_503_is_not_sent
        (connection_queue : list sock) (s : sock) (w w1 : W) (x : sock_exn) :
  MAX_QUEUE_SIZE <= List.length connection_queue ->
  sock_sendall E s page_503_close w = (Failed x, w1) ->
  main_accept E connection_queue s w
  = (of_sock (Failed x), w1, [EvSendAll s page_503_close]).
Proof.
  intros Hfull Hsend. unfold main_accept, put_nowait, try_except, lift.
  replace (MAX_QUEUE_SIZE <=? List.length connection_queue) with true
    by (symmetry; now apply Nat.leb_le).
  cbn [Nat.ltb Nat.leb MAX_QUEUE_SIZE andb].
  unfold bind at 1.
  rewrite (send_error_run E _ _ _ _ _ _ w page_503_close_sent).
  unfold sendall. rewrite Hsend. now destruct x.
Qed.

End PoolFacts.

(** ** The length a response announces *)

Module LengthFacts.
Import PyStr Runtime Server StrFacts WireFacts.

Lemma is_ascii_app (a b : pystr) : is_ascii (a ++ b) = is_ascii a && is_ascii b.
Proof. apply forallb_app. Qed.

Lemma is_ascii_digits (d : Decimal.uint) :
  is_ascii (lit (NilEmpty.string_of_uint d)) = true.
Proof. induction d; try reflexivity; exact IHd. Qed.

Lemma is_ascii_str_of_nat (n : nat) : is_ascii (str_of_nat n) = true.
Proof.
  unfold str_of_nat, NilZero.string_of_uint.
  destruct (Nat.to_uint n) eqn:Hn; try reflexivity; apply is_ascii_digits.
Qed.

Lemma hex_digit_ascii (d : N) : (d < 16)%N -> (hex_digit d <? 128)%N = true.
Proof.
  intros H. unfold hex_digit. destruct (d <? 10)%N; apply N.ltb_lt; lia.
Qed.

Lemma is_ascii_hex4 (n : N) : is_ascii (hex4 n) = true.
Proof.
  unfold hex4, is_ascii. cbn [forallb].
  rewrite !hex_digit_ascii; [reflexivity|..]; now apply N.mod_lt.
Qed.

Lemma is_ascii_json_escape_char (c : codepoint) :
  is_ascii (json_escape_char c) = true.
Proof.
  unfold json_escape_char.
  repeat match goal with
         | |- context [if ?b then _ else _] => destruct b eqn:?
         end; try reflexivity.
  - match goal with
    | Hr : in_range _ _ c = true |- _ =>
        unfold in_range in Hr; apply andb_true_iff in Hr as [_ Hr];
        apply N.leb_le in Hr
    end.
    unfold is_ascii. cbn [forallb]. rewrite andb_true_r. apply N.ltb_lt. lia.
  - change (BACKSLASH :: lit "u" ++ hex4 c) with ([BACKSLASH; 117%N] ++ hex4 c).
    now rewrite is_ascii_app, is_ascii_hex4.
  - match goal with
    | |- is_ascii (BACKSLASH :: lit "u" ++ hex4 ?a ++ BACKSLASH :: lit "u" ++ hex4 ?b) = _ =>
        change (is_ascii ([BACKSLASH; 117%N] ++ hex4 a ++ [BACKSLASH; 117%N] ++ hex4 b) = true)
    end.
    now rewrite !is_ascii_app, !is_ascii_hex4.
Qed.

Lemma is_ascii_json_string (s : pystr) : is_ascii (json_string s) = true.
Proof.
  unfold json_string. rewrite !is_ascii_app.
  assert (H : is_ascii (flat_map json_escape_char s) = true).
  { induction s as [|c s IH]; [reflexivity|]. cbn [flat_map].
    now rewrite is_ascii_app, is_ascii_json_escape_char. }
  now rewrite H.
Qed.

(** The body of a 201 is ASCII text, whatever the name of the upload. *)
Lemma is_ascii_created_body (filename : pystr) :
  is_ascii (created_body filename) = true.
Proof.
  unfold created_body, json_dumps. cbn [json_members].
  now rewrite !is_ascii_app, !is_ascii_json_string.
Qed.

(** ASCII text is encoded octet for octet. *)
Lemma encode_ascii_text (t : pystr) (b : bytes) :
  is_ascii t = true -> utf8_encode t = Some b ->
  octets b = t /\ List.length b = List.length t.
Proof.
  intros Ht H. rewrite (utf8_encode_ascii _ Ht) in H. injection H as <-.
  split; [now apply octets_ascii|apply length_map].
Qed.

End LengthFacts.
Import LengthFacts.

Section LengthTheorems.
Context {W J : Type} (E : Env W J).

(** X21. An error page whose status message is ASCII announces the length of
    its body: what [send_error] sends is a head followed by a body, the body
    is the HTML text octet for octet, and the head carries a
    [Content-Length] line with the number of octets of the body. *)
Theorem error_page_announces_the_length_of_its_body
        (s : sock) (code : nat) (message : pystr) (keep_alive : bool)
        (extra_headers : dict) (w : W) (s' : sock) (data : bytes) :
  is_ascii message = true ->
  In (EvSendAll s' data)
     (trace (send_error E s code message keep_alive extra_headers w)) ->
  exists head body,
    data = head ++ body /\
    utf8_encode (error_head code message keep_alive extra_headers) = Some head /\
    octets body = error_body code message /\
    has_line (lit "Content-Length: " ++ str_of_nat (List.length body)) head = true.
Proof.
  intros Hmsg Hin.
  assert (Hm : emits (fun ev =>
                        match ev with
                        | EvSendAll _ d =>
                            exists head body,
                              d = head ++ body /\
                              utf8_encode (error_head code message keep_alive
                                                      extra_headers) = Some head /\
                              octets body = error_body code message /\
                              has_line (lit "Content-Length: "
                                        ++ str_of_nat (List.length body)) head = true
                        | _ => True
                        end)
                     (send_error E s code message keep_alive extra_headers)).
  { apply emits_send_error. intros d Hd. unfold error_response in Hd.
    destruct (utf8_encode (error_head _ _ _ _)) as [h|] eqn:Hh; [|discriminate].
    destruct (utf8_encode (error_body _ _)) as [b|] eqn:Hb; [|discriminate].
    injection Hd as <-.
    assert (Hbody : is_ascii (error_body code message) = true).
    { unfold error_body. now rewrite !is_ascii_app, is_ascii_str_of_nat, Hmsg. }
    destruct (encode_ascii_text _ _ Hbody Hb) as [Hoct Hlen].
    exists h, b. repeat split; try assumption; try reflexivity.
    unfold has_line. rewrite Hlen.
    rewrite <- (app_nil_r h).
    apply (encoded_text_occurs
             (lit "HTTP/1.1 " ++ str_of_nat code ++ lit " " ++ message ++ CRLF
              ++ lit "Content-Type: text/html; charset=utf-8")
             (CRLF ++ (lit "Content-Length: "
                       ++ str_of_nat (List.length (error_body code message))) ++ CRLF)
             (extra_header_lines extra_headers ++ connection_headers keep_alive)).
    - now rewrite !is_ascii_app, is_ascii_str_of_nat.
    - rewrite <- Hh. f_equal. unfold error_head. cbn zeta.
      repeat rewrite <- app_assoc. reflexivity. }
  specialize (Hm w). rewrite Forall_forall in Hm. now apply Hm in Hin.
Qed.

Lemma store_upload_sends s keep_alive filename j :
  emits (handler_event s
           (fun d => has_status 201 d = true ->
                     exists date head body,
                       d = head ++ body /\
                       utf8_encode (created_head (List.length body) date keep_alive)
                       = Some head /\
                       octets body = created_body filename))
        (store_upload E s keep_alive filename j).
Proof.
  unfold store_upload. apply emits_try_except.
  - apply emits_bind; [now apply emits_open_write_json|]. intros _.
    apply emits_bind; [apply emits_time_strftime|]. intros date.
    apply emits_bind_encode. intros h Hh.
    apply emits_bind_encode. intros b Hb. apply emits_sendall.
    split; [reflexivity|]. intros _.
    destruct (encode_ascii_text _ _ (is_ascii_created_body filename) Hb) as [Hoct Hlen].
    exists date, h, b. rewrite Hlen. now repeat split.
  - intros e. apply emits_error_not_created. cbv; tauto.
Qed.

(** X22. A 201 announces the length of its body: the response is a head
    followed by a body, the body is the JSON text of the upload octet for
    octet, and the head is the one built for the number of octets of that
    body. *)
Theorem created_response_announces_the_length_of_its_body
        (s : sock) (headers : dict) (body : pystr) (thread_id : nat)
        (keep_alive : bool) (w : W) (response : bytes) :
  In (EvSendAll s response)
     (trace (serve_post_request E s headers body thread_id keep_alive w)) ->
  has_status 201 response = true ->
  exists date head response_body,
    response = head ++ response_body /\
    utf8_encode (created_head (List.length response_body) date keep_alive)
    = Some head /\
    octets response_body = created_body (drawn_filename E w).
Proof.
  intros Hin H201.
  destruct (created_only_if_accepted E s headers body thread_id keep_alive w response
              Hin H201) as (Hct & j & Hj).
  rewrite (serve_post_accepted E s headers body thread_id keep_alive w j Hct Hj) in Hin.
  pose proof (store_upload_sends s keep_alive (drawn_filename E w) j
                                 (world_after_draws E w)) as Hm.
  rewrite Forall_forall in Hm. apply Hm in Hin as [_ Hc]. now apply Hc.
Qed.

End LengthTheorems.

(** ** The properties on the scenarios *)

Module MoreWitnesses.
Import Scenario Cases.

Lemma missing_host_answered_400_witness :
  serve_one env default_config 7 1 0 (start [Done get_without_host])
  = (Val (Next 1), start [],
     [EvSetTimeout 7 30; EvRecv 7 8192%N; EvSendAll 7 page_400_keep_alive]).
Proof.
  refine (missing_host_answered_400 env default_config 7 1 0
            (start [Done get_without_host]) (start []) (start [])
            get_without_host (octets get_without_host) bare_request
            _ _ _ _ _); vm_compute; reflexivity.
Defined.

Lemma foreign_host_answered_403_witness :
  serve_one env default_config 7 1 0 (start [Done get_foreign_host])
  = (Val (Next 1), start [],
     [EvSetTimeout 7 30; EvRecv 7 8192%N; EvSendAll 7 page_403_keep_alive]).
Proof.
  refine (foreign_host_answered_403 env default_config 7 1 0
            (start [Done get_foreign_host]) (start []) (start [])
            get_foreign_host (octets get_foreign_host) foreign_request
            (lit "example.org") _ _ _ _ _ _);
    try (vm_compute; reflexivity).
  vm_compute. discriminate.
Defined.

Lemma other_method_answered_405_witness :
  serve_one env default_config 7 1 0 (start [Done put_head_and_half_body])
  = (Val Break, start [],
     [EvSetTimeout 7 30; EvRecv 7 8192%N; EvSendAll 7 page_405_close]).
Proof.
  refine (other_method_answered_405 env default_config 7 1 0
            (start [Done put_head_and_half_body]) (start []) (start [])
            put_head_and_half_body (octets put_head_and_half_body) put_request
            _ _ _ _ _ _ _);
    try (vm_compute; reflexivity); vm_compute; discriminate.
Defined.

Lemma idle_or_empty_read_closes_silently_witness :
  handle_connection_at env default_config 100 7 1 0 (start [Failed TimedOut])
  = (Val (Some tt), start [], [EvSetTimeout 7 30; EvRecv 7 8192%N; EvClose 7]).
Proof.
  apply (idle_or_empty_read_closes_silently env default_config 7 1 99 0
           (start [Failed TimedOut]) (start []) (Failed TimedOut)).
  - lia.
  - reflexivity.
  - left. reflexivity.
Defined.

Lemma failed_read_answered_500_and_closed_witness :
  outcome (handle_connection_at env default_config 100 7 1 0
             (start [Failed ConnectionError])) = Val (Some tt) /\
  trace (handle_connection_at env default_config 100 7 1 0
           (start [Failed ConnectionError]))
  = [EvSetTimeout 7 30; EvRecv 7 8192%N; EvSendAll 7 page_500_close; EvClose 7].
Proof.
  apply (failed_read_answered_500_and_closed env default_config 7 1 99 0
           (start [Failed ConnectionError]) (start [])).
  - lia.
  - reflexivity.
Defined.

Lemma handler_exception_ends_the_loop_witness :
  (forall n, outcome (serve_one env default_config 7 1 0 (start_gone [Done get_index]))
             <> Val (Next n)) /\
  trace (serve_one env default_config 7 1 0 (start_gone [Done get_index]))
  = EvSetTimeout 7 30 :: EvRecv 7 8192%N
    :: [EvOpen (lit "resources/index.html") ModeRB; EvSendAll 7 ok_index_keep_alive]
    ++ [EvSendAll 7 page_500_close].
Proof.
  refine (handler_exception_ends_the_loop env default_config 7 1 0
            (start_gone [Done get_index]) (start_gone []) (start_gone [])
            get_index (octets get_index) index_request OtherError
            [EvOpen (lit "resources/index.html") ModeRB;
             EvSendAll 7 ok_index_keep_alive] _ _ _ _);
    vm_compute; reflexivity.
Defined.

Lemma no_read_after_close_decision_witness :
  reads (trace (handle_connection_at env default_config 100 7 1 0
                  (start [Done put_head_and_half_body; Done put_rest_of_body]))) = 1.
Proof.
  apply (no_read_after_close_decision env default_config 7 1 99 0
           (start [Done put_head_and_half_body; Done put_rest_of_body])).
  - lia.
  - vm_compute. reflexivity.
Defined.

Lemma get_delivers_the_file_content_witness :
  trace (serve_get_request env 7 (lit "/index.html") 1 true (start []))
  = [EvOpen (lit "resources/index.html") ModeRB; EvSendAll 7 ok_index_keep_alive].
Proof.
  pose proof (get_delivers_the_file_content env 7 (lit "/index.html") 1 true
                (start []) (start []) index_html (lit "text/html; charset=utf-8")) as H.
  cbv zeta in H. rewrite H; vm_compute; reflexivity.
Defined.

Lemma missing_file_404_says_close_but_loop_goes_on_witness :
  serve_one env default_config 7 1 0 (start [Done get_missing])
  = (Val (Next 1), start [],
     [EvSetTimeout 7 30; EvRecv 7 8192%N;
      EvOpen (lit "resources/missing.html") ModeRB; EvSendAll 7 page_404_close]).
Proof.
  refine (proj1 (missing_file_404_says_close_but_loop_goes_on env default_config 7 1 0
            (start [Done get_missing]) (start []) (start []) (start [])
            get_missing (octets get_missing) missing_request
            _ _ _ _ _ _ _ _ _));
    vm_compute; reflexivity.
Defined.

Lemma post_writes_only_decoded_json_witness :
  startswith (dict_get (lit "content-type") [] json_headers) (lit "application/json")
  = true /\
  (exists j, json_loads env (lit "{}") = Val j) /\
  ModeW = ModeW /\
  upload_kd7h_path = upload_path env (start []).
Proof.
  apply (post_writes_only_decoded_json env 7 json_headers (lit "{}") 1 true (start [])
           upload_kd7h_path ModeW).
  vm_compute. left. reflexivity.
Defined.

Lemma post_malformed_json_answered_400_witness :
  trace (serve_post_request env 7 json_headers post_broken_json 1 true (start []))
  = [EvSendAll 7 page_400_close].
Proof.
  apply (post_malformed_json_answered_400 env 7 json_headers post_broken_json 1 true
           (start [])); vm_compute; reflexivity.
Defined.

Lemma post_write_failure_answered_500_witness :
  trace (serve_post_request read_only_env 7 json_headers (lit "{}") 1 true (start []))
  = [EvOpen (upload_path read_only_env (start [])) ModeW; EvSendAll 7 page_500_close].
Proof.
  apply (post_write_failure_answered_500 read_only_env 7 json_headers (lit "{}") 1 true
           (start []) (world_after_draws read_only_env (start [])) (lit "{}") OtherError);
    vm_compute; reflexivity.
Defined.

Lemma created_only_after_the_write_witness :
  exists rest,
    trace (serve_post_request env 7 json_headers (lit "{}") 1 true (start []))
    = EvOpen (upload_path env (start [])) ModeW :: EvSendAll 7 created_kd7h_page :: rest.
Proof.
  destruct (created_only_after_the_write env 7 json_headers (lit "{}") 1 true (start [])
              created_kd7h_page) as (_ & Hrest & _).
  - vm_compute. right. left. reflexivity.
  - vm_compute. reflexivity.
  - exact Hrest.
Defined.

Lemma uploaded_document_is_not_served_back_witness :
  In (EvSendAll 7 page_415_close)
     (trace (serve_get_request env 7
               (response_filepath (upload_filename (lit "20261103_101010") (lit "kd7h")))
               1 true after_upload)) /\
  (page_415_close = page_403_close \/ page_415_close = page_404_close \/
   page_415_close = page_415_close).
Proof.
  assert (Hin : In (EvSendAll 7 page_415_close)
                   (trace (serve_get_request env 7
                             (response_filepath
                                (upload_filename (lit "20261103_101010") (lit "kd7h")))
                             1 true after_upload)))
    by (vm_compute; right; left; reflexivity).
  split; [exact Hin|].
  exact (uploaded_document_is_not_served_back env 7 (lit "20261103_101010") (lit "kd7h")
           1 true after_upload 7 page_415_close Hin).
Defined.

Lemma parse_request_reads_back_request_text_witness :
  parse_request ascii_lower
    (request_text (lit "POST") (lit "/upload") (lit "HTTP/1.1") upload_headers (lit "{}"))
  = Val {| req_method := lit "POST"; req_path := lit "/upload";
           req_version := lit "HTTP/1.1";
           req_headers := header_dict ascii_lower upload_headers;
           req_body := lit "{}" |}.
Proof.
  apply (parse_request_reads_back_request_text ascii_lower (lit "POST") (lit "/upload")
           (lit "HTTP/1.1") upload_headers (lit "{}")).
  - vm_compute. intuition discriminate.
  - vm_compute. intuition discriminate.
  - vm_compute. intuition discriminate.
  - repeat constructor; vm_compute; intuition discriminate.
Defined.

Lemma header_lookup_takes_the_last_duplicate_witness :
  exists d,
    headers_of_lines ascii_lower (map header_line upload_headers) [] = Val d /\
    dict_find (lit "content-type") d = Some (lit "application/json").
Proof.
  destruct (header_lookup_takes_the_last_duplicate ascii_lower upload_headers
              (lit "content-type")) as (d & Hd & Hfind & _).
  - repeat constructor; vm_compute; intuition discriminate.
  - exists d. split; [exact Hd|]. rewrite Hfind. vm_compute. reflexivity.
Defined.

Lemma saturated_acceptor_fails_when_the_503_is_not_sent_witness :
  main_accept env full_queue 9 (start_gone [])
  = (Raise OtherError, start_gone [], [EvSendAll 9 page_503_close]).
Proof.
  apply (saturated_acceptor_fails_when_the_503_is_not_sent env full_queue 9
           (start_gone []) (start_gone []) ConnectionError).
  - vm_compute. lia.
  - vm_compute. reflexivity.
Defined.

Lemma error_page_announces_the_length_of_its_body_witness :
  exists head body,
    page_404_close = head ++ body /\
    utf8_encode (error_head 404 (lit "Not Found") false []) = Some head /\
    octets body = error_body 404 (lit "Not Found") /\
    has_line (lit "Content-Length: " ++ str_of_nat (List.length body)) head = true.
Proof.
  apply (error_page_announces_the_length_of_its_body env 7 404 (lit "Not Found") false []
           (start []) 7 page_404_close).
  - vm_compute. reflexivity.
  - vm_compute. left. reflexivity.
Defined.

Lemma created_response_announces_the_length_of_its_body_witness :
  exists date head response_body,
    created_kd7h_page = head ++ response_body /\
    utf8_encode (created_head (List.length response_body) date true) = Some head /\
    octets response_body = created_body (drawn_filename env (start [])).
Proof.
  apply (created_response_announces_the_length_of_its_body env 7 json_headers (lit "{}")
           1 true (start []) created_kd7h_page).
  - vm_compute. right. left. reflexivity.
  - vm_compute. reflexivity.
Defined.

End MoreWitnesses.
